(** * MapComponent: interaction logic of the map viewer

    A shallow embedding of [src/components/MapComponent.jsx]: the two
    geocoding clients, the React state slices of the component, the pointer
    handlers wired by the initialisation effect, the [load] handler that
    registers datasets and layers, the reset operation, the category
    filtering effect, the routing request, the autosuggest timer, the
    route-line and collected-coordinates effects, and the page as an event
    loop over handlers and network answers.

    JavaScript numbers are IEEE-754 binary64 values: they are embedded as
    Rocq's primitive floats, so that literals, [+] and [/] are the ones the
    program runs with.  Strings are sequences of code units below 256. *)

From stdpp Require Import base strings list gmap.
From Stdlib Require Import Ascii ZArith DecimalString Uint63.
From Stdlib Require Import Floats.PrimFloat Floats.FloatOps Floats.SpecFloat.

Set Warnings "-inexact-float,-register-all".

Local Open Scope string_scope.
Local Open Scope Z_scope.

(** ** The JavaScript built-ins the component calls *)

Module JS.

Definition number := float.

Definition NaN : number := PrimFloat.nan.

(** Decimal digits of a non-negative integer. *)
Definition digits_of (n : Z) : string :=
  NilZero.string_of_uint (N.to_uint (Z.to_N n)).

Fixpoint zeros (k : nat) : string :=
  match k with
  | O => ""
  | S k => String "0"%char (zeros k)
  end.

Fixpoint take (k : nat) (s : string) : string :=
  match k, s with
  | S k, String c s => String c (take k s)
  | _, _ => ""
  end.

Fixpoint drop (k : nat) (s : string) : string :=
  match k, s with
  | S k, String _ s => drop k s
  | _, _ => s
  end.

(** [Number.prototype.toFixed], step "let n be an integer for which
    n / 10^f - x is as close to zero as possible; if there are two such n,
    pick the larger": for x = m * 2^e this is floor (x * 10^f + 1/2). *)
Definition scaled_round (m : positive) (e : Z) (f : nat) : Z :=
  let p := 10 ^ Z.of_nat f in
  if 0 <=? e then Z.pos m * 2 ^ e * p
  else let d := 2 ^ (- e) in (2 * Z.pos m * p + d) / (2 * d).

(** The digits of n with the decimal point placed f digits from the right,
    padded with leading zeros up to f + 1 digits. *)
Definition fixed_digits (f : nat) (n : Z) : string :=
  let m := digits_of n in
  match f with
  | O => m
  | _ =>
      let k := String.length m in
      let m := if (k <=? f)%nat then zeros (f + 1 - k) ++ m else m in
      let k := String.length m in
      take (k - f) m ++ "." ++ drop (k - f) m
  end.

Definition ge_1e21 (m : positive) (e : Z) : bool :=
  if 0 <=? e then 10 ^ 21 <=? Z.pos m * 2 ^ e
  else 10 ^ 21 * 2 ^ (- e) <=? Z.pos m.

(** Does the integer v round (to nearest, ties to even) to the double
    m * 2^e?  Only used for doubles of at least 10^21, where e > 1. *)
Definition rounds_to (m : positive) (e : Z) (v : Z) : bool :=
  let X := Z.pos m * 2 ^ e in
  let hi := 2 ^ (e - 1) in
  let lo := if Z.pos m =? 2 ^ 52 then 2 ^ (e - 2) else 2 ^ (e - 1) in
  if Z.even (Z.pos m) then (X - lo <=? v) && (v <=? X + hi)
  else (X - lo <? v) && (v <? X + hi).

Definition exponent_form (s : Z) (n : Z) : string :=
  match digits_of s with
  | String c "" => String c "" ++ "e+" ++ digits_of (n - 1)
  | String c rest => String c "" ++ "." ++ rest ++ "e+" ++ digits_of (n - 1)
  | "" => ""
  end.

(** [Number::toString] for a double of at least 10^21: the shortest digit
    string s (k digits) with s * 10^(n-k) rounding back to the double, the
    closest one when several have that length, in exponent notation. *)
Fixpoint shortest (m : positive) (e : Z) (n0 : Z) (k : Z) (fuel : nat) : string :=
  let X := Z.pos m * 2 ^ e in
  let scale := 10 ^ (n0 - k) in
  let s1 := X / scale in
  let s2 := s1 + 1 in
  let in1 := rounds_to m e (s1 * scale) in
  let in2 := rounds_to m e (s2 * scale) in
  let pick2 :=
    if in1 && in2 then
      let d1 := X - s1 * scale in
      let d2 := s2 * scale - X in
      (d2 <? d1) || ((d2 =? d1) && Z.even s2)
    else in2 in
  if in1 || in2 then
    if pick2 then
      (if s2 =? 10 ^ k then exponent_form 1 (n0 + 1) else exponent_form s2 n0)
    else exponent_form s1 n0
  else
    match fuel with
    | O => exponent_form s1 n0
    | S fuel => shortest m e n0 (k + 1) fuel
    end.

Definition toString_large (m : positive) (e : Z) : string :=
  let X := Z.pos m * 2 ^ e in
  shortest m e (Z.of_nat (String.length (digits_of X))) 1 20.

(** [x.toFixed(f)] for 0 <= f <= 100 (the component uses 4 and 6). *)
Definition toFixed (x : number) (f : nat) : string :=
  match Prim2SF x with
  | S754_nan => "NaN"
  | S754_infinity false => "Infinity"
  | S754_infinity true => "-Infinity"
  | S754_zero _ => fixed_digits f 0
  | S754_finite s m e =>
      (if s then "-" else "") ++
      (if ge_1e21 m e then toString_large m e
       else fixed_digits f (scaled_round m e f))
  end.

(** The exact value [coef * 2^exp2 * 10^exp10], for comparing a double with
    a decimal without rounding. *)
Record scaled := Scaled { coef : Z; exp2 : Z; exp10 : Z }.

Definition scaled_compare (a b : scaled) : comparison :=
  let up (z : Z) := Z.max z 0 in
  let down (z : Z) := Z.max (- z) 0 in
  (coef a * 2 ^ up (exp2 a) * 10 ^ up (exp10 a) * 2 ^ down (exp2 b) * 10 ^ down (exp10 b))
  ?= (coef b * 2 ^ up (exp2 b) * 10 ^ up (exp10 b) * 2 ^ down (exp2 a) * 10 ^ down (exp10 a)).

Definition scaled_ltb (a b : scaled) : bool :=
  match scaled_compare a b with Lt => true | _ => false end.

Definition scaled_leb (a b : scaled) : bool :=
  match scaled_compare a b with Gt => false | _ => true end.

(** The least [n], from [n0] on, with [x < 10^n]. *)
Fixpoint first_power_above (x : scaled) (n0 : Z) (fuel : nat) : Z :=
  match fuel with
  | O => n0
  | S fuel =>
      if scaled_ltb x (Scaled 1 0 n0) then n0 else first_power_above x (n0 + 1) fuel
  end.

(** The [n] with [10^(n-1) <= m * 2^e < 10^n]. *)
Definition decimal_exponent (m : positive) (e : Z) : Z :=
  let estimate := (Z.log2 (Z.pos m) + e) * 30103 / 100000 in
  first_power_above (Scaled (Z.pos m) e 0) (estimate - 1) 6.

(** Does [s * 10^p] round (to nearest, ties to even) to the double
    [m * 2^e]?  The double below is half as far when [m] is the least
    mantissa of a binade above the subnormals. *)
Definition reads_back (m : positive) (e : Z) (s p : Z) : bool :=
  let below := if (Z.pos m =? 2 ^ 52) && (-1074 <? e) then 1 else 2 in
  let lo := Scaled (4 * Z.pos m - below) (e - 2) 0 in
  let hi := Scaled (4 * Z.pos m + 2) (e - 2) 0 in
  let v := Scaled s 0 p in
  if Z.even (Z.pos m) then scaled_leb lo v && scaled_leb v hi
  else scaled_ltb lo v && scaled_ltb v hi.

(** [Number::toString], steps 5 and following: the digits [s] and the
    exponent [n] with [s * 10^(n-k)] reading back as the double, for the
    least number [k] of digits; of two such [s] the one closer to the
    double. *)
Fixpoint shortest_digits (m : positive) (e : Z) (n : Z) (k : Z) (fuel : nat) : Z * Z :=
  let p := n - k in
  let s1 := (Z.pos m * 2 ^ Z.max e 0 * 10 ^ Z.max (- p) 0)
            / (2 ^ Z.max (- e) 0 * 10 ^ Z.max p 0) in
  let s2 := s1 + 1 in
  let in1 := reads_back m e s1 p in
  let in2 := reads_back m e s2 p in
  let second :=
    if in1 && in2 then
      match scaled_compare (Scaled (2 * Z.pos m) e 0) (Scaled (s1 + s2) 0 p) with
      | Gt => true
      | Eq => Z.even s2
      | Lt => false
      end
    else in2 in
  if in1 || in2 then
    if second then (if s2 =? 10 ^ k then (1, n + 1) else (s2, n)) else (s1, n)
  else
    match fuel with
    | O => (s1, n)
    | S fuel => shortest_digits m e n (k + 1) fuel
    end.

(** [Number::toString] for a positive finite double, steps 6 to 10. *)
Definition decimal_form (s n : Z) : string :=
  let digits := digits_of s in
  let k := Z.of_nat (String.length digits) in
  if (k <=? n) && (n <=? 21) then digits ++ zeros (Z.to_nat (n - k))
  else if (0 <? n) && (n <=? 21) then
    take (Z.to_nat n) digits ++ "." ++ drop (Z.to_nat n) digits
  else if (-6 <? n) && (n <=? 0) then "0." ++ zeros (Z.to_nat (- n)) ++ digits
  else
    let e := n - 1 in
    (if k =? 1 then digits else take 1 digits ++ "." ++ drop 1 digits)
    ++ "e" ++ (if e <? 0 then "-" else "+") ++ digits_of (Z.abs e).

(** [String(x)] for a number, as in a template literal. *)
Definition toString (x : number) : string :=
  match Prim2SF x with
  | S754_nan => "NaN"
  | S754_infinity false => "Infinity"
  | S754_infinity true => "-Infinity"
  | S754_zero _ => "0"
  | S754_finite sign m e =>
      let '(s, n) := shortest_digits m e (decimal_exponent m e) 1 17 in
      (if sign then "-" else "") ++ decimal_form s n
  end.

(** White space and line terminators among the code units below 256: tab,
    line feed, vertical tab, form feed, carriage return, space and the
    no-break space U+00A0. *)
Definition is_space (c : ascii) : bool :=
  let n := nat_of_ascii c in
  ((9 <=? n) && (n <=? 13))%nat || (n =? 32)%nat || (n =? 160)%nat.

Fixpoint trimStart (s : string) : string :=
  match s with
  | String c s' => if is_space c then trimStart s' else s
  | "" => ""
  end.

Fixpoint trimEnd (s : string) : string :=
  match s with
  | "" => ""
  | String c s' =>
      match trimEnd s' with
      | "" => if is_space c then "" else String c ""
      | t => String c t
      end
  end.

(** [String.prototype.trim]. *)
Definition trim (s : string) : string := trimEnd (trimStart s).

(** Truthiness of a value that is a string, [undefined] or [null]. *)
Definition truthy (v : option string) : bool :=
  match v with
  | Some "" | None => false
  | Some _ => true
  end.

(** [v || d] for such a value. *)
Definition or_default (v : option string) (d : string) : string :=
  match v with
  | Some "" | None => d
  | Some s => s
  end.

Definition is_digit (c : ascii) : bool :=
  let n := nat_of_ascii c in ((48 <=? n) && (n <=? 57))%nat.

Definition digit_val (c : ascii) : Z := Z.of_nat (nat_of_ascii c) - 48.

(** Reads a run of decimal digits: its value, its length and the rest. *)
Fixpoint read_digits (s : string) (acc : Z) (len : Z) : Z * Z * string :=
  match s with
  | String c s' =>
      if is_digit c then read_digits s' (10 * acc + digit_val c) (len + 1)
      else (acc, len, s)
  | "" => (acc, len, s)
  end.

(** The optional ExponentPart: [e] or [E], an optional sign and at least
    one digit; anything else is not part of the literal. *)
Definition read_exponent (s : string) : Z :=
  match s with
  | String c s' =>
      if (Ascii.eqb c "e" || Ascii.eqb c "E")%char then
        match s' with
        | String "-"%char s'' =>
            let '(v, len, _) := read_digits s'' 0 0 in
            if 0 <? len then - v else 0
        | String "+"%char s'' =>
            let '(v, len, _) := read_digits s'' 0 0 in
            if 0 <? len then v else 0
        | _ => let '(v, _, _) := read_digits s' 0 0 in v
        end
      else 0
  | "" => 0
  end.

(** The double nearest to d * 10^e (ties to even), for d >= 0. *)
Definition nearest_double (d : Z) (e : Z) : spec_float :=
  if 0 <=? e then binary_normalize 53 1024 (d * 10 ^ e) 0 false
  else
    let den := 10 ^ (- e) in
    let s := Z.max 0 (56 + Z.log2 den - Z.log2 d) + 1 in
    let q := (d * 2 ^ s) / den in
    let sticky := if (d * 2 ^ s) mod den =? 0 then 0 else 1 in
    binary_normalize 53 1024 (2 * q + sticky) (- s - 1) false.

Definition starts_with (p s : string) : bool :=
  String.eqb (take (String.length p) s) p.

(** The unsigned part of a StrDecimalLiteral prefix. *)
Definition parse_unsigned (s : string) : number :=
  if starts_with "Infinity" s then PrimFloat.infinity
  else
    let '(ip, ilen, rest) := read_digits s 0 0 in
    match rest with
    | String "."%char rest' =>
        let '(fp, flen, rest'') := read_digits rest' 0 0 in
        if (ilen =? 0) && (flen =? 0) then NaN
        else SF2Prim (nearest_double (ip * 10 ^ flen + fp)
                                     (read_exponent rest'' - flen))
    | _ =>
        if ilen =? 0 then NaN
        else SF2Prim (nearest_double ip (read_exponent rest))
    end.

(** [parseFloat] of a string. *)
Definition parseFloat (s : string) : number :=
  match trimStart s with
  | String "-"%char s' => PrimFloat.opp (parse_unsigned s')
  | String "+"%char s' => parse_unsigned s'
  | s' => parse_unsigned s'
  end.

(** [x || d] for a number: 0, -0 and NaN are falsy. *)
Definition num_or (x d : number) : number :=
  if PrimFloat.eqb x 0%float || PrimFloat.is_nan x then d else x.

(** The number value of an array length. *)
Definition of_nat (n : nat) : number :=
  PrimFloat.of_uint63 (Uint63.of_Z (Z.of_nat n)).

(** [a[i]] for an array of numbers used in arithmetic: a missing element
    is [undefined], which [+] turns into NaN. *)
Definition at_index (a : list number) (i : nat) : number := nth i a NaN.

End JS.

(** ** Configuration constants *)

Definition MAP_STYLE_URL := "https://tiles.stadiamaps.com/styles/alidade_satellite.json".
Definition API_BASE_URL := "https://ins-back-end.onrender.com/api/map".
Definition NOMINATIM_API_URL := "https://nominatim.openstreetmap.org/search".
Definition REVERSE_NOMINATIM_API_URL := "https://nominatim.openstreetmap.org/reverse".

Module DEFAULT_CENTER.
Definition lng : JS.number := 83.23%float.
Definition lat : JS.number := 17.72%float.
Definition zoom : JS.number := 14%float.
Definition pitch : JS.number := 65%float.
End DEFAULT_CENTER.

Definition ROUTE_POINT_SOURCE_ID := "route-point-source".
Definition ROUTE_POINT_LAYER_ID := "route-point-layer".
Definition BOX_SOURCE_ID := "box-polygon-source".
Definition BOX_LAYER_ID := "box-polygon-layer".
Definition CLICKED_POINTS_SOURCE_ID := "clicked-points-source".
Definition COLLECTED_COORDS_SOURCE_ID := "collected-coords-source".
Definition COLLECTED_COORDS_LAYER_ID := "collected-coords-layer".
Definition MAX_LOGGED_CLICKS : nat := 1.
Definition MAX_COLLECTED_POINTS : nat := 155.

Definition CATEGORY_OPTIONS : list string :=
  ["All"; "Building"; "Cabin"; "Security Pillar"; "Gate"; "Other"; "main"].
Definition BUILDING_LAYER_ID := "buildings-3d".
Definition PHOTO_MARKER_LAYER_ID := "building-marker".
Definition DEBOUNCE_DELAY : nat := 300.

Definition COLOR_GOLD := "#d4af37".
Definition COLOR_PURPLE := "#9400d3".
Definition COLOR_ROUTE_GREEN := "#047857".

(** The string constants bound at module level, by name.  An identifier
    that is neither here nor bound in an enclosing function is unresolvable
    when it is evaluated. *)
Definition module_scope : list (string * string) :=
  [ ("MAP_STYLE_URL", MAP_STYLE_URL);
    ("API_BASE_URL", API_BASE_URL);
    ("NOMINATIM_API_URL", NOMINATIM_API_URL);
    ("REVERSE_NOMINATIM_API_URL", REVERSE_NOMINATIM_API_URL);
    ("ROUTE_POINT_SOURCE_ID", ROUTE_POINT_SOURCE_ID);
    ("ROUTE_POINT_LAYER_ID", ROUTE_POINT_LAYER_ID);
    ("BOX_SOURCE_ID", BOX_SOURCE_ID);
    ("BOX_LAYER_ID", BOX_LAYER_ID);
    ("CLICKED_POINTS_SOURCE_ID", CLICKED_POINTS_SOURCE_ID);
    ("COLLECTED_COORDS_SOURCE_ID", COLLECTED_COORDS_SOURCE_ID);
    ("COLLECTED_COORDS_LAYER_ID", COLLECTED_COORDS_LAYER_ID);
    ("BUILDING_LAYER_ID", BUILDING_LAYER_ID);
    ("PHOTO_MARKER_LAYER_ID", PHOTO_MARKER_LAYER_ID);
    ("COLOR_GOLD", COLOR_GOLD);
    ("COLOR_PURPLE", COLOR_PURPLE);
    ("COLOR_ROUTE_GREEN", COLOR_ROUTE_GREEN) ].

Fixpoint scope_lookup (name : string) (scope : list (string * string)) : option string :=
  match scope with
  | [] => None
  | (n, v) :: rest => if String.eqb n name then Some v else scope_lookup name rest
  end.

(** ** Data model *)

Inductive JSError :=
| ReferenceError (message : string)
| TypeError (message : string)
| Error (message : string).

Definition message (e : JSError) : string :=
  match e with
  | ReferenceError m | TypeError m | Error m => m
  end.

(** A [LngLat] instance of the library. *)
Module LngLat.
Record t := { lng : JS.number; lat : JS.number }.
End LngLat.

(** What the component passes where the library expects a position: the
    coordinates of a GeoJSON geometry of the building dataset (a point or a
    polygon), an array it builds itself, or a [LngLat] instance the library
    has handed out. *)
Inductive Coordinates :=
| Position (c : list JS.number)
| Rings (r : list (list (list JS.number)))
| Instance (p : LngLat.t).

Inductive Geometry :=
| Point (coordinates : list JS.number)
| Polygon (coordinates : list (list (list JS.number))).

Definition geometry_coordinates (g : Geometry) : Coordinates :=
  match g with
  | Point c => Position c
  | Polygon r => Rings r
  end.

Module Viewpoint.
Record t := { coordinates : option (list JS.number) }.
End Viewpoint.

Module Properties.
Record t := {
    name : option string;
    id : option string;
    imageURL : option string;
    category : option string;
    height : option JS.number;
    viewpoint : option Viewpoint.t }.
End Properties.

Module Feature.
Record t := { geometry : Geometry; properties : Properties.t }.
End Feature.

(** A feature as [queryRenderedFeatures] reports it, with its layer. *)
Module Rendered.
Record t := { layer_id : string; feature : Feature.t }.
End Rendered.

Definition FeatureCollection := list Feature.t.

(** The line the routing service answers with. *)
Module Route.
Record t := { coordinates : list (list JS.number) }.
End Route.

Module Suggestion.
Record t := { name : string; lng : JS.number; lat : JS.number; zoom : JS.number }.
End Suggestion.

Module GeocodeInfo.
Record t := {
    pincode : string;
    latitude : string;
    longitude : string;
    fullAddress : string }.
End GeocodeInfo.

(** A value stored in [centerPoint]: a number, a ring when the indexed
    array holds rings, or [undefined]. *)
Inductive Coord :=
| CUndefined
| CNum (n : JS.number)
| CRing (r : list (list JS.number)).

Module CenterPoint.
Record t := { lng : Coord; lat : Coord }.
End CenterPoint.

Module SelectedFeature.
Record t := {
    name : option string;
    id : option string;
    imageURL : option string;
    category : option string;
    centerPoint : CenterPoint.t }.
End SelectedFeature.

Module RoutePoint.
Record t := { lng : JS.number; lat : JS.number }.
End RoutePoint.

Module LoggedClick.
Record t := { lng : string; lat : string; button : string }.
End LoggedClick.

Module CollectedCoordinate.
Record t := { lng : string; lat : string }.
End CollectedCoordinate.

(** The [useState] slices of the component that its handlers share (the
    displayed map centre, written by the move listener alone, is left
    out). *)
Record UIState := MkUI {
  searchQuery : string;
  searchSuggestions : list Suggestion.t;
  searchError : option string;
  reverseGeocodeInfo : option GeocodeInfo.t;
  isReverseGeocoding : bool;
  selectedFeature : option SelectedFeature.t;
  view360Url : option string;
  activeCategory : string;
  isCoordinateFormOpen : bool;
  routePoints : list RoutePoint.t;
  loggedClicks : list LoggedClick.t;
  collectedCoordinates : list CollectedCoordinate.t }.

Definition initial_ui : UIState :=
  {| searchQuery := "";
     searchSuggestions := [];
     searchError := None;
     reverseGeocodeInfo := None;
     isReverseGeocoding := false;
     selectedFeature := None;
     view360Url := None;
     activeCategory := "All";
     isCoordinateFormOpen := false;
     routePoints := [];
     loggedClicks := [];
     collectedCoordinates := [] |}.

(** The slice of the Redux store the component selects. *)
Record Store := MkStore {
  buildings : option FeatureCollection;
  route : option Route.t;
  loading : bool;
  error : option string }.

Inductive Action :=
| setRoute (payload : option Route.t)
| setError (payload : string).

(** Modelled from the spec: the reducers of [redux/mapSlice], which the
    component only imports; [setRoute] stores the route it is given (a null
    payload clears it) and [setError] stores the message. *)
Definition mapReducer (s : Store) (a : Action) : Store :=
  match a with
  | setRoute r =>
      {| buildings := buildings s; route := r; loading := loading s; error := error s |}
  | setError m =>
      {| buildings := buildings s; route := route s; loading := loading s; error := Some m |}
  end.

(** MapLibre style expressions are JSON arrays. *)
Inductive Expr :=
| Str (s : string)
| Num (n : JS.number)
| Arr (items : list Expr).

Module Layer.
Record t := {
    id : string;
    type : string;
    source : string;
    layout : list (string * Expr);
    paint : list (string * Expr);
    filter : option Expr }.
End Layer.

Inductive GeoJSON :=
| Collection (features : FeatureCollection)
| Line (r : Route.t).

(** The values of [routePoints] and [route] a handler closes over: those of
    the render in which the initialisation effect ran. *)
Module Captured.
Record t := { routePoints : list RoutePoint.t; route : option Route.t }.
End Captured.

Inductive LayerHandler := BuildingClick | PhotoMarkerClick.

Inductive Listener :=
| OnMove
| OnMouseDown
| OnClick (closure : Captured.t)
| OnContextMenu
| OnLoad (buildings : FeatureCollection)
| OnLayerClick (layer : string) (handler : LayerHandler).

(** The map instance held in [map.current]. *)
Record MapHost := MkMap {
  sources : gmap string GeoJSON;
  layers : list Layer.t;
  images : list string;
  styleLoaded : bool;
  listeners : list Listener }.

Module FlyOptions.
Record t := {
    center : Coordinates;
    zoom : option JS.number;
    pitch : option JS.number;
    bearing : option JS.number;
    essential : bool }.
End FlyOptions.

(** What a handler does besides updating state. *)
Inductive Effect :=
| PreventDefault
| ConsoleLog (text : string)
| ConsoleError (text : string)
| FlyTo (options : FlyOptions.t)
| ErrorEvent (text : string)
| LoadImage (url : string).

Record World := MkWorld {
  ui : UIState;
  store : Store;
  map_current : option MapHost;
  effects : list Effect }.

(** ** Synchronous code: state and exceptions *)

Inductive Result (A : Type) :=
| Ok (a : A)
| Thrown (e : JSError).
Arguments Ok {A} a.
Arguments Thrown {A} e.

(** A synchronous piece of code runs on the current world; what it changed
    before throwing stays changed. *)
Definition Sync (A : Type) : Type := World -> World * Result A.

Definition sret {A} (a : A) : Sync A := fun w => (w, Ok a).

Definition sthrow {A} (e : JSError) : Sync A := fun w => (w, Thrown e).

Definition sbind {A B} (m : Sync A) (f : A -> Sync B) : Sync B :=
  fun w =>
    match m w with
    | (w', Ok a) => f a w'
    | (w', Thrown e) => (w', Thrown e)
    end.

(** ** Asynchronous code: tasks suspended on a network call *)

Module Place.
Record t := { display_name : string; lon : string; lat : string; type : string }.
End Place.

Module Address.
Record t := { postcode : option string }.
End Address.

Module ReverseData.
Record t := { address : option Address.t; display_name : option string }.
End ReverseData.

(** The HTTP calls of the component:
    - [SearchGet q limit] is
      [axios.get(NOMINATIM_API_URL, {params: {q, format: 'json', limit, addressdetails: 1}})];
    - [ReverseGet lat lon] is
      [axios.get(REVERSE_NOMINATIM_API_URL, {params: {lat, lon, format: 'json', addressdetails: 1, zoom: 18}})]. *)
Inductive Request :=
| SearchGet (q : string) (limit : nat)
| ReverseGet (lat lon : JS.number).

(** The type of [response.data] for each call; [None] is an empty body. *)
Definition Response (req : Request) : Type :=
  match req with
  | SearchGet _ _ => option (list Place.t)
  | ReverseGet _ _ => option ReverseData.t
  end.

Inductive Outcome (R : Type) :=
| Resolved (data : R)
| Rejected (e : JSError).
Arguments Resolved {R} data.
Arguments Rejected {R} e.

Inductive Task (A : Type) : Type :=
| Return (a : A)
| Raise (e : JSError)
| Await (req : Request) (k : Outcome (Response req) -> Task A)
| Do {B : Type} (s : Sync B) (k : B -> Task A).
Arguments Return {A} a.
Arguments Raise {A} e.
Arguments Await {A} req k.
Arguments Do {A B} s k.

Fixpoint tbind {A B} (t : Task A) (f : A -> Task B) : Task B :=
  match t with
  | Return a => f a
  | Raise e => Raise e
  | Await req k => Await req (fun o => tbind (k o) f)
  | Do s k => Do s (fun b => tbind (k b) f)
  end.

Class Monad (M : Type -> Type) := {
  ret : forall {A}, A -> M A;
  bind : forall {A B}, M A -> (A -> M B) -> M B }.

#[export] Instance Monad_Sync : Monad Sync := {| ret := @sret; bind := @sbind |}.
#[export] Instance Monad_Task : Monad Task := {| ret := @Return; bind := @tbind |}.

Declare Scope js_scope.
Delimit Scope js_scope with js.
Notation "x <- m ;; k" := (bind m (fun x => k))
  (at level 100, m at next level, right associativity) : js_scope.
Notation "m ;; k" := (bind m (fun _ => k))
  (at level 100, right associativity) : js_scope.
Local Open Scope js_scope.

(** [await p]: a rejected promise throws at the await. *)
Definition await (req : Request) : Task (Response req) :=
  Await req (fun o =>
    match o with
    | Resolved data => Return data
    | Rejected e => Raise e
    end).

(** A synchronous statement inside an async function. *)
Definition lift {A} (s : Sync A) : Task A := Do s Return.

Definition attempt {A} (s : Sync A) : Sync (Result A) :=
  fun w => let '(w', r) := s w in (w', Ok r).

(** [try { t } catch (e) { h e }]. *)
Fixpoint try_catch {A} (t : Task A) (h : JSError -> Task A) : Task A :=
  match t with
  | Return a => Return a
  | Raise e => h e
  | Await req k => Await req (fun o => try_catch (k o) h)
  | Do s k =>
      Do (attempt s) (fun r =>
        match r with
        | Ok b => try_catch (k b) h
        | Thrown e => h e
        end)
  end.

(** Where a task stands once its synchronous prefix has run. *)
Inductive Status (A : Type) :=
| Finished (a : A)
| Failed (e : JSError)
| Suspended (req : Request) (k : Outcome (Response req) -> Task A).
Arguments Finished {A} a.
Arguments Failed {A} e.
Arguments Suspended {A} req k.

(** Runs a task up to its first await (or to its end). *)
Fixpoint run {A} (t : Task A) (w : World) : World * Status A :=
  match t with
  | Return a => (w, Finished a)
  | Raise e => (w, Failed e)
  | Await req k => (w, Suspended req k)
  | Do s k =>
      match s w with
      | (w', Ok b) => run (k b) w'
      | (w', Thrown e) => (w', Failed e)
      end
  end.

(** ** State setters *)

Definition modify (f : World -> World) : Sync unit := fun w => (f w, Ok tt).

Definition read {A} (g : World -> A) : Sync A := fun w => (w, Ok (g w)).

Definition with_ui (f : UIState -> UIState) (w : World) : World :=
  {| ui := f (ui w); store := store w; map_current := map_current w; effects := effects w |}.

Definition emit (e : Effect) : Sync unit :=
  modify (fun w =>
    {| ui := ui w; store := store w; map_current := map_current w;
       effects := effects w ++ [e] |}).

Definition dispatch (a : Action) : Sync unit :=
  modify (fun w =>
    {| ui := ui w; store := mapReducer (store w) a; map_current := map_current w;
       effects := effects w |}).

(** A [useState] setter called with an updater function. *)
Definition setSearchQuery (f : string -> string) : Sync unit :=
  modify (with_ui (fun s =>
    MkUI (f (searchQuery s)) (searchSuggestions s) (searchError s) (reverseGeocodeInfo s)
         (isReverseGeocoding s) (selectedFeature s) (view360Url s) (activeCategory s)
         (isCoordinateFormOpen s) (routePoints s) (loggedClicks s) (collectedCoordinates s))).

Definition setSearchSuggestions (f : list Suggestion.t -> list Suggestion.t) : Sync unit :=
  modify (with_ui (fun s =>
    MkUI (searchQuery s) (f (searchSuggestions s)) (searchError s) (reverseGeocodeInfo s)
         (isReverseGeocoding s) (selectedFeature s) (view360Url s) (activeCategory s)
         (isCoordinateFormOpen s) (routePoints s) (loggedClicks s) (collectedCoordinates s))).

Definition setSearchError (f : option string -> option string) : Sync unit :=
  modify (with_ui (fun s =>
    MkUI (searchQuery s) (searchSuggestions s) (f (searchError s)) (reverseGeocodeInfo s)
         (isReverseGeocoding s) (selectedFeature s) (view360Url s) (activeCategory s)
         (isCoordinateFormOpen s) (routePoints s) (loggedClicks s) (collectedCoordinates s))).

Definition setReverseGeocodeInfo (f : option GeocodeInfo.t -> option GeocodeInfo.t) : Sync unit :=
  modify (with_ui (fun s =>
    MkUI (searchQuery s) (searchSuggestions s) (searchError s) (f (reverseGeocodeInfo s))
         (isReverseGeocoding s) (selectedFeature s) (view360Url s) (activeCategory s)
         (isCoordinateFormOpen s) (routePoints s) (loggedClicks s) (collectedCoordinates s))).

Definition setIsReverseGeocoding (f : bool -> bool) : Sync unit :=
  modify (with_ui (fun s =>
    MkUI (searchQuery s) (searchSuggestions s) (searchError s) (reverseGeocodeInfo s)
         (f (isReverseGeocoding s)) (selectedFeature s) (view360Url s) (activeCategory s)
         (isCoordinateFormOpen s) (routePoints s) (loggedClicks s) (collectedCoordinates s))).

Definition setSelectedFeature (f : option SelectedFeature.t -> option SelectedFeature.t) : Sync unit :=
  modify (with_ui (fun s =>
    MkUI (searchQuery s) (searchSuggestions s) (searchError s) (reverseGeocodeInfo s)
         (isReverseGeocoding s) (f (selectedFeature s)) (view360Url s) (activeCategory s)
         (isCoordinateFormOpen s) (routePoints s) (loggedClicks s) (collectedCoordinates s))).

Definition setView360Url (f : option string -> option string) : Sync unit :=
  modify (with_ui (fun s =>
    MkUI (searchQuery s) (searchSuggestions s) (searchError s) (reverseGeocodeInfo s)
         (isReverseGeocoding s) (selectedFeature s) (f (view360Url s)) (activeCategory s)
         (isCoordinateFormOpen s) (routePoints s) (loggedClicks s) (collectedCoordinates s))).

Definition setActiveCategory (f : string -> string) : Sync unit :=
  modify (with_ui (fun s =>
    MkUI (searchQuery s) (searchSuggestions s) (searchError s) (reverseGeocodeInfo s)
         (isReverseGeocoding s) (selectedFeature s) (view360Url s) (f (activeCategory s))
         (isCoordinateFormOpen s) (routePoints s) (loggedClicks s) (collectedCoordinates s))).

Definition setIsCoordinateFormOpen (f : bool -> bool) : Sync unit :=
  modify (with_ui (fun s =>
    MkUI (searchQuery s) (searchSuggestions s) (searchError s) (reverseGeocodeInfo s)
         (isReverseGeocoding s) (selectedFeature s) (view360Url s) (activeCategory s)
         (f (isCoordinateFormOpen s)) (routePoints s) (loggedClicks s) (collectedCoordinates s))).

Definition setRoutePoints (f : list RoutePoint.t -> list RoutePoint.t) : Sync unit :=
  modify (with_ui (fun s =>
    MkUI (searchQuery s) (searchSuggestions s) (searchError s) (reverseGeocodeInfo s)
         (isReverseGeocoding s) (selectedFeature s) (view360Url s) (activeCategory s)
         (isCoordinateFormOpen s) (f (routePoints s)) (loggedClicks s) (collectedCoordinates s))).

Definition setLoggedClicks (f : list LoggedClick.t -> list LoggedClick.t) : Sync unit :=
  modify (with_ui (fun s =>
    MkUI (searchQuery s) (searchSuggestions s) (searchError s) (reverseGeocodeInfo s)
         (isReverseGeocoding s) (selectedFeature s) (view360Url s) (activeCategory s)
         (isCoordinateFormOpen s) (routePoints s) (f (loggedClicks s)) (collectedCoordinates s))).

(** The value form [setX(v)] of a setter. *)
Definition to {A} (v : A) : A -> A := fun _ => v.

Definition setCollectedCoordinates
    (f : list CollectedCoordinate.t -> list CollectedCoordinate.t) : Sync unit :=
  modify (with_ui (fun s =>
    MkUI (searchQuery s) (searchSuggestions s) (searchError s) (reverseGeocodeInfo s)
         (isReverseGeocoding s) (selectedFeature s) (view360Url s) (activeCategory s)
         (isCoordinateFormOpen s) (routePoints s) (loggedClicks s) (f (collectedCoordinates s)))).

(** ** The map instance: the MapLibre GL calls the component makes

    Of the library, what the component relies on: [addSource] and
    [removeSource] throw on a duplicate or missing id; the layer operations
    report a problem through an [error] event and change nothing. *)

Definition get_map : Sync MapHost :=
  fun w =>
    match map_current w with
    | Some m => (w, Ok m)
    | None => (w, Thrown (TypeError "Cannot read properties of null"))
    end.

Definition put_map (m : MapHost) : Sync unit :=
  modify (fun w =>
    {| ui := ui w; store := store w; map_current := Some m; effects := effects w |}).

Definition has_layer (id : string) (m : MapHost) : bool :=
  List.existsb (fun l => String.eqb (Layer.id l) id) (layers m).

Definition layer_uses (src : string) (m : MapHost) : bool :=
  List.existsb (fun l => String.eqb (Layer.source l) src) (layers m).

Definition getLayer (id : string) : Sync (option Layer.t) :=
  m <- get_map ;;
  ret (List.find (fun l => String.eqb (Layer.id l) id) (layers m)).

Definition getSource (id : string) : Sync (option GeoJSON) :=
  m <- get_map ;;
  ret (sources m !! id).

Definition removeLayer (id : string) : Sync unit :=
  m <- get_map ;;
  if has_layer id m then
    put_map {| sources := sources m;
               layers := List.filter (fun l => negb (String.eqb (Layer.id l) id)) (layers m);
               images := images m; styleLoaded := styleLoaded m;
               listeners := listeners m |}
  else emit (ErrorEvent ("Cannot remove non-existing layer " ++ id)).

Definition removeSource (id : string) : Sync unit :=
  m <- get_map ;;
  match sources m !! id with
  | None => sthrow (Error "There is no source with this ID")
  | Some _ =>
      if layer_uses id m then
        emit (ErrorEvent ("Source cannot be removed while a layer is using it: " ++ id))
      else
        put_map {| sources := delete id (sources m); layers := layers m;
                   images := images m; styleLoaded := styleLoaded m;
                   listeners := listeners m |}
  end.

Definition addSource (id : string) (data : GeoJSON) : Sync unit :=
  m <- get_map ;;
  match sources m !! id with
  | Some _ => sthrow (Error ("Source already exists: " ++ id))
  | None =>
      put_map {| sources := <[id := data]> (sources m); layers := layers m;
                 images := images m; styleLoaded := styleLoaded m;
                 listeners := listeners m |}
  end.

Definition addLayer (l : Layer.t) : Sync unit :=
  m <- get_map ;;
  if has_layer (Layer.id l) m then
    emit (ErrorEvent ("Layer already exists on this map: " ++ Layer.id l))
  else
    match sources m !! Layer.source l with
    | None => emit (ErrorEvent ("Source not found: " ++ Layer.source l))
    | Some _ =>
        put_map {| sources := sources m; layers := layers m ++ [l];
                   images := images m; styleLoaded := styleLoaded m;
                   listeners := listeners m |}
    end.

(** [map.getSource(id).setData(data)] on a source that exists. *)
Definition setData (id : string) (data : GeoJSON) : Sync unit :=
  m <- get_map ;;
  match sources m !! id with
  | None => sthrow (TypeError "Cannot read properties of undefined (reading 'setData')")
  | Some _ =>
      put_map {| sources := <[id := data]> (sources m); layers := layers m;
                 images := images m; styleLoaded := styleLoaded m;
                 listeners := listeners m |}
  end.

Fixpoint assoc_set {V} (k : string) (v : V) (l : list (string * V)) : list (string * V) :=
  match l with
  | [] => [(k, v)]
  | (k', v') :: rest =>
      if String.eqb k' k then (k, v) :: rest else (k', v') :: assoc_set k v rest
  end.

Fixpoint assoc_get {V} (k : string) (l : list (string * V)) : option V :=
  match l with
  | [] => None
  | (k', v) :: rest => if String.eqb k' k then Some v else assoc_get k rest
  end.

Definition update_one (id : string) (f : Layer.t -> Layer.t) (l : Layer.t) : Layer.t :=
  if String.eqb (Layer.id l) id then f l else l.

Definition update_layer (id : string) (f : Layer.t -> Layer.t) (m : MapHost) : MapHost :=
  {| sources := sources m;
     layers := List.map (update_one id f) (layers m);
     images := images m; styleLoaded := styleLoaded m; listeners := listeners m |}.

Definition setPaintProperty (id name : string) (value : Expr) : Sync unit :=
  m <- get_map ;;
  if has_layer id m then
    put_map (update_layer id (fun l =>
      {| Layer.id := Layer.id l; Layer.type := Layer.type l; Layer.source := Layer.source l;
         Layer.layout := Layer.layout l; Layer.paint := assoc_set name value (Layer.paint l);
         Layer.filter := Layer.filter l |}) m)
  else emit (ErrorEvent ("Cannot style non-existing layer " ++ id)).

Definition setFilter (id : string) (filter : option Expr) : Sync unit :=
  m <- get_map ;;
  if has_layer id m then
    put_map (update_layer id (fun l =>
      {| Layer.id := Layer.id l; Layer.type := Layer.type l; Layer.source := Layer.source l;
         Layer.layout := Layer.layout l; Layer.paint := Layer.paint l;
         Layer.filter := filter |}) m)
  else emit (ErrorEvent ("Cannot filter non-existing layer " ++ id)).

Definition isStyleLoaded : Sync bool :=
  m <- get_map ;;
  ret (styleLoaded m).

(** [Number(a)] for an array of arrays of numbers, which goes through its
    string form: that has a comma, and denotes no number, as soon as two
    elements stand side by side at either level; the empty string denotes
    0, and a zero prints without its sign. *)
Definition number_of_ring (ring : list (list JS.number)) : JS.number :=
  match ring with
  | [] | [[]] => 0%float
  | [[x]] => if PrimFloat.eqb x 0%float then 0%float else x
  | _ => JS.NaN
  end.

(** [new LngLat(lng, lat)]: the error the constructor throws, if any. *)
Definition LngLat_error (lng lat : JS.number) : option JSError :=
  if PrimFloat.is_nan lng || PrimFloat.is_nan lat then
    Some (Error ("Invalid LngLat object: (" ++ JS.toString lng ++ ", "
                 ++ JS.toString lat ++ ")"))
  else if PrimFloat.ltb 90%float lat || PrimFloat.ltb lat (-90)%float then
    Some (Error "Invalid LngLat latitude value: must be between -90 and 90")
  else None.

(** [LngLat.convert(input)]: an instance is returned as it is, an array of
    two or three elements goes through the constructor, anything else is
    refused. *)
Definition convert_error (input : Coordinates) : option JSError :=
  match input with
  | Instance _ => None
  | Position [lng; lat] | Position [lng; lat; _] => LngLat_error lng lat
  | Rings [a; b] | Rings [a; b; _] => LngLat_error (number_of_ring a) (number_of_ring b)
  | _ =>
      Some (Error ("`LngLatLike` argument must be specified as a LngLat instance, "
                   ++ "an object {lng: <lng>, lat: <lat>}, "
                   ++ "an object {lon: <lng>, lat: <lat>}, "
                   ++ "or an array of [<lng>, <lat>]"))
  end.

(** [map.flyTo(options)]: the centre is converted first, which throws on a
    centre the library does not take. *)
Definition flyTo (options : FlyOptions.t) : Sync unit :=
  _ <- get_map ;;
  match convert_error (FlyOptions.center options) with
  | Some e => sthrow e
  | None => emit (FlyTo options)
  end.

(** [map.on(type, listener)] and [map.on(type, layerId, listener)]. *)
Definition on (l : Listener) : Sync unit :=
  m <- get_map ;;
  put_map {| sources := sources m; layers := layers m; images := images m;
             styleLoaded := styleLoaded m; listeners := listeners m ++ [l] |}.

Definition hasImage (id : string) : Sync bool :=
  m <- get_map ;;
  ret (List.existsb (String.eqb id) (images m)).

Definition addImage (id : string) : Sync unit :=
  m <- get_map ;;
  put_map {| sources := sources m; layers := layers m; images := images m ++ [id];
             styleLoaded := styleLoaded m; listeners := listeners m |}.

(** Evaluating an identifier that is a module-level string constant. *)
Definition ident (name : string) : Sync string :=
  match scope_lookup name module_scope with
  | Some v => ret v
  | None => sthrow (ReferenceError (name ++ " is not defined"))
  end.

(** ** API functions *)

(** Forward geocoding (search and suggestions). *)
Definition fetchCoordinates (query : string) (limit : nat) : Task (list Suggestion.t) :=
  if (1 <? limit)%nat && (String.length query <? 3)%nat then ret []
  else
    try_catch
      (data <- await (SearchGet query limit) ;;
       match data with
       | Some ((_ :: _) as results) =>
           ret (List.map (fun result =>
                  {| Suggestion.name := Place.display_name result;
                     Suggestion.lng := JS.parseFloat (Place.lon result);
                     Suggestion.lat := JS.parseFloat (Place.lat result);
                     Suggestion.zoom :=
                       if String.eqb (Place.type result) "city"
                          || String.eqb (Place.type result) "administrative"
                       then 12%float else 14%float |}) results)
       | _ => ret []
       end)
      (fun error => ret []).

(** Reverse geocoding (pincode and address lookup on a map click). *)
Definition fetchPincodeAndAddress (lat lng : JS.number) : Task GeocodeInfo.t :=
  try_catch
    (data <- await (ReverseGet lat lng) ;;
     match data with
     | Some {| ReverseData.address := Some address; ReverseData.display_name := display_name |} =>
         let pincode := JS.or_default (Address.postcode address) "N/A" in
         let fullAddress := JS.or_default display_name "Address Not Found" in
         ret {| GeocodeInfo.pincode := pincode;
                GeocodeInfo.latitude := JS.toFixed lat 6;
                GeocodeInfo.longitude := JS.toFixed lng 6;
                GeocodeInfo.fullAddress := fullAddress |}
     | _ =>
         ret {| GeocodeInfo.pincode := "N/A";
                GeocodeInfo.latitude := JS.toFixed lat 6;
                GeocodeInfo.longitude := JS.toFixed lng 6;
                GeocodeInfo.fullAddress := "No Address Data Found" |}
     end)
    (fun error =>
       lift (emit (ConsoleError ("Reverse Geocoding failed: " ++ message error))) ;;
       ret {| GeocodeInfo.pincode := "Error";
              GeocodeInfo.latitude := JS.toFixed lat 6;
              GeocodeInfo.longitude := JS.toFixed lng 6;
              GeocodeInfo.fullAddress := "Service Error" |}).

(** ** Handlers of the component *)

(** Map fly-to helper. *)
Definition flyToLocation (lng lat zoom : JS.number) : Sync unit :=
  m <- read map_current ;;
  match m with
  | Some _ =>
      flyTo {| FlyOptions.center := Position [lng; lat];
               FlyOptions.zoom := Some (JS.num_or zoom 14%float);
               FlyOptions.pitch := None; FlyOptions.bearing := None;
               FlyOptions.essential := true |} ;;
      setSearchSuggestions (to []) ;;
      setSearchQuery (to "") ;;
      setSearchError (to None) ;;
      setReverseGeocodeInfo (to None)
  | None => ret tt
  end.

(** Reverse geocoding handler. *)
Definition handleReverseGeocode (lng lat : JS.number) : Task unit :=
  lift (setIsReverseGeocoding (to true)) ;;
  info <- fetchPincodeAndAddress lat lng ;;
  lift (setReverseGeocodeInfo (to (Some info))) ;;
  lift (setIsReverseGeocoding (to false)).

(** Primary search handler; [searchQuery] is the value of the render the
    callback was created in (it is a dependency of the callback). *)
Definition handleSearch (searchQuery : string) : Task unit :=
  lift (emit PreventDefault) ;;
  lift (setSearchError (to None)) ;;
  lift (setSearchSuggestions (to [])) ;;
  m <- lift (read map_current) ;;
  if negb (bool_decide (is_Some m)) || negb (JS.truthy (Some (JS.trim searchQuery)))
  then ret tt
  else
    try_catch
      (results <- fetchCoordinates (JS.trim searchQuery) 1 ;;
       match results with
       | r :: _ =>
           lift (flyToLocation (Suggestion.lng r) (Suggestion.lat r) (Suggestion.zoom r))
       | [] =>
           lift (setSearchError (to (Some "Location/Pincode not found or ambiguous.")))
       end)
      (fun err =>
         lift (setSearchError
                 (to (Some (JS.or_default (Some (message err))
                                          "Search service failed to connect."))))).

(** Submitting the search form. *)
Definition onSubmit : Task unit :=
  q <- lift (read (fun w => searchQuery (ui w))) ;;
  handleSearch q.

(** A query with no character besides white space (the empty query
    included). *)
Fixpoint white_space_only (query : string) : bool :=
  match query with
  | "" => true
  | String c rest => JS.is_space c && white_space_only rest
  end.

(** Resets only the collected coordinates; [length] is the length the
    callback closed over. *)
Definition resetCollectedCoordinates (length : nat) : Sync unit :=
  setCollectedCoordinates (to []) ;;
  if (length =? 0)%nat then setIsCoordinateFormOpen (to false) else ret tt.

(** Closes the info panel. *)
Definition handleCancelInfoPanel : Sync unit :=
  setSelectedFeature (to None) ;;
  setView360Url (to None).

Definition handleCategoryClick (category : string) : Sync unit :=
  setActiveCategory (to category).

Definition empty_collection : GeoJSON := Collection [].

(** Resets the map view and clears all interactions and states. *)
Definition resetMapView : Sync unit :=
  m <- read map_current ;;
  match m with
  | Some _ =>
      flyTo {| FlyOptions.center := Position [DEFAULT_CENTER.lng; DEFAULT_CENTER.lat];
               FlyOptions.zoom := Some DEFAULT_CENTER.zoom;
               FlyOptions.pitch := Some DEFAULT_CENTER.pitch;
               FlyOptions.bearing := Some 0%float;
               FlyOptions.essential := true |} ;;
      setRoutePoints (to []) ;;
      setCollectedCoordinates (to []) ;;
      setLoggedClicks (to []) ;;
      dispatch (setRoute None) ;;
      setSelectedFeature (to None) ;;
      setView360Url (to None) ;;
      setIsCoordinateFormOpen (to false) ;;
      setActiveCategory (to "All") ;;
      setSearchSuggestions (to []) ;;
      setReverseGeocodeInfo (to None) ;;
      box <- getSource BOX_SOURCE_ID ;;
      match box with
      | Some _ => setData BOX_SOURCE_ID empty_collection
      | None => ret tt
      end
  | None => ret tt
  end.

(** ** Pointer events *)

(** A map mouse event: the coordinate under the pointer, the button of the
    original DOM event, and the features the map that fires the event
    renders at [e.point], topmost first, each with its layer.  A map only
    reports features of layers it has: [renders], with the page, says which
    events a map can fire. *)
Module MouseEvent.
Record t := { lngLat : LngLat.t; button : Z; rendered : list Rendered.t }.
End MouseEvent.

(** [map.queryRenderedFeatures(e.point)] on the map that fired [e],
    optionally restricted to layers. *)
Definition queryRenderedFeatures (e : MouseEvent.t) (only : option (list string))
  : list Rendered.t :=
  match only with
  | None => MouseEvent.rendered e
  | Some ids =>
      List.filter (fun f => List.existsb (String.eqb (Rendered.layer_id f)) ids)
                  (MouseEvent.rendered e)
  end.

(** Handler 1: mouse down (logging, and coordinate collection on a
    right-click). *)
Definition on_mousedown (e : MouseEvent.t) : Sync unit :=
  let lng := LngLat.lng (MouseEvent.lngLat e) in
  let lat := LngLat.lat (MouseEvent.lngLat e) in
  let buttonType :=
    if MouseEvent.button e =? 0 then "LEFT"
    else if MouseEvent.button e =? 2 then "RIGHT" else "OTHER" in
  let newClick :=
    {| LoggedClick.lng := JS.toFixed lng 4; LoggedClick.lat := JS.toFixed lat 4;
       LoggedClick.button := buttonType |} in
  setLoggedClicks (fun prev => newClick :: firstn (MAX_LOGGED_CLICKS - 1) prev) ;;
  if MouseEvent.button e =? 2 then
    emit PreventDefault ;;
    full <- read (fun w =>
              (MAX_COLLECTED_POINTS <=? length (collectedCoordinates (ui w)))%nat) ;;
    (if full : bool then
       emit (ConsoleLog ("Max " ++ JS.digits_of (Z.of_nat MAX_COLLECTED_POINTS)
                                ++ " coordinates collected."))
     else ret tt) ;;
    setCollectedCoordinates (fun prev =>
      if (MAX_COLLECTED_POINTS <=? length prev)%nat then prev
      else
        let newPoint :=
          {| CollectedCoordinate.lng := JS.toFixed lng 6;
             CollectedCoordinate.lat := JS.toFixed lat 6 |} in
        (prev ++ [newPoint])%list) ;;
    setRoutePoints (to []) ;;
    dispatch (setRoute None)
  else ret tt.

Definition is_feature_layer (f : Rendered.t) : bool :=
  String.eqb (Rendered.layer_id f) BUILDING_LAYER_ID
  || String.eqb (Rendered.layer_id f) "viewpoint-markers"
  || String.eqb (Rendered.layer_id f) PHOTO_MARKER_LAYER_ID.

(** Handler 2: left-click (reverse geocoding or clearing).  [closure]
    holds the [routePoints] and [route] the handler was created with. *)
Definition on_click (closure : Captured.t) (e : MouseEvent.t) : Task unit :=
  if negb (MouseEvent.button e =? 0) then ret tt
  else
    let lng := LngLat.lng (MouseEvent.lngLat e) in
    let lat := LngLat.lat (MouseEvent.lngLat e) in
    let features := queryRenderedFeatures e None in
    let isFeatureClicked := List.existsb is_feature_layer features in
    if isFeatureClicked then lift (setReverseGeocodeInfo (to None))
    else
      lift (if (0 <? length (Captured.routePoints closure))%nat
               || bool_decide (is_Some (Captured.route closure))
            then setRoutePoints (to []) ;; dispatch (setRoute None)
            else ret tt) ;;
      lift (setSelectedFeature (to None)) ;;
      lift (setView360Url (to None)) ;;
      lift (setSearchSuggestions (to [])) ;;
      handleReverseGeocode lng lat.

(** Handler 3: context menu (right-click for the 360 view). *)
Definition on_contextmenu (e : MouseEvent.t) : Sync unit :=
  emit PreventDefault ;;
  let features :=
    queryRenderedFeatures e (Some ["viewpoint-markers"; PHOTO_MARKER_LAYER_ID]) in
  match features with
  | first :: _ =>
      let feature := Rendered.feature first in
      let properties := Feature.properties feature in
      if JS.truthy (Properties.imageURL properties) then
        setSelectedFeature (to (Some
          {| SelectedFeature.name := Properties.name properties;
             SelectedFeature.id := Properties.id properties;
             SelectedFeature.imageURL := Properties.imageURL properties;
             SelectedFeature.category := Properties.category properties;
             SelectedFeature.centerPoint :=
               {| CenterPoint.lng := CNum (LngLat.lng (MouseEvent.lngLat e));
                  CenterPoint.lat := CNum (LngLat.lat (MouseEvent.lngLat e)) |} |})) ;;
        setView360Url (to (Properties.imageURL properties)) ;;
        flyTo {| FlyOptions.center := geometry_coordinates (Feature.geometry feature);
                 FlyOptions.zoom := Some 16%float; FlyOptions.pitch := Some 60%float;
                 FlyOptions.bearing := None; FlyOptions.essential := false |} ;;
        setCollectedCoordinates (to []) ;;
        setIsCoordinateFormOpen (to false)
      else ret tt
  | [] => ret tt
  end.

(** ** The load handler *)

Definition cleanupLayersAndSources (id : string) : Sync unit :=
  l <- getLayer id ;;
  (if bool_decide (is_Some l) then removeLayer id else ret tt) ;;
  s <- getSource id ;;
  if bool_decide (is_Some s) then removeSource id else ret tt.

(** [coords.reduce((sum, p) => sum + p[i], 0) / coords.length]. *)
Definition mean_of (i : nat) (coords : list (list JS.number)) : JS.number :=
  (fold_left (fun sum p => sum + JS.at_index p i) coords 0 / JS.of_nat (length coords))%float.

(** Building/marker feature transformation: the viewpoint when the
    feature has one, else the centre of the first polygon ring, else the
    origin. *)
Definition marker_of (feature : Feature.t) : Feature.t :=
  let pointCoords :=
    match Properties.viewpoint (Feature.properties feature) with
    | Some {| Viewpoint.coordinates := Some c |} => c
    | _ =>
        match Feature.geometry feature with
        | Polygon (coords :: _) => [mean_of 0 coords; mean_of 1 coords]
        | _ => [0%float; 0%float]
        end
    end in
  {| Feature.geometry := Point pointCoords;
     Feature.properties := Feature.properties feature |}.

Definition viewpointMarkers (buildings : FeatureCollection) : FeatureCollection :=
  List.map marker_of buildings.

Definition get (property : string) : Expr := Arr [Str "get"; Str property].
Definition has (property : string) : Expr := Arr [Str "has"; Str property].

Definition buildings_layer : Layer.t :=
  {| Layer.id := BUILDING_LAYER_ID; Layer.type := "fill-extrusion";
     Layer.source := "buildings"; Layer.layout := [];
     Layer.paint :=
       [ ("fill-extrusion-color", Str COLOR_GOLD);
         ("fill-extrusion-height", get "height");
         ("fill-extrusion-base", Num 0%float);
         ("fill-extrusion-opacity", Num 1%float) ];
     Layer.filter := None |}.

Definition route_point_layer : Layer.t :=
  {| Layer.id := ROUTE_POINT_LAYER_ID; Layer.type := "circle";
     Layer.source := ROUTE_POINT_SOURCE_ID; Layer.layout := [];
     Layer.paint :=
       [ ("circle-color",
          Arr [Str "match"; get "index"; Num 0%float; Str COLOR_ROUTE_GREEN;
               Num 1%float; Str "#b91c1c"; Str "#333"]);
         ("circle-radius", Num 10%float);
         ("circle-stroke-width", Num 2%float);
         ("circle-stroke-color", Str "#ffffff") ];
     Layer.filter := None |}.

Definition box_layer (source : string) : Layer.t :=
  {| Layer.id := BOX_LAYER_ID; Layer.type := "fill"; Layer.source := source;
     Layer.layout := [];
     Layer.paint :=
       [ ("fill-color", Str COLOR_GOLD);
         ("fill-opacity", Num 0.3%float);
         ("fill-outline-color", Str COLOR_GOLD) ];
     Layer.filter := None |}.

Definition clicked_points_layer : Layer.t :=
  {| Layer.id := "clicked-points-layer"; Layer.type := "circle";
     Layer.source := CLICKED_POINTS_SOURCE_ID; Layer.layout := [];
     Layer.paint :=
       [ ("circle-color", Str "#6b7280");
         ("circle-radius", Num 4%float);
         ("circle-stroke-width", Num 1%float);
         ("circle-stroke-color", Str "#ffffff") ];
     Layer.filter := None |}.

Definition photo_marker_layer : Layer.t :=
  {| Layer.id := PHOTO_MARKER_LAYER_ID; Layer.type := "symbol";
     Layer.source := "viewpoint-source";
     Layer.layout :=
       [ ("icon-image", Str "camera-icon");
         ("icon-size", Num 0.12%float);
         ("visibility", Arr [Str "case"; has "imageURL"; Str "visible"; Str "none"]) ];
     Layer.paint := [];
     Layer.filter := Some (has "imageURL") |}.

(** The callback of [map.loadImage('/camera-icon.png', ...)]; with an
    error, [&&] leaves [hasImage] uncalled. *)
Definition on_image_loaded (error : bool) : Sync unit :=
  if error then ret tt
  else
    present <- hasImage "camera-icon" ;;
    if negb present then
      addImage "camera-icon" ;;
      addLayer photo_marker_layer
    else ret tt.

(** The statements of the [load] handler, in source order. *)
Definition on_load (buildings : FeatureCollection) : Sync unit :=
  cleanupLayersAndSources BUILDING_LAYER_ID ;;
  cleanupLayersAndSources "buildings" ;;
  cleanupLayersAndSources "viewpoint-markers" ;;
  cleanupLayersAndSources "viewpoint-source" ;;
  cleanupLayersAndSources "route-line" ;;
  cleanupLayersAndSources "route-source" ;;
  cleanupLayersAndSources ROUTE_POINT_LAYER_ID ;;
  cleanupLayersAndSources ROUTE_POINT_SOURCE_ID ;;
  cleanupLayersAndSources BOX_LAYER_ID ;;
  cleanupLayersAndSources BOX_SOURCE_ID ;;
  cleanupLayersAndSources "clicked-points-layer" ;;
  cleanupLayersAndSources CLICKED_POINTS_SOURCE_ID ;;
  cleanupLayersAndSources COLLECTED_COORDS_LAYER_ID ;;
  cleanupLayersAndSources COLLECTED_COORDS_SOURCE_ID ;;
  let viewpointMarkers := viewpointMarkers buildings in
  addSource "buildings" (Collection buildings) ;;
  addSource "viewpoint-source" (Collection viewpointMarkers) ;;
  addSource ROUTE_POINT_SOURCE_ID empty_collection ;;
  addSource BOX_SOURCE_ID empty_collection ;;
  addSource CLICKED_POINTS_SOURCE_ID empty_collection ;;
  addSource COLLECTED_COORDS_SOURCE_ID empty_collection ;;
  addLayer buildings_layer ;;
  addLayer route_point_layer ;;
  source <- ident "BOX_SOURCE_SOURCE_ID" ;;
  addLayer (box_layer source) ;;
  addLayer clicked_points_layer ;;
  emit (LoadImage "/camera-icon.png") ;;
  on (OnLayerClick BUILDING_LAYER_ID BuildingClick) ;;
  on (OnLayerClick PHOTO_MARKER_LAYER_ID PhotoMarkerClick).

(** ** Feature click handlers *)

(** [e.features[0]] of a layer click; of a missing feature the handler
    cannot read the property it reads first. *)
Definition first_feature (features : list Feature.t) (reads : string) : Sync Feature.t :=
  match features with
  | f :: _ => ret f
  | [] =>
      sthrow (TypeError ("Cannot read properties of undefined (reading '" ++ reads ++ "')"))
  end.

Definition on_building_click (features : list Feature.t) : Sync unit :=
  feature <- first_feature features "geometry" ;;
  coords <-
    match Feature.geometry feature with
    | Polygon (ring :: _) => ret ring
    | Polygon [] | Point [] =>
        sthrow (TypeError "Cannot read properties of undefined (reading 'reduce')")
    | Point (_ :: _) => sthrow (TypeError "coords.reduce is not a function")
    end ;;
  let centerLng := mean_of 0 coords in
  let centerLat := mean_of 1 coords in
  let properties := Feature.properties feature in
  setSelectedFeature (to (Some
    {| SelectedFeature.name := Properties.name properties;
       SelectedFeature.id := Properties.id properties;
       SelectedFeature.imageURL := Properties.imageURL properties;
       SelectedFeature.category := Properties.category properties;
       SelectedFeature.centerPoint :=
         {| CenterPoint.lng := CNum centerLng; CenterPoint.lat := CNum centerLat |} |})) ;;
  flyTo {| FlyOptions.center := Position [centerLng; centerLat];
           FlyOptions.zoom := Some 16%float; FlyOptions.pitch := Some 60%float;
           FlyOptions.bearing := None; FlyOptions.essential := false |} ;;
  setReverseGeocodeInfo (to None).

(** [feature.geometry.coordinates[i]]. *)
Definition coordinate_at (g : Geometry) (i : nat) : Coord :=
  match g with
  | Point c => match nth_error c i with Some n => CNum n | None => CUndefined end
  | Polygon r => match nth_error r i with Some ring => CRing ring | None => CUndefined end
  end.

Definition on_photo_marker_click (features : list Feature.t) : Sync unit :=
  feature <- first_feature features "properties" ;;
  let properties := Feature.properties feature in
  setSelectedFeature (to (Some
    {| SelectedFeature.name := Properties.name properties;
       SelectedFeature.id := Properties.id properties;
       SelectedFeature.imageURL := Properties.imageURL properties;
       SelectedFeature.category := Properties.category properties;
       SelectedFeature.centerPoint :=
         {| CenterPoint.lng := coordinate_at (Feature.geometry feature) 0;
            CenterPoint.lat := coordinate_at (Feature.geometry feature) 1 |} |})) ;;
  (if JS.truthy (Properties.imageURL properties)
   then setView360Url (to (Properties.imageURL properties))
   else ret tt) ;;
  flyTo {| FlyOptions.center := geometry_coordinates (Feature.geometry feature);
           FlyOptions.zoom := Some 16%float; FlyOptions.pitch := Some 60%float;
           FlyOptions.bearing := None; FlyOptions.essential := false |} ;;
  setReverseGeocodeInfo (to None).

(** ** Effects of the component *)

(** [new maplibregl.Map(...)]: the instance before its style has loaded. *)
Definition new_map : MapHost :=
  {| sources := ∅; layers := []; images := []; styleLoaded := false; listeners := [] |}.

(** MapLibre initialisation and event handlers.  The click handler closes
    over the [routePoints] and [route] of the render the effect runs in;
    the effect does not run again when they change (its dependencies are
    [buildings], [dispatch] and [handleReverseGeocode]). *)
Definition init_effect : Sync unit :=
  m <- read map_current ;;
  b <- read (fun w => buildings (store w)) ;;
  match m, b with
  | None, Some buildings =>
      closure <- read (fun w =>
        {| Captured.routePoints := routePoints (ui w);
           Captured.route := route (store w) |}) ;;
      put_map new_map ;;
      on OnMove ;;
      on OnMouseDown ;;
      on (OnClick closure) ;;
      on OnContextMenu ;;
      on (OnLoad buildings)
  | _, _ => ret tt
  end.

(** Category filtering and colouring; runs when [activeCategory] changes. *)
Definition category_effect : Sync unit :=
  m <- read map_current ;;
  match m with
  | None => ret tt
  | Some _ =>
      loaded <- isStyleLoaded ;;
      if negb loaded then ret tt
      else
        activeCategory <- read (fun w => activeCategory (ui w)) ;;
        let all := String.eqb activeCategory "All" in
        let extrusionColor := if all then COLOR_GOLD else COLOR_PURPLE in
        building <- getLayer BUILDING_LAYER_ID ;;
        (if bool_decide (is_Some building) then
           setPaintProperty BUILDING_LAYER_ID "fill-extrusion-color" (Str extrusionColor) ;;
           setFilter BUILDING_LAYER_ID
             (if all then None
              else Some (Arr [Str "=="; get "category"; Str activeCategory]))
         else ret tt) ;;
        marker <- getLayer PHOTO_MARKER_LAYER_ID ;;
        if bool_decide (is_Some marker) then
          setFilter PHOTO_MARKER_LAYER_ID
            (Some (if all then has "imageURL"
                   else Arr [Str "all"; has "imageURL";
                             Arr [Str "=="; get "category"; Str activeCategory]]))
        else ret tt
  end.

(** A click that changes the active category: the state is set, the
    component renders again and the effect runs. *)
Definition category_changed (category : string) : Sync unit :=
  handleCategoryClick category ;;
  category_effect.

(** Choosing a category in the bottom bar.  React renders again, and runs
    the effect (dependencies: [activeCategory]), only when the value differs
    from the active one. *)
Definition select_category (category : string) : Sync unit :=
  active <- read (fun w => activeCategory (ui w)) ;;
  if String.eqb category active then handleCategoryClick category
  else category_changed category.

(** ** Running the component *)

(** The world a synchronous piece of code leaves behind. *)
Definition exec {A} (s : Sync A) (w : World) : World := (s w).1.

(** The HTTP call a suspended task is waiting for. *)
Definition awaited {A} (st : Status A) : option Request :=
  match st with
  | Suspended req _ => Some req
  | _ => None
  end.

(** The network, as the answer it gives to each call. *)
Definition Network : Type := forall req : Request, Outcome (Response req).

(** Runs a task to its end, every await answered by the network. *)
Fixpoint complete {A} (net : Network) (t : Task A) (w : World) : World * Result A :=
  match t with
  | Return a => (w, Ok a)
  | Raise e => (w, Thrown e)
  | Await req k => complete net (k (net req)) w
  | Do s k =>
      match s w with
      | (w', Ok b) => complete net (k b) w'
      | (w', Thrown e) => (w', Thrown e)
      end
  end.

(** A network on which every call fails with [e]. *)
Definition failing (e : JSError) : Network := fun _ => Rejected e.

(** A network whose reverse-geocoding service answers with [body]. *)
Definition reverse_answers (body : option ReverseData.t) : Network :=
  fun req =>
    match req return Outcome (Response req) with
    | SearchGet _ _ => Resolved None
    | ReverseGet _ _ => Resolved body
    end.

(** A press of the secondary button at a point: the map fires
    [mousedown], then [contextmenu], both with button 2. *)
Definition secondary (at_ : LngLat.t) (rendered : list Rendered.t) : MouseEvent.t :=
  {| MouseEvent.lngLat := at_; MouseEvent.button := 2; MouseEvent.rendered := rendered |}.

Definition secondary_press (at_ : LngLat.t) (rendered : list Rendered.t) : Sync unit :=
  on_mousedown (secondary at_ rendered) ;;
  on_contextmenu (secondary at_ rendered).

Fixpoint secondary_presses (ps : list (LngLat.t * list Rendered.t)) : Sync unit :=
  match ps with
  | [] => ret tt
  | (at_, rendered) :: rest => secondary_press at_ rendered ;; secondary_presses rest
  end.

Fixpoint mousedowns (es : list MouseEvent.t) : Sync unit :=
  match es with
  | [] => ret tt
  | e :: rest => on_mousedown e ;; mousedowns rest
  end.

(** The entry [on_mousedown] logs for an event. *)
Definition logged (e : MouseEvent.t) : LoggedClick.t :=
  {| LoggedClick.lng := JS.toFixed (LngLat.lng (MouseEvent.lngLat e)) 4;
     LoggedClick.lat := JS.toFixed (LngLat.lat (MouseEvent.lngLat e)) 4;
     LoggedClick.button :=
       if MouseEvent.button e =? 0 then "LEFT"
       else if MouseEvent.button e =? 2 then "RIGHT" else "OTHER" |}.

(** The layer of the map with a given id, if any. *)
Definition layer_of (id : string) (w : World) : option Layer.t :=
  match map_current w with
  | Some m => List.find (fun l => String.eqb (Layer.id l) id) (layers m)
  | None => None
  end.

Definition source_of (id : string) (w : World) : option GeoJSON :=
  match map_current w with
  | Some m => sources m !! id
  | None => None
  end.

(** The closure of the click listener registered on the map. *)
Definition click_listener (w : World) : option Captured.t :=
  match map_current w with
  | Some m =>
      List.fold_right
        (fun l found => match l with OnClick closure => Some closure | _ => found end)
        None (listeners m)
  | None => None
  end.

(** A click on the map: the registered click listener runs, with the
    closure it was registered with. *)
Definition map_click (e : MouseEvent.t) : Task unit :=
  listener <- lift (read click_listener) ;;
  match listener with
  | Some closure => on_click closure e
  | None => ret tt
  end.

(** A primary-button click at a point where the map renders nothing of
    the component's layers. *)
Definition primary (at_ : LngLat.t) : MouseEvent.t :=
  {| MouseEvent.lngLat := at_; MouseEvent.button := 0; MouseEvent.rendered := [] |}.

(** ** Filter expressions, as the map evaluates them on a feature *)

Inductive Value :=
| VNull
| VBool (b : bool)
| VStr (s : string)
| VNum (n : JS.number).

Definition property (name : string) (p : Properties.t) : option Value :=
  if String.eqb name "name" then VStr <$> Properties.name p
  else if String.eqb name "id" then VStr <$> Properties.id p
  else if String.eqb name "imageURL" then VStr <$> Properties.imageURL p
  else if String.eqb name "category" then VStr <$> Properties.category p
  else if String.eqb name "height" then VNum <$> Properties.height p
  else None.

Definition value_eqb (a b : Value) : bool :=
  match a, b with
  | VNull, VNull => true
  | VBool x, VBool y => Bool.eqb x y
  | VStr x, VStr y => String.eqb x y
  | VNum x, VNum y => PrimFloat.eqb x y
  | _, _ => false
  end.

Definition as_bool (v : Value) : bool :=
  match v with
  | VBool b => b
  | _ => false
  end.

(** The operators the component's filters use: literals, [get], [has],
    [==] and [all]. *)
Fixpoint eval (p : Properties.t) (e : Expr) : Value :=
  match e with
  | Str s => VStr s
  | Num n => VNum n
  | Arr [] => VNull
  | Arr (Str op :: args) =>
      if String.eqb op "get" then
        match args with
        | [Str name] => default VNull (property name p)
        | _ => VNull
        end
      else if String.eqb op "has" then
        match args with
        | [Str name] => VBool (bool_decide (is_Some (property name p)))
        | _ => VNull
        end
      else if String.eqb op "==" then
        match args with
        | [a; b] => VBool (value_eqb (eval p a) (eval p b))
        | _ => VNull
        end
      else if String.eqb op "all" then
        VBool (List.forallb (fun a => as_bool (eval p a)) args)
      else VNull
  | Arr _ => VNull
  end.

(** Whether a layer with this filter draws a feature. *)
Definition passes (filter : option Expr) (f : Feature.t) : bool :=
  match filter with
  | None => true
  | Some e => as_bool (eval (Feature.properties f) e)
  end.

(** ** Sample data *)

Definition sample_properties : Properties.t :=
  {| Properties.name := Some "Main Gate"; Properties.id := Some "b-1";
     Properties.imageURL := Some "/img/gate.jpg"; Properties.category := Some "Gate";
     Properties.height := Some 12%float; Properties.viewpoint := None |}.

Definition sample_building : Feature.t :=
  {| Feature.geometry :=
       Polygon [[[83.22%float; 17.71%float]; [83.24%float; 17.71%float];
                 [83.24%float; 17.73%float]; [83.22%float; 17.73%float]]];
     Feature.properties := sample_properties |}.

Definition sample_buildings : FeatureCollection := [sample_building].

Definition sample_marker : Rendered.t :=
  {| Rendered.layer_id := PHOTO_MARKER_LAYER_ID; Rendered.feature := marker_of sample_building |}.

Definition sample_route : Route.t :=
  {| Route.coordinates := [[83.21%float; 17.72%float]; [83.25%float; 17.74%float]] |}.

Definition sample_info : GeocodeInfo.t :=
  {| GeocodeInfo.pincode := "530001"; GeocodeInfo.latitude := "17.720000";
     GeocodeInfo.longitude := "83.230000"; GeocodeInfo.fullAddress := "Visakhapatnam" |}.

Definition sample_point : LngLat.t := {| LngLat.lng := 83.23%float; LngLat.lat := 17.72%float |}.

(** The component right after its first render with the buildings loaded. *)
Definition first_render : World :=
  {| ui := initial_ui;
     store := {| buildings := Some sample_buildings; route := None; loading := false;
                 error := None |};
     map_current := None;
     effects := [] |}.

(** The component once the initialisation effect has run. *)
Definition mounted : World := exec init_effect first_render.

Definition with_store (f : Store -> Store) (w : World) : World :=
  {| ui := ui w; store := f (store w); map_current := map_current w; effects := effects w |}.

Definition with_map_host (f : MapHost -> MapHost) (w : World) : World :=
  {| ui := ui w; store := store w; map_current := f <$> map_current w; effects := effects w |}.

Definition style_loaded (m : MapHost) : MapHost :=
  {| sources := sources m; layers := layers m; images := images m; styleLoaded := true;
     listeners := listeners m |}.

(** The mounted component once the basemap style has loaded. *)
Definition ready : World := with_map_host style_loaded mounted.

(** The map instance of the ready component. *)
Definition ready_map : MapHost := default new_map (map_current ready).

(** The ready component with a route on display. *)
Definition routed : World :=
  with_store (fun s => mapReducer s (setRoute (Some sample_route))) ready.

(** The ready component with a reverse-geocode result on display. *)
Definition geocoded : World := exec (setReverseGeocodeInfo (to (Some sample_info))) ready.

(** The ready component with the collection buffer at capacity. *)
Definition full_buffer : World :=
  exec (setCollectedCoordinates
          (to (repeat {| CollectedCoordinate.lng := "83.230000";
                         CollectedCoordinate.lat := "17.720000" |}
                      MAX_COLLECTED_POINTS)))
       ready.

(** The ready component with the building layer and the photo-marker
    layer on the map. *)
Definition layered : World :=
  exec (addSource "buildings" (Collection sample_buildings) ;;
        addSource "viewpoint-source" (Collection (viewpointMarkers sample_buildings)) ;;
        addLayer buildings_layer ;;
        addImage "camera-icon" ;;
        addLayer photo_marker_layer)
       ready.

Definition layered_map : MapHost := default new_map (map_current layered).

(** Whether the category effect gets past its guard: there is a map and
    its style is loaded. *)
Definition style_is_loaded (w : World) : bool :=
  match map_current w with
  | Some m => styleLoaded m
  | None => false
  end.

(** A category chosen on the mounted component while the style is still
    loading; then the style loads and the load handler runs. *)
Definition category_before_load : World :=
  exec (on_load sample_buildings)
       (with_map_host style_loaded (exec (select_category "Gate") mounted)).

(** What [resetMapView] leaves of the interaction state. *)
Definition cleared (w : World) : Prop :=
  routePoints (ui w) = []
  /\ collectedCoordinates (ui w) = []
  /\ loggedClicks (ui w) = []
  /\ route (store w) = None
  /\ selectedFeature (ui w) = None
  /\ view360Url (ui w) = None
  /\ isCoordinateFormOpen (ui w) = false
  /\ searchSuggestions (ui w) = []
  /\ reverseGeocodeInfo (ui w) = None
  /\ activeCategory (ui w) = "All".

(** The collection buffer is within its capacity. *)
Definition within_capacity (w : World) : Prop :=
  (length (collectedCoordinates (ui w)) <= MAX_COLLECTED_POINTS)%nat.

(** ** Further handlers and effects of the component *)

(** [try { s } catch (e) { h e }] in synchronous code. *)
Definition scatch {A} (s : Sync A) (h : JSError -> Sync A) : Sync A :=
  fun w =>
    match s w with
    | (w', Ok a) => (w', Ok a)
    | (w', Thrown e) => h e w'
    end.

(** The body of the POST to the routing endpoint. *)
Module RouteRequest.
Record t := { startLng : JS.number; startLat : JS.number;
              endLng : JS.number; endLat : JS.number }.
End RouteRequest.

Definition ROUTE_ENDPOINT : string := API_BASE_URL ++ "/route".

(** [handleRoute] up to its await: [center] is what [map.current.getCenter()]
    reports.  The result is the body posted to [ROUTE_ENDPOINT], or nothing
    when the function returns before the request. *)
Definition handleRoute_request (center endPoint : LngLat.t) : Sync (option RouteRequest.t) :=
  m <- read map_current ;;
  match m with
  | None => ret None
  | Some _ =>
      let startPoint := center in
      dispatch (setRoute None) ;;
      ret (Some {| RouteRequest.startLng := LngLat.lng startPoint;
                   RouteRequest.startLat := LngLat.lat startPoint;
                   RouteRequest.endLng := LngLat.lng endPoint;
                   RouteRequest.endLat := LngLat.lat endPoint |})
  end.

(** [handleRoute] from its await on: [startPoint] is the centre read before
    the request, the outcome is that of the POST ([response.data], null
    when empty). *)
Definition handleRoute_response (startPoint : LngLat.t) (outcome : Outcome (option Route.t))
  : Sync unit :=
  scatch
    (match outcome with
     | Resolved data =>
         dispatch (setRoute data) ;;
         flyTo {| FlyOptions.center := Instance startPoint;
                  FlyOptions.zoom := Some 16%float; FlyOptions.pitch := None;
                  FlyOptions.bearing := None; FlyOptions.essential := true |}
     | Rejected err => sthrow err
     end)
    (fun err =>
       emit (ConsoleError ("Routing failed: " ++ message err)) ;;
       dispatch (setError "Routing failed. Check routing service connection.")).

(** [handleRoute] with the routing service as a function of the posted
    body. *)
Definition handleRoute (post : RouteRequest.t -> Outcome (option Route.t))
    (center endPoint : LngLat.t) : Sync unit :=
  request <- handleRoute_request center endPoint ;;
  match request with
  | None => ret tt
  | Some body => handleRoute_response center (post body)
  end.

(** The "Clear Route" button of the bottom bar. *)
Definition clearRoute : Sync unit :=
  setRoutePoints (to []) ;;
  dispatch (setRoute None) ;;
  m <- read map_current ;;
  match m with
  | None => ret tt
  | Some _ =>
      s <- getSource "route-source" ;;
      if bool_decide (is_Some s) then setData "route-source" empty_collection else ret tt
  end.

(** The cleanup of the initialisation effect: [map.current?.remove()] and
    [map.current = null]. *)
Definition init_cleanup : Sync unit :=
  modify (fun w =>
    {| ui := ui w; store := store w; map_current := None; effects := effects w |}).

(** The component unmounts: the cleanup runs and React discards the state
    slices, so that a later mount starts from the initial state; the Redux
    store lives on. *)
Definition unmount : Sync unit :=
  init_cleanup ;;
  modify (with_ui (fun _ => initial_ui)).

Definition route_line_layer : Layer.t :=
  {| Layer.id := "route-line"; Layer.type := "line"; Layer.source := "route-source";
     Layer.layout := [ ("line-join", Str "round"); ("line-cap", Str "round") ];
     Layer.paint :=
       [ ("line-color", Str COLOR_ROUTE_GREEN);
         ("line-width", Num 6%float);
         ("line-dasharray", Arr [Num 2%float; Num 1%float]) ];
     Layer.filter := None |}.

(** Route line rendering; runs when [route] changes. *)
Definition route_effect : Sync unit :=
  m <- read map_current ;;
  match m with
  | None => ret tt
  | Some _ =>
      loaded <- isStyleLoaded ;;
      if negb loaded then ret tt
      else
        let routeLayerId := "route-line" in
        let routeSourceId := "route-source" in
        sourceExists <- getSource routeSourceId ;;
        route <- read (fun w => route (store w)) ;;
        match route with
        | Some r =>
            if bool_decide (is_Some sourceExists) then setData routeSourceId (Line r)
            else
              addSource routeSourceId (Line r) ;;
              addLayer route_line_layer
        | None =>
            if bool_decide (is_Some sourceExists)
            then setData routeSourceId empty_collection
            else ret tt
        end
  end.

Definition collected_coords_layer : Layer.t :=
  {| Layer.id := COLLECTED_COORDS_LAYER_ID; Layer.type := "circle";
     Layer.source := COLLECTED_COORDS_SOURCE_ID; Layer.layout := [];
     Layer.paint :=
       [ ("circle-color", Str COLOR_GOLD);
         ("circle-radius", Num 7%float);
         ("circle-stroke-width", Num 2%float);
         ("circle-stroke-color", Str "#ffffff") ];
     Layer.filter := None |}.

(** The empty properties bag [{}]. *)
Definition no_properties : Properties.t :=
  {| Properties.name := None; Properties.id := None; Properties.imageURL := None;
     Properties.category := None; Properties.height := None;
     Properties.viewpoint := None |}.

Definition collected_feature (point : CollectedCoordinate.t) : Feature.t :=
  {| Feature.geometry :=
       Point [JS.parseFloat (CollectedCoordinate.lng point);
              JS.parseFloat (CollectedCoordinate.lat point)];
     Feature.properties := no_properties |}.

(** Collected coordinates visualisation; runs when [collectedCoordinates]
    changes. *)
Definition collected_effect : Sync unit :=
  m <- read map_current ;;
  match m with
  | None => ret tt
  | Some _ =>
      loaded <- isStyleLoaded ;;
      if negb loaded then ret tt
      else
        s <- getSource COLLECTED_COORDS_SOURCE_ID ;;
        (if negb (bool_decide (is_Some s)) then
           addSource COLLECTED_COORDS_SOURCE_ID empty_collection ;;
           addLayer collected_coords_layer
         else ret tt) ;;
        collectedCoordinates <- read (fun w => collectedCoordinates (ui w)) ;;
        let features := List.map collected_feature collectedCoordinates in
        setData COLLECTED_COORDS_SOURCE_ID (Collection features)
  end.

(** ** The suggestion timer *)

(** A pending [setTimeout]: its id, its delay and the [searchQuery] its
    callback closed over. *)
Module Timer.
Record t := { id : nat; delay : nat; query : string }.
End Timer.

(** The timers of the page and the [debounceTimeout] ref. *)
Record Timers := MkTimers {
  pending : list Timer.t;
  next_id : nat;
  debounceTimeout : option nat }.

(** Timer ids start at 1. *)
Definition initial_timers : Timers :=
  {| pending := []; next_id := 1; debounceTimeout := None |}.

Definition clearTimeout (id : nat) (t : Timers) : Timers :=
  {| pending := List.filter (fun x => negb (Nat.eqb (Timer.id x) id)) (pending t);
     next_id := next_id t; debounceTimeout := debounceTimeout t |}.

(** [if (debounceTimeout.current) clearTimeout(debounceTimeout.current)];
    the id 0 is falsy. *)
Definition clear_debounce (t : Timers) : Timers :=
  match debounceTimeout t with
  | Some (S id) => clearTimeout (S id) t
  | _ => t
  end.

(** [debounceTimeout.current = setTimeout(callback, delay)]. *)
Definition schedule_debounce (delay : nat) (query : string) (t : Timers) : Timers :=
  {| pending := pending t ++ [{| Timer.id := next_id t; Timer.delay := delay;
                                 Timer.query := query |}];
     next_id := S (next_id t);
     debounceTimeout := Some (next_id t) |}.

(** The body of the autosuggest effect for a render with [searchQuery]:
    the timers it leaves, what it does to the state, and whether it
    returns a cleanup function. *)
Definition suggest_effect (searchQuery : string) (t : Timers) : Timers * Sync unit * bool :=
  let t := clear_debounce t in
  if (String.length searchQuery <? 3)%nat then (t, setSearchSuggestions (to []), false)
  else (schedule_debounce DEBOUNCE_DELAY searchQuery t, ret tt, true).

(** The callback of the timer. *)
Definition suggestion_fetch (searchQuery : string) : Task unit :=
  try_catch
    (suggestions <- fetchCoordinates searchQuery 5 ;;
     lift (setSearchSuggestions (to suggestions)))
    (fun err => ret tt).

(** The page as far as the search box goes: the component, the timers, and
    whether the last run of the autosuggest effect left a cleanup. *)
Record SearchBox := MkSearchBox {
  box_world : World;
  box_timers : Timers;
  box_cleanup : bool }.

(** A render in which [searchQuery] has changed to [q]: the cleanup of the
    previous run, if any, then the effect. *)
Definition query_changed (q : string) (b : SearchBox) : SearchBox :=
  let t := if box_cleanup b then clear_debounce (box_timers b) else box_timers b in
  let '(t', s, cleanup) := suggest_effect q t in
  {| box_world := exec (setSearchQuery (to q) ;; s) (box_world b);
     box_timers := t'; box_cleanup := cleanup |}.

Definition initial_box (w : World) : SearchBox :=
  {| box_world := w; box_timers := initial_timers; box_cleanup := false |}.

(** Typing into the search box, one value of the input after the other;
    React runs the effect only when the value differs from the current
    one. *)
Definition type_query (q : string) (b : SearchBox) : SearchBox :=
  if String.eqb q (searchQuery (ui (box_world b))) then b else query_changed q b.

Definition type_queries (qs : list string) (b : SearchBox) : SearchBox :=
  fold_left (fun b q => type_query q b) qs b.

(** The timer with this id comes due: it leaves the table, and its
    callback is what runs. *)
Definition timer_due (id : nat) (t : Timers) : Timers * option (Task unit) :=
  match List.find (fun x => Nat.eqb (Timer.id x) id) (pending t) with
  | Some x => (clearTimeout id t, Some (suggestion_fetch (Timer.query x)))
  | None => (t, None)
  end.

(** Between two renders at most one timer is pending: none while the text
    is shorter than three characters, else the one the [debounceTimeout] ref
    holds, set for the text on display. *)
Definition one_timer_for (b : SearchBox) : Prop :=
  let q := searchQuery (ui (box_world b)) in
  if (String.length q <? 3)%nat then pending (box_timers b) = []
  else exists id,
         (1 <= id)%nat
         /\ pending (box_timers b)
            = [{| Timer.id := id; Timer.delay := DEBOUNCE_DELAY; Timer.query := q |}]
         /\ debounceTimeout (box_timers b) = Some id.

(** ** The page: handlers and network answers in any order *)

(** What can start a handler or an effect of the component.  The Redux
    store is shared: the rest of the application can replace what it holds
    ([StoreUpdated]); when that changes a dependency of the initialisation
    effect, React runs the cleanup of the effect ([DependencyChanged]) before
    it runs the effect again ([Mounted]). *)
Inductive Interaction :=
| Mounted
| Unmounted
| StyleLoaded (buildings : FeatureCollection)
| IconLoaded (error : bool)
| PointerDown (e : MouseEvent.t)
| MapClicked (e : MouseEvent.t)
| ContextMenu (e : MouseEvent.t)
| BuildingClicked (features : list Feature.t)
| PhotoMarkerClicked (features : list Feature.t)
| Typed (q : string)
| Submitted
| SuggestionTimer (q : string)
| SuggestionPicked (s : Suggestion.t)
| CategoryPicked (category : string)
| ResetPressed
| ClearRoutePressed
| ClearCollectedPressed
| FormToggled
| InfoPanelClosed
| RouteRequested (center endPoint : LngLat.t)
| RouteAnswered (startPoint : LngLat.t) (outcome : Outcome (option Route.t))
| RouteChanged
| CollectedChanged
| StoreUpdated (st : Store)
| DependencyChanged.

Definition handler (i : Interaction) : Task unit :=
  match i with
  | Mounted => lift init_effect
  | Unmounted => lift unmount
  | StyleLoaded buildings => lift (on_load buildings)
  | IconLoaded error => lift (on_image_loaded error)
  | PointerDown e => lift (on_mousedown e)
  | MapClicked e => map_click e
  | ContextMenu e => lift (on_contextmenu e)
  | BuildingClicked features => lift (on_building_click features)
  | PhotoMarkerClicked features => lift (on_photo_marker_click features)
  | Typed q => lift (setSearchQuery (to q))
  | Submitted => onSubmit
  | SuggestionTimer q => suggestion_fetch q
  | SuggestionPicked s =>
      lift (flyToLocation (Suggestion.lng s) (Suggestion.lat s) (Suggestion.zoom s))
  | CategoryPicked category => lift (select_category category)
  | ResetPressed => lift resetMapView
  | ClearRoutePressed => lift clearRoute
  | ClearCollectedPressed =>
      n <- lift (read (fun w => length (collectedCoordinates (ui w)))) ;;
      lift (resetCollectedCoordinates n)
  | FormToggled => lift (setIsCoordinateFormOpen negb)
  | InfoPanelClosed => lift handleCancelInfoPanel
  | RouteRequested center endPoint => lift (handleRoute_request center endPoint) ;; ret tt
  | RouteAnswered startPoint outcome => lift (handleRoute_response startPoint outcome)
  | RouteChanged => lift route_effect
  | CollectedChanged => lift collected_effect
  | StoreUpdated st => lift (modify (with_store (fun _ => st)))
  | DependencyChanged => lift init_cleanup
  end.

(** An async function suspended on its request. *)
Record Pending := MkPending {
  pending_request : Request;
  pending_rest : Outcome (Response pending_request) -> Task unit }.

Record Page := MkPage {
  page_world : World;
  in_flight : list Pending }.

(** The event loop takes one thing at a time: a handler starts and runs to
    its first await, or the answer to the [n]th request in flight arrives
    and its function runs on to its next await. *)
Inductive PageEvent :=
| Begin (i : Interaction)
| Answered (n : nat) (net : Network).

Definition settle (r : World * Status unit) (others : list Pending) : Page :=
  match r with
  | (w, Suspended req k) => {| page_world := w; in_flight := others ++ [MkPending req k] |}
  | (w, _) => {| page_world := w; in_flight := others |}
  end.

Definition page_step (p : Page) (ev : PageEvent) : Page :=
  match ev with
  | Begin i => settle (run (handler i) (page_world p)) (in_flight p)
  | Answered n net =>
      match in_flight p !! n with
      | Some (MkPending req k) =>
          settle (run (k (net req)) (page_world p)) (delete n (in_flight p))
      | None => p
      end
  end.

Definition page_run (events : list PageEvent) (p : Page) : Page :=
  fold_left page_step events p.

Definition fresh_page (w : World) : Page := {| page_world := w; in_flight := [] |}.

(** No route point, and both buffers within their capacities. *)
Definition within_bounds (w : World) : Prop :=
  routePoints (ui w) = []
  /\ (length (loggedClicks (ui w)) <= MAX_LOGGED_CLICKS)%nat
  /\ (length (collectedCoordinates (ui w)) <= MAX_COLLECTED_POINTS)%nat.

(** [P] survives the statement [s], however it ends. *)
Definition keeps (P : World -> Prop) {A} (s : Sync A) : Prop :=
  forall w, P w -> P (s w).1.

(** [P] survives every synchronous stretch of the task. *)
Inductive task_keeps (P : World -> Prop) {A} : Task A -> Prop :=
| keeps_Return (a : A) : task_keeps P (Return a)
| keeps_Raise (e : JSError) : task_keeps P (Raise e)
| keeps_Await (req : Request) (k : Outcome (Response req) -> Task A) :
    (forall o, task_keeps P (k o)) -> task_keeps P (Await req k)
| keeps_Do {B} (s : Sync B) (k : B -> Task A) :
    keeps P s -> (forall b, task_keeps P (k b)) -> task_keeps P (Do s k).

(** ** What the page can receive *)





Definition is_layer_listener (l : Listener) : bool :=
  match l with
  | OnLayerClick _ _ => true
  | _ => false
  end.

Definition is_image_request (e : Effect) : bool :=
  match e with
  | LoadImage _ => true
  | _ => false
  end.

(** A map with neither of the two marker layers the context-menu handler
    queries, and with no layer click listener. *)
Definition without_markers (m : MapHost) : Prop :=
  has_layer "viewpoint-markers" m = false
  /\ has_layer PHOTO_MARKER_LAYER_ID m = false
  /\ List.existsb is_layer_listener (listeners m) = false.

(** Nothing is selected and nothing can be: no marker layer, no layer
    click listener, and no request for the marker image. *)
Definition nothing_to_select (w : World) : Prop :=
  selectedFeature (ui w) = None
  /\ match map_current w with
     | Some m => without_markers m
     | None => True
     end
  /\ List.existsb is_image_request (effects w) = false.

(** ** More sample data *)

(** A network whose search service knows one place. *)
Definition one_place_network : Network :=
  fun req =>
    match req return Outcome (Response req) with
    | SearchGet _ _ =>
        Resolved (Some [{| Place.display_name := "Visakhapatnam"; Place.lon := "83.30";
                           Place.lat := "17.68"; Place.type := "city" |}])
    | ReverseGet _ _ => Resolved None
    end.

(** A network whose search service answers with one place at the given
    coordinates, as the strings of the JSON body. *)
Definition place_network (lon lat : string) : Network :=
  fun req =>
    match req return Outcome (Response req) with
    | SearchGet _ _ =>
        Resolved (Some [{| Place.display_name := "Somewhere"; Place.lon := lon;
                           Place.lat := lat; Place.type := "city" |}])
    | ReverseGet _ _ => Resolved None
    end.

(** The ready component once the load handler has run. *)
Definition loaded : World := exec (on_load sample_buildings) ready.

Definition loaded_map : MapHost := default new_map (map_current loaded).

(** The layer and dataset ids the load handler cleans up, in its order. *)
Definition component_ids : list string :=
  [ BUILDING_LAYER_ID; "buildings"; "viewpoint-markers"; "viewpoint-source";
    "route-line"; "route-source"; ROUTE_POINT_LAYER_ID; ROUTE_POINT_SOURCE_ID;
    BOX_LAYER_ID; BOX_SOURCE_ID; "clicked-points-layer"; CLICKED_POINTS_SOURCE_ID;
    COLLECTED_COORDS_LAYER_ID; COLLECTED_COORDS_SOURCE_ID ].

(** A map whose style uses none of these ids, for a layer or a dataset. *)
Definition untouched (m : MapHost) : Prop :=
  Forall (fun id => sources m !! id = None /\ has_layer id m = false) component_ids.

(** The datasets the load handler registers on top of those of the style. *)
Definition with_component_sources (buildings : FeatureCollection)
    (src : gmap string GeoJSON) : gmap string GeoJSON :=
  <[COLLECTED_COORDS_SOURCE_ID := empty_collection]>
    (<[CLICKED_POINTS_SOURCE_ID := empty_collection]>
      (<[BOX_SOURCE_ID := empty_collection]>
        (<[ROUTE_POINT_SOURCE_ID := empty_collection]>
          (<["viewpoint-source" := Collection (viewpointMarkers buildings)]>
            (<["buildings" := Collection buildings]> src))))).

(** What the category effect leaves of a layer: everything but its paint
    and its filter. *)
Definition shape_of (l : Layer.t) : string * string * string * list (string * Expr) :=
  (Layer.id l, Layer.type l, Layer.source l, Layer.layout l).

Definition same_shape (a b : MapHost) : Prop :=
  sources b = sources a
  /\ images b = images a
  /\ styleLoaded b = styleLoaded a
  /\ listeners b = listeners a
  /\ List.map shape_of (layers b) = List.map shape_of (layers a).

Definition other_point : LngLat.t := {| LngLat.lng := 83.3%float; LngLat.lat := 17.68%float |}.

(** Mounting, a right-click, two clicks whose answers arrive in the other
    order, and a load of the style. *)
Definition sample_session : list PageEvent :=
  [Begin Mounted;
   Begin (PointerDown (secondary sample_point []));
   Begin (ContextMenu (secondary sample_point []));
   Begin (MapClicked (primary sample_point));
   Begin (MapClicked (primary other_point));
   Answered 1 (reverse_answers None);
   Begin (StyleLoaded sample_buildings);
   Answered 0 (failing (Error "Network Error"))].

(** * Properties of the component *)

(** Unfolds the monadic plumbing of synchronous code, leaving the tests on
    the world to the proof. *)
Ltac sync_unfold :=
  cbv beta iota zeta delta
    [bind ret Monad_Sync Monad_Task sbind sret sthrow modify read emit dispatch
     get_map put_map flyTo getSource getLayer setData isStyleLoaded on
     setSearchQuery setSearchSuggestions setSearchError setReverseGeocodeInfo
     setIsReverseGeocoding setSelectedFeature setView360Url setActiveCategory
     setIsCoordinateFormOpen setRoutePoints setLoggedClicks setCollectedCoordinates
     with_ui to lift attempt exec
     fst snd ui store map_current effects
     searchQuery searchSuggestions searchError reverseGeocodeInfo isReverseGeocoding
     selectedFeature view360Url activeCategory isCoordinateFormOpen routePoints
     loggedClicks collectedCoordinates
     sources layers images styleLoaded listeners].

(** The same for tasks run up to their first await. *)
Ltac task_unfold :=
  cbv beta iota zeta delta
    [run tbind try_catch await awaited
     bind ret Monad_Sync Monad_Task sbind sret sthrow modify read emit dispatch
     get_map put_map flyTo getSource getLayer setData isStyleLoaded on
     setSearchQuery setSearchSuggestions setSearchError setReverseGeocodeInfo
     setIsReverseGeocoding setSelectedFeature setView360Url setActiveCategory
     setIsCoordinateFormOpen setRoutePoints setLoggedClicks setCollectedCoordinates
     with_ui to lift attempt exec
     fst snd ui store map_current effects
     searchQuery searchSuggestions searchError reverseGeocodeInfo isReverseGeocoding
     selectedFeature view360Url activeCategory isCoordinateFormOpen routePoints
     loggedClicks collectedCoordinates
     sources layers images styleLoaded listeners].

(** ** The built-ins on sample inputs *)

Example toFixed_examples :
  JS.toFixed 17.72%float 6 = "17.720000"
  /\ JS.toFixed 83.23%float 4 = "83.2300"
  /\ JS.toFixed (-0.000001)%float 2 = "-0.00"
  /\ JS.toFixed (-0)%float 2 = "0.00"
  /\ JS.toFixed 1.005%float 2 = "1.00"
  /\ JS.toFixed 2.5%float 0 = "3"
  /\ JS.toFixed 123.456%float 0 = "123"
  /\ JS.toFixed 1e21%float 2 = "1e+21"
  /\ JS.toFixed 1180591620717411303424%float 0 = "1.1805916207174113e+21"
  /\ JS.toFixed (0 / 0)%float 6 = "NaN".
Proof. repeat split; vm_compute; reflexivity. Qed.

Example parseFloat_examples :
  JS.parseFloat "83.30" = 83.3%float
  /\ JS.parseFloat "17.68" = 17.68%float
  /\ JS.parseFloat "  -12.5e3xyz" = (-12500)%float
  /\ JS.parseFloat ".5" = 0.5%float
  /\ JS.parseFloat "1e+" = 1%float
  /\ JS.parseFloat "9007199254740993" = 9007199254740992%float
  /\ PrimFloat.is_nan (JS.parseFloat "abc") = true.
Proof. repeat split; vm_compute; reflexivity. Qed.

Example trim_examples :
  JS.trim "  Vizag  " = "Vizag" /\ JS.trim " a b " = "a b" /\ JS.trim "   " = ""
  /\ JS.trim (String (ascii_of_nat 160) "") = ""
  /\ JS.trim (String (ascii_of_nat 160) ("a" ++ String (ascii_of_nat 9) "")) = "a".
Proof. repeat split; reflexivity. Qed.

Example toString_examples :
  JS.toString 83.3%float = "83.3"
  /\ JS.toString 95%float = "95"
  /\ JS.toString (-0.000001)%float = "-0.000001"
  /\ JS.toString 0.0000001%float = "1e-7"
  /\ JS.toString 1e21%float = "1e+21"
  /\ JS.toString 123456789012345680000%float = "123456789012345680000"
  /\ JS.toString 0.1%float = "0.1"
  /\ JS.toString 5e-324%float = "5e-324"
  /\ JS.toString (-0)%float = "0"
  /\ JS.toString JS.NaN = "NaN"
  /\ JS.toString (JS.parseFloat "abc") = "NaN".
Proof. repeat split; vm_compute; reflexivity. Qed.

Lemma string_length_append (s t : string) :
  String.length (s ++ t) = (String.length s + String.length t)%nat.
Proof. induction s as [| c s IH]; simpl; [reflexivity | rewrite IH; reflexivity]. Qed.

Lemma length_zeros (k : nat) : String.length (JS.zeros k) = k.
Proof. induction k as [| k IH]; cbn; [reflexivity | rewrite IH; reflexivity]. Qed.

Lemma length_drop (k : nat) (s : string) :
  String.length (JS.drop k s) = (String.length s - k)%nat.
Proof.
  revert s. induction k as [| k IH]; intros [| c s]; cbn; try reflexivity.
  apply IH.
Qed.

Lemma fixed_digits_fraction (f : nat) (n : Z) :
  (0 < f)%nat ->
  exists a b, JS.fixed_digits f n = a ++ "." ++ b /\ String.length b = f.
Proof.
  intros Hf. unfold JS.fixed_digits. destruct f as [| f]; [lia |].
  set (m := if (String.length (JS.digits_of n) <=? S f)%nat then _ else _).
  assert (Hm : (S f < String.length m)%nat).
  { subst m. destruct (String.length (JS.digits_of n) <=? S f)%nat eqn:Hk.
    - apply Nat.leb_le in Hk. rewrite string_length_append, length_zeros. lia.
    - apply Nat.leb_gt in Hk. exact Hk. }
  eexists _, _. split; [reflexivity |].
  rewrite length_drop. lia.
Qed.

(** A finite number below 10^21 in magnitude is printed by [toFixed] with
    exactly the requested number of characters after the decimal point. *)
Lemma toFixed_fraction (x : JS.number) (f : nat) (s : bool) (m : positive) (e : Z) :
  (0 < f)%nat ->
  Prim2SF x = S754_finite s m e ->
  JS.ge_1e21 m e = false ->
  exists a b, JS.toFixed x f = a ++ "." ++ b /\ String.length b = f.
Proof.
  intros Hf Hx Hsmall. unfold JS.toFixed. rewrite Hx, Hsmall.
  destruct (fixed_digits_fraction f (JS.scaled_round m e f) Hf) as (a & b & -> & Hb).
  exists ((if s then "-" else "") ++ a), b. split; [| exact Hb].
  destruct s; reflexivity.
Qed.

(** ** The geocoding clients *)

(** The forward-search example of the specification. *)
Example forward_search_example (w : World) :
  let net : Network := fun req =>
    match req return Outcome (Response req) with
    | SearchGet _ _ =>
        Resolved (Some [{| Place.display_name := "Visakhapatnam"; Place.lon := "83.30";
                           Place.lat := "17.68"; Place.type := "city" |}])
    | ReverseGet _ _ => Resolved None
    end in
  (complete net (fetchCoordinates "Vizag" 1) w).2
  = Ok [{| Suggestion.name := "Visakhapatnam"; Suggestion.lng := 83.3%float;
           Suggestion.lat := 17.68%float; Suggestion.zoom := 12%float |}].
Proof. vm_compute. reflexivity. Qed.

Lemma fetchCoordinates_failure (e : JSError) (query : string) (limit : nat) (w : World) :
  complete (failing e) (fetchCoordinates query limit) w = (w, Ok []).
Proof.
  unfold fetchCoordinates.
  destruct ((1 <? limit)%nat && (String.length query <? 3)%nat); reflexivity.
Qed.

Lemma fetchPincodeAndAddress_failure (e : JSError) (lat lng : JS.number) (w : World) :
  (complete (failing e) (fetchPincodeAndAddress lat lng) w).2
  = Ok {| GeocodeInfo.pincode := "Error";
          GeocodeInfo.latitude := JS.toFixed lat 6;
          GeocodeInfo.longitude := JS.toFixed lng 6;
          GeocodeInfo.fullAddress := "Service Error" |}.
Proof. reflexivity. Qed.

(** C8: when the network call fails, whatever the error, neither geocoding
    client propagates it: the forward search completes normally with the
    empty list, and the reverse lookup completes normally with pincode
    "Error", fullAddress "Service Error" and the input coordinates printed
    with six decimals. *)
Theorem geocoding_failures_are_swallowed :
  forall (e : JSError) (w : World),
    (forall query limit,
       (complete (failing e) (fetchCoordinates query limit) w).2 = Ok [])
    /\ (forall lat lng,
       (complete (failing e) (fetchPincodeAndAddress lat lng) w).2
       = Ok {| GeocodeInfo.pincode := "Error";
               GeocodeInfo.latitude := JS.toFixed lat 6;
               GeocodeInfo.longitude := JS.toFixed lng 6;
               GeocodeInfo.fullAddress := "Service Error" |}).
Proof.
  intros e w. split.
  - intros query limit. rewrite fetchCoordinates_failure. reflexivity.
  - intros lat lng. apply fetchPincodeAndAddress_failure.
Qed.

(** C9: a reverse-geocode call with lat 17.72 and lng 83.23 against a
    service whose response has no address object (an empty body, or a body
    without the address field) returns pincode "N/A", latitude "17.720000",
    longitude "83.230000" and fullAddress "No Address Data Found". *)
Theorem reverse_geocode_without_address :
  forall (w : World) (display_name : option string),
    let expected :=
      Ok {| GeocodeInfo.pincode := "N/A";
            GeocodeInfo.latitude := "17.720000";
            GeocodeInfo.longitude := "83.230000";
            GeocodeInfo.fullAddress := "No Address Data Found" |} in
    (complete (reverse_answers None)
              (fetchPincodeAndAddress 17.72%float 83.23%float) w).2 = expected
    /\ (complete (reverse_answers
                    (Some {| ReverseData.address := None;
                             ReverseData.display_name := display_name |}))
                 (fetchPincodeAndAddress 17.72%float 83.23%float) w).2 = expected.
Proof.
  intros w display_name expected. subst expected.
  split; vm_compute; reflexivity.
Qed.

(** ** Resetting the map *)

Lemma default_centre_is_taken :
  convert_error (Position [DEFAULT_CENTER.lng; DEFAULT_CENTER.lat]) = None.
Proof. vm_compute. reflexivity. Qed.

(** C10: on the mounted component (the reset button is only rendered once
    the map exists) the reset-map operation empties the route points, the
    collected coordinates, the logged clicks, the route, the selected
    feature, the 360-view URL, the coordinate form, the search suggestions
    and the reverse-geocode result, and puts the active category back to
    "All"; the search query text and the search error message are left as
    they were. *)
Theorem resetMapView_clears_interaction_state :
  forall (w : World) (m : MapHost),
    map_current w = Some m ->
    let w' := exec resetMapView w in
    cleared w'
    /\ searchQuery (ui w') = searchQuery (ui w)
    /\ searchError (ui w') = searchError (ui w).
Proof.
  intros [[] st mc fx] [src ly im sl ls] Hm w'. subst w'. cbn in Hm. subst mc.
  unfold resetMapView, cleared, flyTo. cbn [FlyOptions.center].
  rewrite default_centre_is_taken. sync_unfold.
  destruct (src !! BOX_SOURCE_ID) eqn:E; sync_unfold; rewrite ?E; sync_unfold;
    repeat split; reflexivity.
Qed.

Lemma resetMapView_clears_interaction_state_witness :
  map_current routed = Some ready_map
  /\ (cleared (exec resetMapView routed)
      /\ searchQuery (ui (exec resetMapView routed)) = searchQuery (ui routed)
      /\ searchError (ui (exec resetMapView routed)) = searchError (ui routed)).
Proof.
  split; [reflexivity |].
  exact (resetMapView_clears_interaction_state routed ready_map eq_refl).
Defined.

(** ** The two bounded buffers *)

Lemma on_mousedown_returns (e : MouseEvent.t) (w : World) :
  (on_mousedown e w).2 = Ok tt.
Proof.
  destruct w as [[] st mc fx]. unfold on_mousedown. sync_unfold.
  destruct (MouseEvent.button e =? 2); sync_unfold; [| reflexivity].
  destruct (MAX_COLLECTED_POINTS <=? length collectedCoordinates0)%nat; reflexivity.
Qed.

Lemma on_mousedown_logged (e : MouseEvent.t) (w : World) :
  loggedClicks (ui (exec (on_mousedown e) w)) = [logged e].
Proof.
  destruct w as [[] st mc fx]. unfold on_mousedown, logged. sync_unfold.
  destruct (MouseEvent.button e =? 2); sync_unfold; [| reflexivity].
  destruct (MAX_COLLECTED_POINTS <=? length collectedCoordinates0)%nat; reflexivity.
Qed.

Lemma exec_bind_returns {A B} (m : Sync A) (k : A -> Sync B) (a : A) (w : World) :
  (m w).2 = Ok a -> exec (bind m k) w = exec (k a) (exec m w).
Proof.
  unfold exec. cbn. unfold sbind. destruct (m w) as [w' r]. cbn.
  intros ->. reflexivity.
Qed.

Lemma mousedowns_snoc (es : list MouseEvent.t) (e : MouseEvent.t) (w : World) :
  exec (mousedowns (es ++ [e])) w = exec (on_mousedown e) (exec (mousedowns es) w).
Proof.
  revert w. induction es as [| e0 es IH]; intros w; cbn [mousedowns app].
  - rewrite (exec_bind_returns _ _ tt) by apply on_mousedown_returns. reflexivity.
  - rewrite !(exec_bind_returns _ _ tt) by apply on_mousedown_returns. apply IH.
Qed.

(** C5: after any sequence of mousedown events the logged-clicks buffer
    holds at most one entry, and after a non-empty sequence it holds exactly
    the entry of the most recent event: its coordinates with four decimals
    and its button classification. *)
Theorem logged_clicks_hold_most_recent :
  forall (st : Store) (mc : option MapHost) (fx : list Effect) (es : list MouseEvent.t),
    let w0 := {| ui := initial_ui; store := st; map_current := mc; effects := fx |} in
    (length (loggedClicks (ui (exec (mousedowns es) w0))) <= 1)%nat
    /\ (forall e, loggedClicks (ui (exec (mousedowns (es ++ [e])) w0)) = [logged e]).
Proof.
  intros st mc fx es w0. split.
  - destruct es as [| e es _] using rev_ind.
    + apply Nat.le_0_l.
    + rewrite mousedowns_snoc, on_mousedown_logged. apply Nat.le_refl.
  - intros e. rewrite mousedowns_snoc. apply on_mousedown_logged.
Qed.

Lemma within_capacity_bind {A B} (m : Sync A) (k : A -> Sync B) :
  (forall w, within_capacity w -> within_capacity (exec m w)) ->
  (forall a w, within_capacity w -> within_capacity (exec (k a) w)) ->
  forall w, within_capacity w -> within_capacity (exec (bind m k) w).
Proof.
  intros Hm Hk w Hw. specialize (Hm w Hw). revert Hm.
  unfold exec. cbn. unfold sbind. destruct (m w) as [w' [a | e]]; cbn.
  - apply Hk.
  - trivial.
Qed.

Lemma on_mousedown_within_capacity (e : MouseEvent.t) (w : World) :
  within_capacity w -> within_capacity (exec (on_mousedown e) w).
Proof.
  destruct w as [[] st mc fx]. unfold within_capacity, on_mousedown. sync_unfold.
  intros Hw.
  destruct (MouseEvent.button e =? 2); sync_unfold; [| exact Hw].
  destruct (MAX_COLLECTED_POINTS <=? length collectedCoordinates0)%nat eqn:Hfull;
    sync_unfold; rewrite ?Hfull; [exact Hw |].
  apply Nat.leb_gt in Hfull. rewrite length_app. cbn. lia.
Qed.

Lemma on_contextmenu_within_capacity (e : MouseEvent.t) (w : World) :
  within_capacity w -> within_capacity (exec (on_contextmenu e) w).
Proof.
  destruct w as [[] st mc fx]. unfold within_capacity, on_contextmenu. sync_unfold.
  intros Hw.
  destruct (queryRenderedFeatures e _) as [| first rest]; [exact Hw |].
  destruct (JS.truthy _); [| exact Hw].
  destruct mc as [m |]; [| exact Hw].
  destruct (convert_error _); cbn; [exact Hw | lia].
Qed.

Lemma secondary_presses_within_capacity (ps : list (LngLat.t * list Rendered.t)) (w : World) :
  within_capacity w -> within_capacity (exec (secondary_presses ps) w).
Proof.
  revert w. induction ps as [| [at_ rendered] ps IH]; intros w Hw; cbn [secondary_presses].
  - exact Hw.
  - apply within_capacity_bind; [| intros _; exact IH | exact Hw].
    intros w1 Hw1. unfold secondary_press.
    apply within_capacity_bind; [| | exact Hw1].
    + apply on_mousedown_within_capacity.
    + intros _. apply on_contextmenu_within_capacity.
Qed.

Lemma on_mousedown_at_capacity (e : MouseEvent.t) (w : World) :
  (MAX_COLLECTED_POINTS <= length (collectedCoordinates (ui w)))%nat ->
  collectedCoordinates (ui (exec (on_mousedown e) w)) = collectedCoordinates (ui w).
Proof.
  destruct w as [[] st mc fx]. unfold on_mousedown. sync_unfold.
  intros Hfull. apply Nat.leb_le in Hfull.
  destruct (MouseEvent.button e =? 2); sync_unfold; rewrite ?Hfull; reflexivity.
Qed.

(** C4: over every sequence of secondary-button presses (each a mousedown
    followed by a contextmenu) the collected-coordinates buffer never
    exceeds 155 entries; and a collection attempt made while the buffer
    holds 155 entries leaves the buffer as it is. *)
Theorem collected_coordinates_capped :
  forall (w : World) (presses : list (LngLat.t * list Rendered.t)),
    (length (collectedCoordinates (ui w)) <= 155)%nat ->
    (length (collectedCoordinates (ui (exec (secondary_presses presses) w))) <= 155)%nat
    /\ (length (collectedCoordinates (ui w)) = 155%nat ->
        forall at_ rendered,
          collectedCoordinates (ui (exec (on_mousedown (secondary at_ rendered)) w))
          = collectedCoordinates (ui w)).
Proof.
  intros w presses Hw. split.
  - apply (secondary_presses_within_capacity presses w Hw).
  - intros Hfull at_ rendered. apply on_mousedown_at_capacity.
    unfold MAX_COLLECTED_POINTS. rewrite Hfull. apply Nat.le_refl.
Qed.

Lemma collected_coordinates_capped_witness :
  (length (collectedCoordinates (ui full_buffer)) <= 155)%nat
  /\ ((length (collectedCoordinates
                 (ui (exec (secondary_presses [(sample_point, []); (sample_point, [sample_marker])])
                           full_buffer))) <= 155)%nat
      /\ (length (collectedCoordinates (ui full_buffer)) = 155%nat ->
          forall at_ rendered,
            collectedCoordinates (ui (exec (on_mousedown (secondary at_ rendered)) full_buffer))
            = collectedCoordinates (ui full_buffer))).
Proof.
  assert (H : (length (collectedCoordinates (ui full_buffer)) <= 155)%nat)
    by (vm_compute; reflexivity).
  split; [exact H |].
  exact (collected_coordinates_capped full_buffer
           [(sample_point, []); (sample_point, [sample_marker])] H).
Defined.

(** ** Selection and reverse geocoding *)

Lemma on_building_click_clears_geocode (features : list Feature.t) (w : World) :
  (on_building_click features w).2 = Ok tt ->
  is_Some (selectedFeature (ui (exec (on_building_click features) w)))
  /\ reverseGeocodeInfo (ui (exec (on_building_click features) w)) = None.
Proof.
  destruct w as [[] st mc fx]. unfold on_building_click, first_feature. sync_unfold.
  destruct features as [| feature rest]; sync_unfold; [discriminate |].
  destruct (Feature.geometry feature) as [[| c cs] | [| ring rings]]; sync_unfold;
    try discriminate.
  destruct mc as [m |]; sync_unfold; [| discriminate].
  destruct (convert_error _); sync_unfold; [discriminate |].
  intros _. split; [eexists; reflexivity | reflexivity].
Qed.

Lemma on_photo_marker_click_clears_geocode (features : list Feature.t) (w : World) :
  (on_photo_marker_click features w).2 = Ok tt ->
  is_Some (selectedFeature (ui (exec (on_photo_marker_click features) w)))
  /\ reverseGeocodeInfo (ui (exec (on_photo_marker_click features) w)) = None.
Proof.
  destruct w as [[] st mc fx]. unfold on_photo_marker_click, first_feature. sync_unfold.
  destruct features as [| feature rest]; sync_unfold; [discriminate |].
  destruct (JS.truthy _); sync_unfold;
    (destruct mc as [m |]; sync_unfold; [| discriminate]);
    (destruct (convert_error _); sync_unfold; [discriminate |]);
    intros _; (split; [eexists; reflexivity | reflexivity]).
Qed.

Lemma on_click_starts_geocode (closure : Captured.t) (e : MouseEvent.t) (w : World) :
  MouseEvent.button e = 0 ->
  List.existsb is_feature_layer (MouseEvent.rendered e) = false ->
  let r := run (on_click closure e) w in
  awaited r.2 = Some (ReverseGet (LngLat.lat (MouseEvent.lngLat e))
                                  (LngLat.lng (MouseEvent.lngLat e)))
  /\ selectedFeature (ui r.1) = None
  /\ view360Url (ui r.1) = None
  /\ isReverseGeocoding (ui r.1) = true.
Proof.
  intros Hbutton Hmiss r. subst r.
  destruct w as [[] st mc fx]. unfold on_click, queryRenderedFeatures.
  rewrite Hbutton, Hmiss. cbn [Z.eqb negb].
  unfold handleReverseGeocode, fetchPincodeAndAddress.
  destruct ((0 <? length (Captured.routePoints closure))%nat
            || bool_decide (is_Some (Captured.route closure)));
    task_unfold; repeat split; reflexivity.
Qed.

Lemma on_contextmenu_promotion (e : MouseEvent.t) (first : Rendered.t)
    (rest : list Rendered.t) (w : World) :
  queryRenderedFeatures e (Some ["viewpoint-markers"; PHOTO_MARKER_LAYER_ID]) = first :: rest ->
  JS.truthy (Properties.imageURL (Feature.properties (Rendered.feature first))) = true ->
  is_Some (selectedFeature (ui (exec (on_contextmenu e) w)))
  /\ reverseGeocodeInfo (ui (exec (on_contextmenu e) w)) = reverseGeocodeInfo (ui w).
Proof.
  intros Hhit Himage.
  destruct w as [[] st mc fx]. unfold on_contextmenu. rewrite Hhit, Himage. sync_unfold.
  destruct mc as [m |]; sync_unfold; [destruct (convert_error _); sync_unfold |];
    (split; [eexists; reflexivity | reflexivity]).
Qed.

Lemma on_click_with_stale_closure (closure : Captured.t) (e : MouseEvent.t) (w : World) :
  MouseEvent.button e = 0 ->
  List.existsb is_feature_layer (MouseEvent.rendered e) = false ->
  Captured.routePoints closure = [] ->
  Captured.route closure = None ->
  let r := run (on_click closure e) w in
  routePoints (ui r.1) = routePoints (ui w) /\ route (store r.1) = route (store w).
Proof.
  intros Hbutton Hmiss Hpoints Hroute r. subst r.
  destruct w as [[] st mc fx]. unfold on_click, queryRenderedFeatures.
  rewrite Hbutton, Hmiss, Hpoints, Hroute. cbn [Z.eqb negb].
  unfold handleReverseGeocode, fetchPincodeAndAddress.
  task_unfold. split; reflexivity.
Qed.

Lemma on_click_with_current_closure (closure : Captured.t) (e : MouseEvent.t) (w : World) :
  MouseEvent.button e = 0 ->
  List.existsb is_feature_layer (MouseEvent.rendered e) = false ->
  Captured.routePoints closure = routePoints (ui w) ->
  Captured.route closure = route (store w) ->
  let r := run (on_click closure e) w in
  routePoints (ui r.1) = [] /\ route (store r.1) = None.
Proof.
  intros Hbutton Hmiss Hpoints Hroute r. subst r.
  destruct w as [[] [b rt ld er] mc fx]. cbn in Hpoints, Hroute.
  unfold on_click, queryRenderedFeatures.
  rewrite Hbutton, Hmiss, Hpoints, Hroute. cbn [Z.eqb negb].
  unfold handleReverseGeocode, fetchPincodeAndAddress.
  destruct routePoints0 as [| p ps], rt as [rt |]; task_unfold; split; reflexivity.
Qed.

(** C3, on the code: the click listener is registered with the route
    points and the route of the render in which the map was created (none);
    when a route is put on display afterwards, a primary-button click that
    hits no feature-bearing layer clears the selection and the 360-view and
    issues the reverse-geocode request for the clicked coordinate, but
    leaves the route in place. *)
Theorem click_after_mount_keeps_route :
  let r := run (map_click (primary sample_point)) routed in
  click_listener routed = Some {| Captured.routePoints := []; Captured.route := None |}
  /\ route (store routed) = Some sample_route
  /\ awaited r.2 = Some (ReverseGet 17.72%float 83.23%float)
  /\ selectedFeature (ui r.1) = None
  /\ view360Url (ui r.1) = None
  /\ route (store r.1) = Some sample_route.
Proof.
  intros r. subst r. vm_compute. repeat split; reflexivity.
Qed.

(** ** Manual search *)

(** C6, as stated: every query string submitted through the search form
    issues a forward-geocoding lookup with limit 1.  A query of a single
    space (shorter than three characters) issues none. *)
Lemma manual_submit_without_lookup :
  ~ (forall query : string,
       exists q, awaited (run (handleSearch query) ready).2 = Some (SearchGet q 1)).
Proof.
  intros Hall. destruct (Hall " ") as [q Hq].
  vm_compute in Hq. discriminate Hq.
Qed.

Lemma trimStart_of_white_space (s : string) :
  white_space_only s = true -> JS.trimStart s = "".
Proof.
  induction s as [| c s IH]; cbn; [reflexivity |].
  destruct (JS.is_space c); cbn; [exact IH | discriminate].
Qed.

Lemma trimStart_of_other (s : string) :
  white_space_only s = false ->
  exists c rest, JS.trimStart s = String c rest /\ JS.is_space c = false.
Proof.
  induction s as [| c s IH]; cbn; [discriminate |].
  destruct (JS.is_space c) eqn:Hc; cbn; [exact IH |].
  intros _. exists c, s. split; [reflexivity | exact Hc].
Qed.

Lemma trimEnd_keeps_first (c : ascii) (s : string) :
  JS.is_space c = false -> exists rest, JS.trimEnd (String c s) = String c rest.
Proof.
  intros Hc. cbn. rewrite Hc.
  destruct (JS.trimEnd s) as [| d t]; eexists; reflexivity.
Qed.

(** Trimming leaves nothing exactly of the queries made of white space. *)
Lemma trim_empty_iff (s : string) : JS.trim s = "" <-> white_space_only s = true.
Proof.
  unfold JS.trim. destruct (white_space_only s) eqn:Hs.
  - rewrite (trimStart_of_white_space s Hs). split; reflexivity.
  - destruct (trimStart_of_other s Hs) as (c & rest & -> & Hc).
    destruct (trimEnd_keeps_first c rest Hc) as (t & ->). split; discriminate.
Qed.

(** C6, amended: once the map exists, for every query string that is not
    empty after trimming white space, submitting the search form issues at
    once a forward-geocoding lookup of the trimmed query with result limit
    1, whatever the length of the query (also below three characters); a
    query that is empty or consists of white space only issues no lookup. *)
Theorem manual_submit_issues_lookup :
  forall (query : string) (w : World),
    is_Some (map_current w) ->
    (white_space_only query = true <-> JS.trim query = "")
    /\ awaited (run (handleSearch query) w).2
       = if white_space_only query then None
         else Some (SearchGet (JS.trim query) 1).
Proof.
  intros query w [m Hm]. split; [symmetry; apply trim_empty_iff |].
  destruct w as [[] st mc fx]. cbn in Hm. subst mc.
  unfold handleSearch, fetchCoordinates.
  destruct (white_space_only query) eqn:Hblank.
  - apply trim_empty_iff in Hblank. rewrite Hblank. task_unfold. reflexivity.
  - destruct (JS.trim query) as [| c rest] eqn:Htrim.
    + apply trim_empty_iff in Htrim. congruence.
    + task_unfold. reflexivity.
Qed.

Lemma manual_submit_issues_lookup_witness :
  is_Some (map_current ready)
  /\ (white_space_only " a " = true <-> JS.trim " a " = "")
  /\ awaited (run (handleSearch " a ") ready).2
     = if white_space_only " a " then None else Some (SearchGet (JS.trim " a ") 1).
Proof.
  assert (Hmap : is_Some (map_current ready)) by (eexists; reflexivity).
  split; [exact Hmap |].
  exact (manual_submit_issues_lookup " a " ready Hmap).
Defined.

(** ** The load handler *)

Example init_effect_registers_listeners :
  listeners <$> map_current mounted
  = Some [OnMove; OnMouseDown;
          OnClick {| Captured.routePoints := []; Captured.route := None |};
          OnContextMenu; OnLoad sample_buildings].
Proof. reflexivity. Qed.

Example marker_of_examples :
  Feature.geometry (marker_of sample_building)
  = Point [83.22999999999999%float; 17.720000000000002%float]
  /\ Feature.geometry
       (marker_of {| Feature.geometry := Point [83.2%float; 17.7%float];
                     Feature.properties := sample_properties |})
     = Point [0%float; 0%float].
Proof. split; vm_compute; reflexivity. Qed.

Lemma bind_always_throws {A B} (m : Sync A) (k : A -> Sync B) :
  (forall a w, exists e, (k a w).2 = Thrown e) ->
  forall w, exists e, (bind m k w).2 = Thrown e.
Proof.
  intros Hk w. cbn. unfold sbind.
  destruct (m w) as [w' [a | e]].
  - apply Hk.
  - exists e. reflexivity.
Qed.

Lemma box_layer_source_is_unbound :
  scope_lookup "BOX_SOURCE_SOURCE_ID" module_scope = None
  /\ scope_lookup "BOX_SOURCE_ID" module_scope = Some BOX_SOURCE_ID.
Proof. split; reflexivity. Qed.

Lemma on_load_always_throws (buildings : FeatureCollection) (w : World) :
  exists e, (on_load buildings w).2 = Thrown e.
Proof.
  revert w. unfold on_load. cbv zeta.
  do 22 (apply bind_always_throws; intros _).
  intros w. eexists. reflexivity.
Qed.

(** C1, on the code: the load handler does not run to completion.  On
    every map and for every building collection it ends with an exception;
    on the freshly created map it registers the six datasets, the building
    layer and the route-point layer, and then stops on the unbound
    identifier [BOX_SOURCE_SOURCE_ID]: the selection-box layer and the
    clicked-points layer are never registered, and the feature click
    handlers are never attached. *)
Theorem load_handler_stops_at_box_layer :
  forall buildings : FeatureCollection,
    let r := on_load buildings ready in
    r.2 = Thrown (ReferenceError "BOX_SOURCE_SOURCE_ID is not defined")
    /\ source_of "buildings" r.1 = Some (Collection buildings)
    /\ source_of "viewpoint-source" r.1 = Some (Collection (viewpointMarkers buildings))
    /\ source_of ROUTE_POINT_SOURCE_ID r.1 = Some empty_collection
    /\ source_of BOX_SOURCE_ID r.1 = Some empty_collection
    /\ source_of CLICKED_POINTS_SOURCE_ID r.1 = Some empty_collection
    /\ source_of COLLECTED_COORDS_SOURCE_ID r.1 = Some empty_collection
    /\ layers <$> map_current r.1 = Some [buildings_layer; route_point_layer]
    /\ layer_of BOX_LAYER_ID r.1 = None
    /\ layer_of "clicked-points-layer" r.1 = None
    /\ listeners <$> map_current r.1 = listeners <$> map_current ready
    /\ (forall w, exists e, (on_load buildings w).2 = Thrown e).
Proof.
  intros buildings r. subst r.
  repeat split; try (vm_compute; reflexivity).
  intros w. apply on_load_always_throws.
Qed.

(** ** Category filter *)

Section LayerUpdates.

Variables (id : string) (f : Layer.t -> Layer.t).
Hypothesis f_keeps_id : forall l, Layer.id (f l) = Layer.id l.

Lemma update_one_keeps_id (l : Layer.t) : Layer.id (update_one id f l) = Layer.id l.
Proof. unfold update_one. destruct (String.eqb (Layer.id l) id); auto. Qed.

Lemma find_update_layer (id' : string) (ls : list Layer.t) :
  List.find (fun l => String.eqb (Layer.id l) id') (List.map (update_one id f) ls)
  = update_one id f <$> List.find (fun l => String.eqb (Layer.id l) id') ls.
Proof.
  induction ls as [| l ls IH]; cbn; [reflexivity |].
  rewrite update_one_keeps_id.
  destruct (String.eqb (Layer.id l) id'); [reflexivity | exact IH].
Qed.

Lemma has_layer_update_layer (id' : string) (m : MapHost) :
  has_layer id' (update_layer id f m) = has_layer id' m.
Proof.
  unfold has_layer, update_layer. cbn.
  induction (layers m) as [| l ls IH]; cbn; [reflexivity |].
  rewrite update_one_keeps_id, IH. reflexivity.
Qed.

End LayerUpdates.

Lemma has_layer_find (id : string) (m : MapHost) (l : Layer.t) :
  List.find (fun l => String.eqb (Layer.id l) id) (layers m) = Some l ->
  has_layer id m = true.
Proof.
  unfold has_layer. induction (layers m) as [| l0 ls IH]; cbn; [discriminate |].
  destruct (String.eqb (Layer.id l0) id); [reflexivity | exact IH].
Qed.

Lemma find_layer_id (id : string) (ls : list Layer.t) (l : Layer.t) :
  List.find (fun l => String.eqb (Layer.id l) id) ls = Some l -> Layer.id l = id.
Proof.
  intros Hfind. apply List.find_some in Hfind as [_ Heq].
  apply String.eqb_eq. exact Heq.
Qed.

Lemma assoc_get_set {V} (k : string) (v : V) (l : list (string * V)) :
  assoc_get k (assoc_set k v l) = Some v.
Proof.
  induction l as [| [k' v'] l IH]; cbn.
  - rewrite String.eqb_refl. reflexivity.
  - destruct (String.eqb k' k) eqn:Hk; cbn.
    + rewrite String.eqb_refl. reflexivity.
    + rewrite Hk. exact IH.
Qed.

Lemma passes_category_filter (category : string) (f : Feature.t) :
  passes (Some (Arr [Str "=="; get "category"; Str category])) f = true
  <-> Properties.category (Feature.properties f) = Some category.
Proof.
  unfold passes. cbn. unfold property. cbn.
  destruct (Properties.category (Feature.properties f)) as [c |]; cbn.
  - rewrite String.eqb_eq. split; congruence.
  - split; discriminate.
Qed.

Lemma passes_marker_filter (category : string) (f : Feature.t) :
  passes (Some (Arr [Str "all"; has "imageURL";
                     Arr [Str "=="; get "category"; Str category]])) f = true
  <-> is_Some (Properties.imageURL (Feature.properties f))
      /\ Properties.category (Feature.properties f) = Some category.
Proof.
  rewrite <- passes_category_filter.
  unfold passes. cbn. unfold property. cbn.
  destruct (Properties.imageURL (Feature.properties f)) as [u |]; cbn.
  - rewrite andb_true_r. split; [intros H; split; [eexists; reflexivity | exact H] | tauto].
  - split; [discriminate | intros [[u Hu] _]; discriminate].
Qed.

Lemma layers_update_layer (id : string) (f : Layer.t -> Layer.t) (m : MapHost) :
  layers (update_layer id f m) = List.map (update_one id f) (layers m).
Proof. reflexivity. Qed.

Arguments sbind {A B} m f w /.
Arguments sret {A} a w /.
Arguments sthrow {A} e w /.
Arguments modify f w /.
Arguments read {A} g w /.
Arguments emit e w /.
Arguments get_map w /.
Arguments put_map m w /.
Arguments getLayer id w /.
Arguments isStyleLoaded w /.
Arguments setPaintProperty id name value w /.
Arguments setFilter id filter w /.
Arguments setActiveCategory f w /.
Arguments with_ui f w /.
Arguments exec {A} s w /.
Arguments handleCategoryClick category w /.
Arguments to {A} v _ /.
Arguments has_layer : simpl never.
Arguments update_layer : simpl never.

(** Runs the category effect symbolically: evaluates, then settles each
    test on the map with what is known of its layers. *)
Ltac category_steps Hloaded Hb Hp :=
  repeat (cbn;
          first [ rewrite Hloaded
                | rewrite Hb
                | rewrite Hp
                | rewrite (has_layer_find _ _ _ Hb)
                | rewrite (has_layer_find _ _ _ Hp)
                | rewrite has_layer_update_layer by reflexivity
                | rewrite layers_update_layer
                | rewrite find_update_layer by reflexivity ]).

Lemma category_effect_on_building_layer (w : World) (m : MapHost) (category : string)
    (building : Layer.t) :
  map_current w = Some m ->
  styleLoaded m = true ->
  layer_of BUILDING_LAYER_ID w = Some building ->
  exists building',
    layer_of BUILDING_LAYER_ID (exec (category_changed category) w) = Some building'
    /\ assoc_get "fill-extrusion-color" (Layer.paint building')
       = Some (Str (if String.eqb category "All" then COLOR_GOLD else COLOR_PURPLE))
    /\ Layer.filter building'
       = (if String.eqb category "All" then None
          else Some (Arr [Str "=="; get "category"; Str category])).
Proof.
  destruct w as [[] st mc fx]. intros Hm Hloaded Hb.
  unfold layer_of in *. cbn in Hm. subst mc. cbn in Hb.
  pose proof (find_layer_id _ _ _ Hb) as Hbid.
  destruct building as [bid bty bsrc blay bpaint bfil]. cbn in Hbid. subst bid.
  unfold category_changed, category_effect.
  destruct (List.find (fun l => String.eqb (Layer.id l) PHOTO_MARKER_LAYER_ID) (layers m))
    as [marker |] eqn:Hp;
    category_steps Hloaded Hb Hp;
    (eexists; split; [reflexivity |]; cbn; rewrite assoc_get_set; split; reflexivity).
Qed.

Lemma category_effect_on_marker_layer (w : World) (m : MapHost) (category : string)
    (marker : Layer.t) :
  map_current w = Some m ->
  styleLoaded m = true ->
  layer_of PHOTO_MARKER_LAYER_ID w = Some marker ->
  exists marker',
    layer_of PHOTO_MARKER_LAYER_ID (exec (category_changed category) w) = Some marker'
    /\ Layer.filter marker'
       = Some (if String.eqb category "All" then has "imageURL"
               else Arr [Str "all"; has "imageURL";
                         Arr [Str "=="; get "category"; Str category]]).
Proof.
  destruct w as [[] st mc fx]. intros Hm Hloaded Hp.
  unfold layer_of in *. cbn in Hm. subst mc. cbn in Hp.
  pose proof (find_layer_id _ _ _ Hp) as Hpid.
  destruct marker as [mid mty msrc mlay mpaint mfil]. cbn in Hpid. subst mid.
  unfold category_changed, category_effect.
  destruct (List.find (fun l => String.eqb (Layer.id l) BUILDING_LAYER_ID) (layers m))
    as [building |] eqn:Hb;
    category_steps Hloaded Hb Hp;
    (eexists; split; reflexivity).
Qed.

(** The category effect stops at its guard while there is no map or its
    style is not loaded. *)
Lemma category_changed_before_load (category : string) (w : World) :
  style_is_loaded w = false ->
  category_changed category w = (exec (handleCategoryClick category) w, Ok tt).
Proof.
  destruct w as [u st [m |] fx]; unfold style_is_loaded; cbn; intros Hloaded.
  - rewrite Hloaded. reflexivity.
  - reflexivity.
Qed.

Lemma select_category_changed (category : string) (w : World) :
  category <> activeCategory (ui w) ->
  select_category category w = category_changed category w.
Proof.
  intros Hnew. apply String.eqb_neq in Hnew.
  unfold select_category. cbn. rewrite Hnew. reflexivity.
Qed.

Lemma select_category_unchanged (w : World) :
  select_category (activeCategory (ui w)) w = (w, Ok tt).
Proof.
  destruct w as [[] st mc fx]. unfold select_category. cbn.
  rewrite String.eqb_refl. reflexivity.
Qed.

(** C7, as stated: a category chosen while the style is still loading is
    the active one once the load handler has run, and yet the building layer
    the handler has added is drawn without a filter, in its default colour;
    the map has no photo-marker layer to filter. *)
Lemma category_before_load_is_not_applied :
  activeCategory (ui category_before_load) = "Gate"
  /\ "Gate" <> "All"
  /\ layer_of BUILDING_LAYER_ID category_before_load = Some buildings_layer
  /\ Layer.filter buildings_layer <> Some (Arr [Str "=="; get "category"; Str "Gate"])
  /\ passes (Layer.filter buildings_layer)
            {| Feature.geometry := Point [83.23%float; 17.72%float];
               Feature.properties :=
                 {| Properties.name := Some "Mess"; Properties.id := Some "b-2";
                    Properties.imageURL := None; Properties.category := Some "Mess";
                    Properties.height := None; Properties.viewpoint := None |} |} = true
  /\ layer_of PHOTO_MARKER_LAYER_ID category_before_load = None.
Proof.
  split; [vm_compute; reflexivity |]. split; [discriminate |].
  split; [vm_compute; reflexivity |]. split; [discriminate |].
  split; vm_compute; reflexivity.
Qed.

(** C7, amended: a click on a category makes it the active one.  When that
    changes the active category while the map exists and its style is
    loaded, the effect applies it to the layers the map has at that moment:
    with "All" the building layer, if present, gets its default colour back
    and loses its filter, and the photo-marker layer, if present, keeps its
    image test alone; with any other value the filter of the building layer,
    if present, becomes the equality of the feature's category with that
    value, and that of the photo-marker layer, if present, the same equality
    next to its image test, so that either layer only draws features of that
    category.  A click on the category that is already active, or one made
    while there is no map or its style is not loaded, leaves the map as it
    is. *)
Theorem category_selection_sets_colour_and_filters :
  forall (w : World) (category : string),
    let w' := exec (select_category category) w in
    activeCategory (ui w') = category
    /\ if String.eqb category (activeCategory (ui w)) || negb (style_is_loaded w)
       then map_current w' = map_current w
       else
         (forall building : Layer.t,
            layer_of BUILDING_LAYER_ID w = Some building ->
            exists building',
              layer_of BUILDING_LAYER_ID w' = Some building'
              /\ (category = "All" ->
                  assoc_get "fill-extrusion-color" (Layer.paint building')
                  = assoc_get "fill-extrusion-color" (Layer.paint buildings_layer)
                  /\ Layer.filter building' = None)
              /\ (category <> "All" ->
                  Layer.filter building' = Some (Arr [Str "=="; get "category"; Str category])
                  /\ forall f, passes (Layer.filter building') f = true
                               <-> Properties.category (Feature.properties f) = Some category))
         /\ (forall marker : Layer.t,
              layer_of PHOTO_MARKER_LAYER_ID w = Some marker ->
              exists marker',
                layer_of PHOTO_MARKER_LAYER_ID w' = Some marker'
                /\ (category = "All" -> Layer.filter marker' = Some (has "imageURL"))
                /\ (category <> "All" ->
                    Layer.filter marker'
                    = Some (Arr [Str "all"; has "imageURL";
                                 Arr [Str "=="; get "category"; Str category]])
                    /\ forall f, passes (Layer.filter marker') f = true
                                 <-> is_Some (Properties.imageURL (Feature.properties f))
                                     /\ Properties.category (Feature.properties f)
                                        = Some category)).
Proof.
  intros w category w'. subst w'.
  destruct (String.eqb category (activeCategory (ui w))) eqn:Hsame; cbn [orb].
  { apply String.eqb_eq in Hsame. subst category.
    unfold exec. rewrite select_category_unchanged. split; reflexivity. }
  apply String.eqb_neq in Hsame.
  unfold exec. rewrite (select_category_changed category w Hsame). fold (exec (category_changed category) w).
  destruct (style_is_loaded w) eqn:Hloaded; cbn [negb].
  2: { unfold exec. rewrite (category_changed_before_load category w Hloaded).
       destruct w as [[] st mc fx]. split; reflexivity. }
  unfold style_is_loaded in Hloaded.
  destruct (map_current w) as [m |] eqn:Hm; [| discriminate].
  split.
  { destruct w as [[] st mc fx]. cbn in Hm. subst mc.
    unfold category_changed, category_effect.
    destruct (List.find (fun l => String.eqb (Layer.id l) BUILDING_LAYER_ID) (layers m))
      as [building |] eqn:Hb;
    destruct (List.find (fun l => String.eqb (Layer.id l) PHOTO_MARKER_LAYER_ID) (layers m))
      as [marker |] eqn:Hp;
    category_steps Hloaded Hb Hp; reflexivity. }
  split.
  - intros building Hb.
    destruct (category_effect_on_building_layer w m category building Hm Hloaded Hb)
      as (building' & Hb' & Hcolour & Hfilter).
    exists building'. split; [exact Hb' |]. split.
    + intros ->. rewrite Hcolour, Hfilter. split; reflexivity.
    + intros Hother. apply String.eqb_neq in Hother.
      rewrite Hother in Hfilter. rewrite Hfilter.
      split; [reflexivity |]. intros f. apply passes_category_filter.
  - intros marker Hp.
    destruct (category_effect_on_marker_layer w m category marker Hm Hloaded Hp)
      as (marker' & Hp' & Hmarker).
    exists marker'. split; [exact Hp' |]. split.
    + intros ->. rewrite Hmarker. reflexivity.
    + intros Hother. apply String.eqb_neq in Hother.
      rewrite Hother in Hmarker. rewrite Hmarker.
      split; [reflexivity |]. intros f. apply passes_marker_filter.
Qed.

Example category_change_on_the_loaded_map :
  let w' := exec (select_category "Gate") loaded in
  activeCategory (ui w') = "Gate"
  /\ layer_of BUILDING_LAYER_ID w'
     = Some {| Layer.id := Layer.id buildings_layer; Layer.type := Layer.type buildings_layer;
               Layer.source := Layer.source buildings_layer;
               Layer.layout := Layer.layout buildings_layer;
               Layer.paint :=
                 assoc_set "fill-extrusion-color" (Str COLOR_PURPLE)
                           (Layer.paint buildings_layer);
               Layer.filter := Some (Arr [Str "=="; get "category"; Str "Gate"]) |}
  /\ layer_of PHOTO_MARKER_LAYER_ID w' = None.
Proof. vm_compute. repeat split; reflexivity. Qed.

(** ** More on the geocoding clients *)

Lemma or_default_not_empty (v : option string) (d : string) :
  d <> "" -> JS.or_default v d <> "".
Proof.
  intros Hd. destruct v as [[| c s] |]; cbn; [exact Hd | discriminate | exact Hd].
Qed.

(** X1: whatever the reverse-geocoding service does, [fetchPincodeAndAddress]
    returns a result and does not throw; the result carries the two
    coordinates printed with six decimals, and neither its pincode nor its
    address is empty. *)
Theorem fetchPincodeAndAddress_always_answers :
  forall (net : Network) (lat lng : JS.number) (w : World),
    exists info,
      (complete net (fetchPincodeAndAddress lat lng) w).2 = Ok info
      /\ GeocodeInfo.latitude info = JS.toFixed lat 6
      /\ GeocodeInfo.longitude info = JS.toFixed lng 6
      /\ GeocodeInfo.pincode info <> ""
      /\ GeocodeInfo.fullAddress info <> "".
Proof.
  intros net lat lng w. unfold fetchPincodeAndAddress. cbn.
  destruct (net (ReverseGet lat lng)) as [[[[address |] display_name] |] | e]; cbn;
    eexists; (split; [reflexivity |]); cbn;
    repeat split; try discriminate; apply or_default_not_empty; discriminate.
Qed.

(** X2: when the early return does not apply and the service answers with
    places, [fetchCoordinates] returns one suggestion per place, in order:
    [display_name], [parseFloat] of [lon] and [lat], and a zoom of 12 or
    14. *)
Theorem fetchCoordinates_maps_every_place :
  forall (net : Network) (query : string) (limit : nat) (places : list Place.t) (w : World),
    (1 <? limit)%nat && (String.length query <? 3)%nat = false ->
    net (SearchGet query limit) = Resolved (Some places) ->
    exists results,
      (complete net (fetchCoordinates query limit) w).2 = Ok results
      /\ List.map Suggestion.name results = List.map Place.display_name places
      /\ List.map Suggestion.lng results = List.map (fun p => JS.parseFloat (Place.lon p)) places
      /\ List.map Suggestion.lat results = List.map (fun p => JS.parseFloat (Place.lat p)) places
      /\ Forall (fun s => Suggestion.zoom s = 12%float \/ Suggestion.zoom s = 14%float) results.
Proof.
  intros net query limit places w Hguard Hnet.
  unfold fetchCoordinates. rewrite Hguard. cbn. rewrite Hnet.
  destruct places as [| place rest].
  - exists []. cbn. repeat split; constructor.
  - eexists. split; [reflexivity |].
    rewrite !List.map_map. cbn [Suggestion.name Suggestion.lng Suggestion.lat].
    repeat split.
    apply List.Forall_forall. intros s Hs. apply List.in_map_iff in Hs as (p & <- & _).
    cbn. destruct (_ || _); [left | right]; reflexivity.
Qed.

Lemma fetchCoordinates_maps_every_place_witness :
  (1 <? 5)%nat && (String.length "Vizag" <? 3)%nat = false
  /\ one_place_network (SearchGet "Vizag" 5)
     = Resolved (Some [{| Place.display_name := "Visakhapatnam"; Place.lon := "83.30";
                          Place.lat := "17.68"; Place.type := "city" |}])
  /\ exists results,
      (complete one_place_network (fetchCoordinates "Vizag" 5) ready).2 = Ok results
      /\ List.map Suggestion.name results = ["Visakhapatnam"]
      /\ List.map Suggestion.lng results = [JS.parseFloat "83.30"]
      /\ List.map Suggestion.lat results = [JS.parseFloat "17.68"]
      /\ Forall (fun s => Suggestion.zoom s = 12%float \/ Suggestion.zoom s = 14%float) results.
Proof.
  split; [reflexivity |]. split; [reflexivity |].
  exact (fetchCoordinates_maps_every_place one_place_network "Vizag" 5 _ ready
           eq_refl eq_refl).
Defined.

(** ** Reverse geocoding to its end *)

(** X3: for every answer or failure of the network [handleReverseGeocode]
    runs to its end: the in-progress flag is off again, the panel holds a
    result for the clicked coordinates, and the selection, the collection,
    the store and the map are untouched. *)
Theorem handleReverseGeocode_always_settles :
  forall (net : Network) (lng lat : JS.number) (w : World),
    let r := complete net (handleReverseGeocode lng lat) w in
    r.2 = Ok tt
    /\ isReverseGeocoding (ui r.1) = false
    /\ (exists info,
          reverseGeocodeInfo (ui r.1) = Some info
          /\ GeocodeInfo.latitude info = JS.toFixed lat 6
          /\ GeocodeInfo.longitude info = JS.toFixed lng 6)
    /\ selectedFeature (ui r.1) = selectedFeature (ui w)
    /\ collectedCoordinates (ui r.1) = collectedCoordinates (ui w)
    /\ store r.1 = store w
    /\ map_current r.1 = map_current w.
Proof.
  intros net lng lat [[] st mc fx] r. subst r.
  unfold handleReverseGeocode, fetchPincodeAndAddress. cbn.
  destruct (net (ReverseGet lat lng)) as [[[[address |] display_name] |] | e]; cbn;
    repeat split; eexists; repeat split; reflexivity.
Qed.

(** ** Manual search to its end *)

Lemma LngLat_error_message (lng lat : JS.number) (e : JSError) :
  LngLat_error lng lat = Some e ->
  (forall d, JS.or_default (Some (message e)) d = message e)
  /\ message e <> "Search service failed to connect."
  /\ message e <> "Location/Pincode not found or ambiguous.".
Proof.
  unfold LngLat_error.
  destruct (PrimFloat.is_nan lng || PrimFloat.is_nan lat);
    [| destruct (PrimFloat.ltb 90 lat || PrimFloat.ltb lat (-90)); [| discriminate]];
    intros [= <-]; cbn [message String.append JS.or_default];
    (split; [reflexivity | split; discriminate]).
Qed.

(** X4: [handleSearch] never throws, and a failure of the geocoding service
    never reaches its [catch] branch, since [fetchCoordinates] has swallowed
    it before: the error on display is none, the not-found message, or the
    message of the error [flyTo] throws at a first result whose coordinates
    the map does not take; the fallback text of the branch is never shown. *)
Theorem handleSearch_never_reports_connection_failure :
  forall (net : Network) (query : string) (w : World),
    let r := complete net (handleSearch query) w in
    r.2 = Ok tt
    /\ searchError (ui r.1) <> Some "Search service failed to connect."
    /\ (searchError (ui r.1) = None
        \/ searchError (ui r.1) = Some "Location/Pincode not found or ambiguous."
        \/ exists place others e,
             net (SearchGet (JS.trim query) 1) = Resolved (Some (place :: others))
             /\ LngLat_error (JS.parseFloat (Place.lon place))
                             (JS.parseFloat (Place.lat place)) = Some e
             /\ searchError (ui r.1) = Some (message e)).
Proof.
  intros net query [[] st mc fx] r. subst r.
  unfold handleSearch. cbn.
  destruct mc as [m |]; cbn;
    [| split; [reflexivity | split; [discriminate | left; reflexivity]]].
  destruct (JS.trim query) as [| c rest] eqn:Htrim; cbn;
    [split; [reflexivity | split; [discriminate | left; reflexivity]] |].
  unfold fetchCoordinates. cbn.
  destruct (net (SearchGet (String c rest) 1)) as [[[| place places] |] | e] eqn:Hnet; cbn;
    try (split; [reflexivity | split; [discriminate | right; left; reflexivity]]).
  unfold flyToLocation. cbn.
  destruct (LngLat_error _ _) as [e |] eqn:He; cbn.
  - destruct (LngLat_error_message _ _ _ He) as (Hshown & Hfallback & _).
    specialize (Hshown "Search service failed to connect."). cbn in Hshown.
    rewrite Hshown. split; [reflexivity |]. split; [congruence |].
    right. right. exists place, places, e. repeat split; [exact He].
  - split; [reflexivity | split; [discriminate | left; reflexivity]].
Qed.

Example handleSearch_on_unusable_coordinates :
  let typed := exec (setSearchQuery (to "Vizag")) ready in
  let r := complete (place_network "abc" "95") (handleSearch "Vizag") typed in
  let r' := complete (place_network "83.3" "95") (handleSearch "Vizag") typed in
  searchError (ui r.1) = Some "Invalid LngLat object: (NaN, 95)"
  /\ searchQuery (ui r.1) = "Vizag"
  /\ effects r.1 = [PreventDefault]
  /\ searchError (ui r'.1)
     = Some "Invalid LngLat latitude value: must be between -90 and 90"
  /\ searchQuery (ui r'.1) = "Vizag".
Proof. vm_compute. repeat split; reflexivity. Qed.

(** X5: with the map mounted and a query that is not blank, a failed request
    is reported as a place that was not found; the search box keeps its
    text. *)
Theorem handleSearch_on_failure_reports_not_found :
  forall (e : JSError) (query : string) (w : World),
    is_Some (map_current w) ->
    JS.trim query <> "" ->
    let r := complete (failing e) (handleSearch query) w in
    r.2 = Ok tt
    /\ searchError (ui r.1) = Some "Location/Pincode not found or ambiguous."
    /\ searchQuery (ui r.1) = searchQuery (ui w)
    /\ effects r.1 = (effects w ++ [PreventDefault])%list.
Proof.
  intros e query [[] st mc fx] [m Hm] Hquery r. subst r. cbn in Hm. subst mc.
  unfold handleSearch. cbn.
  destruct (JS.trim query) as [| c rest] eqn:Htrim; [contradiction |].
  cbn. repeat split; reflexivity.
Qed.

Lemma handleSearch_on_failure_reports_not_found_witness :
  is_Some (map_current ready)
  /\ JS.trim " Vizag " <> ""
  /\ (let r := complete (failing (Error "Network Error")) (handleSearch " Vizag ") ready in
      r.2 = Ok tt
      /\ searchError (ui r.1) = Some "Location/Pincode not found or ambiguous."
      /\ searchQuery (ui r.1) = searchQuery (ui ready)
      /\ effects r.1 = (effects ready ++ [PreventDefault])%list).
Proof.
  assert (Hmap : is_Some (map_current ready)) by (eexists; reflexivity).
  assert (Hquery : JS.trim " Vizag " <> "") by (vm_compute; discriminate).
  split; [exact Hmap |]. split; [exact Hquery |].
  exact (handleSearch_on_failure_reports_not_found (Error "Network Error") " Vizag " ready
           Hmap Hquery).
Defined.

(** X6: with the map mounted and a query that is not blank, an answer with at
    least one place makes the camera fly to the first one, and the search
    box, the suggestions, the error and the reverse-geocode panel end up
    cleared; unless the map does not take the coordinates of that place (not
    numbers, or a latitude beyond 90 degrees), in which case the message of
    its error is shown and the search box keeps its text. *)
Theorem handleSearch_flies_to_first_result :
  forall (net : Network) (query : string) (w : World) (place : Place.t)
         (others : list Place.t),
    is_Some (map_current w) ->
    JS.trim query <> "" ->
    net (SearchGet (JS.trim query) 1) = Resolved (Some (place :: others)) ->
    let r := complete net (handleSearch query) w in
    let lng := JS.parseFloat (Place.lon place) in
    let lat := JS.parseFloat (Place.lat place) in
    r.2 = Ok tt
    /\ searchSuggestions (ui r.1) = []
    /\ match LngLat_error lng lat with
       | None =>
           effects r.1
           = (effects w ++
              [PreventDefault;
               FlyTo {| FlyOptions.center := Position [lng; lat];
                        FlyOptions.zoom :=
                          Some (if String.eqb (Place.type place) "city"
                                   || String.eqb (Place.type place) "administrative"
                                then 12%float else 14%float);
                        FlyOptions.pitch := None; FlyOptions.bearing := None;
                        FlyOptions.essential := true |}])%list
           /\ searchQuery (ui r.1) = ""
           /\ searchError (ui r.1) = None
           /\ reverseGeocodeInfo (ui r.1) = None
       | Some e =>
           effects r.1 = (effects w ++ [PreventDefault])%list
           /\ searchQuery (ui r.1) = searchQuery (ui w)
           /\ searchError (ui r.1) = Some (message e)
           /\ reverseGeocodeInfo (ui r.1) = reverseGeocodeInfo (ui w)
       end.
Proof.
  intros net query [[] st mc fx] place others [m Hm] Hquery Hnet r lng lat.
  subst r lng lat. cbn in Hm. subst mc.
  unfold handleSearch. cbn.
  destruct (JS.trim query) as [| c rest] eqn:Htrim; [contradiction |].
  unfold fetchCoordinates. cbn. rewrite Hnet. cbn.
  unfold flyToLocation. cbn.
  destruct (LngLat_error _ _) as [e |] eqn:He; cbn.
  - destruct (LngLat_error_message _ _ _ He) as (Hshown & _).
    specialize (Hshown "Search service failed to connect."). cbn in Hshown.
    rewrite Hshown. repeat split; reflexivity.
  - destruct (_ || _); cbn; rewrite <- !app_assoc; repeat split; reflexivity.
Qed.

Lemma handleSearch_flies_to_first_result_witness :
  is_Some (map_current geocoded)
  /\ JS.trim " Vizag " <> ""
  /\ one_place_network (SearchGet (JS.trim " Vizag ") 1)
     = Resolved (Some [{| Place.display_name := "Visakhapatnam"; Place.lon := "83.30";
                          Place.lat := "17.68"; Place.type := "city" |}])
  /\ (let r := complete one_place_network (handleSearch " Vizag ") geocoded in
      let lng := JS.parseFloat "83.30" in
      let lat := JS.parseFloat "17.68" in
      r.2 = Ok tt
      /\ searchSuggestions (ui r.1) = []
      /\ match LngLat_error lng lat with
         | None =>
             effects r.1
             = (effects geocoded ++
                [PreventDefault;
                 FlyTo {| FlyOptions.center := Position [lng; lat];
                          FlyOptions.zoom :=
                            Some (if String.eqb "city" "city"
                                     || String.eqb "city" "administrative"
                                  then 12%float else 14%float);
                          FlyOptions.pitch := None; FlyOptions.bearing := None;
                          FlyOptions.essential := true |}])%list
             /\ searchQuery (ui r.1) = ""
             /\ searchError (ui r.1) = None
             /\ reverseGeocodeInfo (ui r.1) = None
         | Some e =>
             effects r.1 = (effects geocoded ++ [PreventDefault])%list
             /\ searchQuery (ui r.1) = searchQuery (ui geocoded)
             /\ searchError (ui r.1) = Some (message e)
             /\ reverseGeocodeInfo (ui r.1) = reverseGeocodeInfo (ui geocoded)
         end).
Proof.
  assert (Hmap : is_Some (map_current geocoded)) by (eexists; reflexivity).
  assert (Hquery : JS.trim " Vizag " <> "") by (vm_compute; discriminate).
  split; [exact Hmap |]. split; [exact Hquery |]. split; [reflexivity |].
  exact (handleSearch_flies_to_first_result one_place_network " Vizag " geocoded _ []
           Hmap Hquery eq_refl).
Defined.

(** ** More on the pointer handlers *)

(** X7: a click with another button, or on a building or a marker, issues no
    request: with another button nothing changes, on a feature only the
    reverse-geocode panel is cleared. *)
Theorem on_click_on_feature_is_left_to_the_layer_handlers :
  forall (closure : Captured.t) (e : MouseEvent.t) (w : World),
    MouseEvent.button e <> 0
    \/ List.existsb is_feature_layer (MouseEvent.rendered e) = true ->
    run (on_click closure e) w
    = (if MouseEvent.button e =? 0 then exec (setReverseGeocodeInfo (to None)) w else w,
       Finished tt).
Proof.
  intros closure e w Hskip. unfold on_click, queryRenderedFeatures.
  destruct (MouseEvent.button e =? 0) eqn:Hbutton; [| reflexivity].
  apply Z.eqb_eq in Hbutton. destruct Hskip as [Hother | Hhit]; [contradiction |].
  cbn [negb]. rewrite Hhit. reflexivity.
Qed.

Lemma on_click_on_feature_is_left_to_the_layer_handlers_witness :
  (MouseEvent.button
     {| MouseEvent.lngLat := sample_point; MouseEvent.button := 0;
        MouseEvent.rendered := [sample_marker] |} <> 0
   \/ List.existsb is_feature_layer
        (MouseEvent.rendered
           {| MouseEvent.lngLat := sample_point; MouseEvent.button := 0;
              MouseEvent.rendered := [sample_marker] |}) = true)
  /\ run (on_click {| Captured.routePoints := []; Captured.route := None |}
             {| MouseEvent.lngLat := sample_point; MouseEvent.button := 0;
                MouseEvent.rendered := [sample_marker] |}) geocoded
     = (if MouseEvent.button
             {| MouseEvent.lngLat := sample_point; MouseEvent.button := 0;
                MouseEvent.rendered := [sample_marker] |} =? 0
        then exec (setReverseGeocodeInfo (to None)) geocoded else geocoded,
        Finished tt).
Proof.
  assert (Hhit :
    MouseEvent.button
      {| MouseEvent.lngLat := sample_point; MouseEvent.button := 0;
         MouseEvent.rendered := [sample_marker] |} <> 0
    \/ List.existsb is_feature_layer
         (MouseEvent.rendered
            {| MouseEvent.lngLat := sample_point; MouseEvent.button := 0;
               MouseEvent.rendered := [sample_marker] |}) = true)
    by (right; reflexivity).
  split; [exact Hhit |].
  exact (on_click_on_feature_is_left_to_the_layer_handlers
           {| Captured.routePoints := []; Captured.route := None |}
           {| MouseEvent.lngLat := sample_point; MouseEvent.button := 0;
              MouseEvent.rendered := [sample_marker] |} geocoded Hhit).
Defined.

(** X8: what the mousedown handler leaves alone: the search state, the panel,
    the selection, the viewer, the category, the form and the map, always;
    the collection, the route points, the store and the outside as well
    unless the button is the secondary one, in which case route points and
    route are cleared. *)
Theorem on_mousedown_frame :
  forall (e : MouseEvent.t) (w : World),
    let w' := exec (on_mousedown e) w in
    searchQuery (ui w') = searchQuery (ui w)
    /\ searchSuggestions (ui w') = searchSuggestions (ui w)
    /\ searchError (ui w') = searchError (ui w)
    /\ reverseGeocodeInfo (ui w') = reverseGeocodeInfo (ui w)
    /\ isReverseGeocoding (ui w') = isReverseGeocoding (ui w)
    /\ selectedFeature (ui w') = selectedFeature (ui w)
    /\ view360Url (ui w') = view360Url (ui w)
    /\ activeCategory (ui w') = activeCategory (ui w)
    /\ isCoordinateFormOpen (ui w') = isCoordinateFormOpen (ui w)
    /\ map_current w' = map_current w
    /\ if MouseEvent.button e =? 2
       then routePoints (ui w') = [] /\ route (store w') = None
       else collectedCoordinates (ui w') = collectedCoordinates (ui w)
            /\ routePoints (ui w') = routePoints (ui w)
            /\ store w' = store w
            /\ effects w' = effects w.
Proof.
  intros e [[q sg se gi rg sf v3 ac fo rp lc cc] [b rt ld er] mc fx] w'. subst w'.
  unfold on_mousedown. sync_unfold.
  destruct (MouseEvent.button e =? 2) eqn:Hbutton; sync_unfold.
  - destruct (MAX_COLLECTED_POINTS <=? length cc)%nat eqn:Hfull; sync_unfold;
      rewrite ?Hfull; repeat split; reflexivity.
  - repeat split; reflexivity.
Qed.

(** X9: a context-menu event away from the markers, or on a marker without an
    image, only suppresses the native menu. *)
Theorem on_contextmenu_without_image_marker :
  forall (e : MouseEvent.t) (w : World),
    match queryRenderedFeatures e (Some ["viewpoint-markers"; PHOTO_MARKER_LAYER_ID]) with
    | [] => True
    | first :: _ =>
        JS.truthy (Properties.imageURL (Feature.properties (Rendered.feature first))) = false
    end ->
    on_contextmenu e w = (exec (emit PreventDefault) w, Ok tt).
Proof.
  intros e w Hmiss. unfold on_contextmenu.
  destruct (queryRenderedFeatures e _) as [| first rest]; [reflexivity |].
  rewrite Hmiss. reflexivity.
Qed.

Lemma on_contextmenu_without_image_marker_witness :
  match queryRenderedFeatures (secondary sample_point [])
          (Some ["viewpoint-markers"; PHOTO_MARKER_LAYER_ID]) with
  | [] => True
  | first :: _ =>
      JS.truthy (Properties.imageURL (Feature.properties (Rendered.feature first))) = false
  end
  /\ on_contextmenu (secondary sample_point []) full_buffer
     = (exec (emit PreventDefault) full_buffer, Ok tt).
Proof.
  split; [exact I |].
  exact (on_contextmenu_without_image_marker (secondary sample_point []) full_buffer I).
Defined.

(** X10: a secondary-button press on a marker with an image opens the viewer
    on it, selects it and clears the route; the contextmenu handler then
    empties the collection that the mousedown handler has just extended and
    closes the form, so the point is not collected; unless the map does not
    take the coordinates of the marker as a centre, in which case [flyTo]
    throws before that and the point stays collected. *)
Theorem secondary_press_on_image_marker :
  forall (at_ : LngLat.t) (rendered : list Rendered.t) (first : Rendered.t)
         (rest : list Rendered.t) (w : World),
    is_Some (map_current w) ->
    queryRenderedFeatures (secondary at_ rendered)
      (Some ["viewpoint-markers"; PHOTO_MARKER_LAYER_ID]) = first :: rest ->
    JS.truthy (Properties.imageURL (Feature.properties (Rendered.feature first))) = true ->
    let r := secondary_press at_ rendered w in
    view360Url (ui r.1) = Properties.imageURL (Feature.properties (Rendered.feature first))
    /\ is_Some (selectedFeature (ui r.1))
    /\ routePoints (ui r.1) = []
    /\ route (store r.1) = None
    /\ match convert_error (geometry_coordinates
                              (Feature.geometry (Rendered.feature first))) with
       | None =>
           r.2 = Ok tt
           /\ collectedCoordinates (ui r.1) = []
           /\ isCoordinateFormOpen (ui r.1) = false
       | Some e =>
           r.2 = Thrown e
           /\ collectedCoordinates (ui r.1)
              = collectedCoordinates (ui (exec (on_mousedown (secondary at_ rendered)) w))
           /\ isCoordinateFormOpen (ui r.1) = isCoordinateFormOpen (ui w)
       end.
Proof.
  intros at_ rendered first rest [[q sg se gi rg sf v3 ac fo rp lc cc] [b rt ld er] mc fx]
    [m Hm] Hhit Himage r. subst r. cbn in Hm. subst mc.
  unfold secondary_press, on_mousedown, on_contextmenu. rewrite Hhit, Himage.
  sync_unfold. cbn [MouseEvent.button secondary Z.eqb Pos.eqb FlyOptions.center].
  destruct (convert_error _) as [e |];
    (destruct (MAX_COLLECTED_POINTS <=? length cc)%nat eqn:Hfull; sync_unfold;
     rewrite ?Hfull; sync_unfold;
     repeat split; try reflexivity; eexists; reflexivity).
Qed.

Lemma secondary_press_on_image_marker_witness :
  is_Some (map_current full_buffer)
  /\ queryRenderedFeatures (secondary sample_point [sample_marker])
       (Some ["viewpoint-markers"; PHOTO_MARKER_LAYER_ID]) = [sample_marker]
  /\ JS.truthy (Properties.imageURL (Feature.properties (Rendered.feature sample_marker)))
     = true
  /\ (let r := secondary_press sample_point [sample_marker] full_buffer in
      view360Url (ui r.1)
      = Properties.imageURL (Feature.properties (Rendered.feature sample_marker))
      /\ is_Some (selectedFeature (ui r.1))
      /\ routePoints (ui r.1) = []
      /\ route (store r.1) = None
      /\ match convert_error (geometry_coordinates
                                (Feature.geometry (Rendered.feature sample_marker))) with
         | None =>
             r.2 = Ok tt
             /\ collectedCoordinates (ui r.1) = []
             /\ isCoordinateFormOpen (ui r.1) = false
         | Some e =>
             r.2 = Thrown e
             /\ collectedCoordinates (ui r.1)
                = collectedCoordinates
                    (ui (exec (on_mousedown (secondary sample_point [sample_marker]))
                              full_buffer))
             /\ isCoordinateFormOpen (ui r.1) = isCoordinateFormOpen (ui full_buffer)
         end).
Proof.
  assert (Hmap : is_Some (map_current full_buffer)) by (eexists; reflexivity).
  split; [exact Hmap |]. split; [reflexivity |]. split; [reflexivity |].
  exact (secondary_press_on_image_marker sample_point [sample_marker] sample_marker []
           full_buffer Hmap eq_refl eq_refl).
Defined.

(** ** Mounting and unmounting *)

(** X11: the initialisation effect never throws and is idempotent: it
    constructs the map only when there is none and the buildings are
    loaded, and changes nothing otherwise. *)
Theorem init_effect_constructs_once :
  forall w : World,
    (init_effect w).2 = Ok tt
    /\ exec init_effect (exec init_effect w) = exec init_effect w
    /\ match map_current w, buildings (store w) with
       | None, Some _ => is_Some (map_current (exec init_effect w))
       | _, _ => exec init_effect w = w
       end.
Proof.
  intros [u [b rt ld er] [m |] fx]; [| destruct b as [b |]]; cbn;
    (split; [reflexivity |]); (split; [reflexivity |]).
  - destruct b; reflexivity.
  - eexists. reflexivity.
  - reflexivity.
Qed.



(** ** The marker icon *)

(** X13: the callback of [loadImage] on a mounted map: with an error or with
    the icon already there it changes nothing; otherwise it registers the
    icon and adds the photo-marker layer, once. *)
Theorem on_image_loaded_is_best_effort :
  forall (error : bool) (w : World) (m : MapHost),
    map_current w = Some m ->
    (error = true \/ List.existsb (String.eqb "camera-icon") (images m) = true ->
     on_image_loaded error w = (w, Ok tt))
    /\ (error = false ->
        List.existsb (String.eqb "camera-icon") (images m) = false ->
        is_Some (sources m !! "viewpoint-source") ->
        has_layer PHOTO_MARKER_LAYER_ID m = false ->
        let r := on_image_loaded error w in
        r.2 = Ok tt
        /\ map_current r.1
           = Some {| sources := sources m; layers := layers m ++ [photo_marker_layer];
                     images := images m ++ ["camera-icon"];
                     styleLoaded := styleLoaded m; listeners := listeners m |}
        /\ on_image_loaded error r.1 = (r.1, Ok tt)).
Proof.
  intros error [u st mc fx] [src ly im sl ls] Hm. cbn in Hm. subst mc.
  unfold on_image_loaded, hasImage, addImage, addLayer. split.
  - intros [-> | Himage]; [reflexivity |].
    destruct error; [reflexivity |]. cbn in *. rewrite Himage. reflexivity.
  - intros -> Himage [s Hs] Hlayer. cbn in *.
    rewrite Himage. cbn. unfold has_layer in *. cbn in *. rewrite Hlayer, Hs. cbn.
    split; [reflexivity |]. split; [reflexivity |].
    rewrite List.existsb_app. cbn. rewrite orb_true_r. reflexivity.
Qed.

Lemma on_image_loaded_is_best_effort_witness :
  map_current loaded = Some loaded_map
  /\ ((false = true \/ List.existsb (String.eqb "camera-icon") (images loaded_map) = true ->
       on_image_loaded false loaded = (loaded, Ok tt))
      /\ (false = false ->
          List.existsb (String.eqb "camera-icon") (images loaded_map) = false ->
          is_Some (sources loaded_map !! "viewpoint-source") ->
          has_layer PHOTO_MARKER_LAYER_ID loaded_map = false ->
          let r := on_image_loaded false loaded in
          r.2 = Ok tt
          /\ map_current r.1
             = Some {| sources := sources loaded_map;
                       layers := layers loaded_map ++ [photo_marker_layer];
                       images := images loaded_map ++ ["camera-icon"];
                       styleLoaded := styleLoaded loaded_map;
                       listeners := listeners loaded_map |}
          /\ on_image_loaded false r.1 = (r.1, Ok tt))).
Proof.
  assert (Hmap : map_current loaded = Some loaded_map) by (vm_compute; reflexivity).
  split; [exact Hmap |].
  exact (on_image_loaded_is_best_effort false loaded loaded_map Hmap).
Defined.

(** ** The rendering effects *)

(** X14: without a map, or before its style has loaded, the three rendering
    effects change nothing. *)
Theorem effects_wait_for_the_style :
  forall w : World,
    match map_current w with
    | None => True
    | Some m => styleLoaded m = false
    end ->
    category_effect w = (w, Ok tt)
    /\ route_effect w = (w, Ok tt)
    /\ collected_effect w = (w, Ok tt).
Proof.
  intros [u st [[src ly im sl ls] |] fx] Hwait; cbn in Hwait.
  - subst sl. repeat split; reflexivity.
  - repeat split; reflexivity.
Qed.

Lemma effects_wait_for_the_style_witness :
  match map_current mounted with
  | None => True
  | Some m => styleLoaded m = false
  end
  /\ (category_effect mounted = (mounted, Ok tt)
      /\ route_effect mounted = (mounted, Ok tt)
      /\ collected_effect mounted = (mounted, Ok tt)).
Proof.
  assert (H : match map_current mounted with
              | None => True
              | Some m => styleLoaded m = false
              end) by reflexivity.
  split; [exact H |].
  exact (effects_wait_for_the_style mounted H).
Defined.

(** X15: on a loaded map the route effect brings the route source in line with
    the route of the store, adding the line layer only together with the
    source, and creates nothing while there is no route. *)
Theorem route_effect_syncs_the_route_source :
  forall (w : World) (m : MapHost),
    map_current w = Some m ->
    styleLoaded m = true ->
    let r := route_effect w in
    r.2 = Ok tt
    /\ ui r.1 = ui w
    /\ store r.1 = store w
    /\ match route (store w) with
       | Some rt =>
           source_of "route-source" r.1 = Some (Line rt)
           /\ (is_Some (sources m !! "route-source") ->
               layers <$> map_current r.1 = Some (layers m))
           /\ (sources m !! "route-source" = None ->
               has_layer "route-line" m = false ->
               layers <$> map_current r.1 = Some (layers m ++ [route_line_layer])%list)
       | None =>
           source_of "route-source" r.1
           = (fun _ => empty_collection) <$> sources m !! "route-source"
           /\ layers <$> map_current r.1 = Some (layers m)
       end.
Proof.
  intros [u [b rt ld er] mc fx] [src ly im sl ls] Hm Hloaded r. subst r.
  cbn in Hm, Hloaded. subst mc sl.
  unfold route_effect, source_of, setData, addSource, addLayer. cbn.
  destruct rt as [rt |], (src !! "route-source") as [old |] eqn:Hsrc; cbn;
    rewrite ?Hsrc; cbn.
  - rewrite lookup_insert_eq. repeat split; try reflexivity. intros H; discriminate H.
  - unfold has_layer. cbn. rewrite lookup_insert_eq.
    destruct (List.existsb _ ly) eqn:Hlayer; cbn;
      rewrite ?lookup_insert_eq; repeat split; try reflexivity;
      try (intros [x Hx]; discriminate Hx); intros; try discriminate; reflexivity.
  - rewrite lookup_insert_eq. repeat split; reflexivity.
  - repeat split; reflexivity.
Qed.

Lemma route_effect_syncs_the_route_source_witness :
  map_current routed = Some ready_map
  /\ styleLoaded ready_map = true
  /\ (let r := route_effect routed in
      r.2 = Ok tt
      /\ ui r.1 = ui routed
      /\ store r.1 = store routed
      /\ match route (store routed) with
         | Some rt =>
             source_of "route-source" r.1 = Some (Line rt)
             /\ (is_Some (sources ready_map !! "route-source") ->
                 layers <$> map_current r.1 = Some (layers ready_map))
             /\ (sources ready_map !! "route-source" = None ->
                 has_layer "route-line" ready_map = false ->
                 layers <$> map_current r.1
                 = Some (layers ready_map ++ [route_line_layer])%list)
         | None =>
             source_of "route-source" r.1
             = (fun _ => empty_collection) <$> sources ready_map !! "route-source"
             /\ layers <$> map_current r.1 = Some (layers ready_map)
         end).
Proof.
  split; [reflexivity |]. split; [reflexivity |].
  exact (route_effect_syncs_the_route_source routed ready_map eq_refl eq_refl).
Defined.

(** X16: on a loaded map the collected-coordinates effect leaves one point per
    collected coordinate in its source, adding the circle layer only
    together with the source. *)
Theorem collected_effect_syncs_the_collected_source :
  forall (w : World) (m : MapHost),
    map_current w = Some m ->
    styleLoaded m = true ->
    let r := collected_effect w in
    r.2 = Ok tt
    /\ ui r.1 = ui w
    /\ store r.1 = store w
    /\ source_of COLLECTED_COORDS_SOURCE_ID r.1
       = Some (Collection (List.map collected_feature (collectedCoordinates (ui w))))
    /\ (is_Some (sources m !! COLLECTED_COORDS_SOURCE_ID) ->
        layers <$> map_current r.1 = Some (layers m))
    /\ (sources m !! COLLECTED_COORDS_SOURCE_ID = None ->
        has_layer COLLECTED_COORDS_LAYER_ID m = false ->
        layers <$> map_current r.1 = Some (layers m ++ [collected_coords_layer])%list).
Proof.
  intros [u st mc fx] [src ly im sl ls] Hm Hloaded r. subst r.
  cbn in Hm, Hloaded. subst mc sl.
  unfold collected_effect, source_of, setData, addSource, addLayer. cbn.
  destruct (src !! COLLECTED_COORDS_SOURCE_ID) as [old |] eqn:Hsrc; cbn;
    rewrite ?Hsrc; cbn.
  - rewrite lookup_insert_eq. repeat split; try reflexivity. intros H; discriminate H.
  - unfold has_layer. cbn. rewrite lookup_insert_eq.
    destruct (List.existsb _ ly) eqn:Hlayer; cbn;
      rewrite ?lookup_insert_eq; cbn; rewrite ?lookup_insert_eq;
      repeat split; try reflexivity;
      try (intros [x Hx]; discriminate Hx); intros; try discriminate; reflexivity.
Qed.

Lemma collected_effect_syncs_the_collected_source_witness :
  map_current full_buffer = Some ready_map
  /\ styleLoaded ready_map = true
  /\ (let r := collected_effect full_buffer in
      r.2 = Ok tt
      /\ ui r.1 = ui full_buffer
      /\ store r.1 = store full_buffer
      /\ source_of COLLECTED_COORDS_SOURCE_ID r.1
         = Some (Collection (List.map collected_feature
                               (collectedCoordinates (ui full_buffer))))
      /\ (is_Some (sources ready_map !! COLLECTED_COORDS_SOURCE_ID) ->
          layers <$> map_current r.1 = Some (layers ready_map))
      /\ (sources ready_map !! COLLECTED_COORDS_SOURCE_ID = None ->
          has_layer COLLECTED_COORDS_LAYER_ID ready_map = false ->
          layers <$> map_current r.1
          = Some (layers ready_map ++ [collected_coords_layer])%list)).
Proof.
  split; [reflexivity |]. split; [reflexivity |].
  exact (collected_effect_syncs_the_collected_source full_buffer ready_map eq_refl eq_refl).
Defined.

(** ** The load handler on a styled map *)

Lemma find_none_of_has_layer (id : string) (m : MapHost) :
  has_layer id m = false ->
  List.find (fun l => String.eqb (Layer.id l) id) (layers m) = None.
Proof.
  unfold has_layer. induction (layers m) as [| l ls IH]; cbn; [reflexivity |].
  destruct (String.eqb (Layer.id l) id); [discriminate | exact IH].
Qed.

Lemma bind_ok {A B} (s : Sync A) (k : A -> Sync B) (w w' : World) (a : A) :
  s w = (w', Ok a) -> (x <- s ;; k x) w = k a w'.
Proof. intros Hs. cbn. rewrite Hs. reflexivity. Qed.

Lemma cleanup_of_unused_id (id : string) (w : World) (m : MapHost) :
  map_current w = Some m ->
  sources m !! id = None ->
  has_layer id m = false ->
  cleanupLayersAndSources id w = (w, Ok tt).
Proof.
  intros Hm Hsrc Hlayer. destruct w as [u st mc fx]. cbn in Hm. subst mc.
  unfold cleanupLayersAndSources, getSource. cbn.
  rewrite (find_none_of_has_layer _ _ Hlayer). cbn. rewrite Hsrc. reflexivity.
Qed.

Lemma addSource_of_new_id (id : string) (data : GeoJSON) (w : World) (m : MapHost) :
  map_current w = Some m ->
  sources m !! id = None ->
  addSource id data w
  = (exec (put_map {| sources := <[id := data]> (sources m); layers := layers m;
                      images := images m; styleLoaded := styleLoaded m;
                      listeners := listeners m |}) w, Ok tt).
Proof.
  intros Hm Hsrc. destruct w as [u st mc fx]. cbn in Hm. subst mc.
  unfold addSource. cbn. rewrite Hsrc. reflexivity.
Qed.

Lemma addLayer_of_new_id (l : Layer.t) (w : World) (m : MapHost) :
  map_current w = Some m ->
  has_layer (Layer.id l) m = false ->
  is_Some (sources m !! Layer.source l) ->
  addLayer l w
  = (exec (put_map {| sources := sources m; layers := layers m ++ [l];
                      images := images m; styleLoaded := styleLoaded m;
                      listeners := listeners m |}) w, Ok tt).
Proof.
  intros Hm Hlayer [s Hs]. destruct w as [u st mc fx]. cbn in Hm. subst mc.
  unfold addLayer. cbn. rewrite Hlayer, Hs. reflexivity.
Qed.

Lemma has_layer_snoc (id : string) (m : MapHost) (l : Layer.t) src im sl ls :
  has_layer id {| sources := src; layers := layers m ++ [l]; images := im;
                  styleLoaded := sl; listeners := ls |}
  = has_layer id m || String.eqb (Layer.id l) id.
Proof.
  unfold has_layer. cbn. rewrite List.existsb_app. cbn. rewrite orb_false_r. reflexivity.
Qed.

(** Brings the world a map call has produced back to a record. *)
Ltac map_step :=
  cbn [exec fst put_map modify ui store map_current effects
       sources layers images styleLoaded listeners].

Lemma on_load_on_untouched_map :
  forall (buildings : FeatureCollection) (w : World) (m : MapHost),
    map_current w = Some m ->
    untouched m ->
    on_load buildings w
    = ({| ui := ui w; store := store w;
          map_current :=
            Some {| sources := with_component_sources buildings (sources m);
                    layers := layers m ++ [buildings_layer; route_point_layer];
                    images := images m; styleLoaded := styleLoaded m;
                    listeners := listeners m |};
          effects := effects w |},
       Thrown (ReferenceError "BOX_SOURCE_SOURCE_ID is not defined")).
Proof.
  intros buildings w m Hm Hfree.
  unfold untouched, component_ids in Hfree.
  repeat match goal with
         | H : Forall _ (_ :: _) |- _ => apply Forall_cons in H as [[? ?] H]
         end.
  unfold on_load.
  do 14 (erewrite bind_ok by (apply (cleanup_of_unused_id _ w m); assumption)).
  cbv zeta.
  erewrite bind_ok by (apply (addSource_of_new_id _ _ w m); assumption).
  map_step.
  do 5 (erewrite bind_ok
          by (apply addSource_of_new_id;
              [reflexivity
              | cbn [sources];
                rewrite ?lookup_insert_ne by (intros Heq; vm_compute in Heq; discriminate Heq);
                assumption]);
        map_step).
  erewrite bind_ok
    by (apply addLayer_of_new_id;
        [reflexivity
        | assumption
        | cbn [sources Layer.source buildings_layer];
          rewrite ?lookup_insert_ne by (intros Heq; vm_compute in Heq; discriminate Heq);
          rewrite lookup_insert_eq; eexists; reflexivity]).
  map_step.
  erewrite bind_ok
    by (apply addLayer_of_new_id;
        [reflexivity
        | rewrite has_layer_snoc; apply orb_false_intro; [assumption | reflexivity]
        | cbn [sources Layer.source route_point_layer];
          rewrite ?lookup_insert_ne by (intros Heq; vm_compute in Heq; discriminate Heq);
          rewrite lookup_insert_eq; eexists; reflexivity]).
  map_step.
  cbn. rewrite <- app_assoc. reflexivity.
Qed.

Lemma ready_map_is_untouched : untouched ready_map.
Proof.
  unfold untouched, component_ids.
  repeat (constructor; [split; reflexivity |]). constructor.
Defined.

(** X17: on a map that has none of the component's ids the load handler stops
    at the undefined identifier, having added the six sources and the first
    two layers of the component; what the style has is kept. *)
Theorem on_load_keeps_the_style :
  forall (buildings : FeatureCollection) (w : World) (m : MapHost),
    map_current w = Some m ->
    untouched m ->
    let r := on_load buildings w in
    r.2 = Thrown (ReferenceError "BOX_SOURCE_SOURCE_ID is not defined")
    /\ ui r.1 = ui w
    /\ store r.1 = store w
    /\ effects r.1 = effects w
    /\ exists m',
         map_current r.1 = Some m'
         /\ layers m' = (layers m ++ [buildings_layer; route_point_layer])%list
         /\ images m' = images m
         /\ listeners m' = listeners m
         /\ styleLoaded m' = styleLoaded m
         /\ sources m' !! "buildings" = Some (Collection buildings)
         /\ sources m' !! "viewpoint-source" = Some (Collection (viewpointMarkers buildings))
         /\ Forall (fun id => sources m' !! id = Some empty_collection)
                   [ROUTE_POINT_SOURCE_ID; BOX_SOURCE_ID; CLICKED_POINTS_SOURCE_ID;
                    COLLECTED_COORDS_SOURCE_ID]
         /\ forall id, ~ In id component_ids -> sources m' !! id = sources m !! id.
Proof.
  intros buildings w m Hm Hfree r. subst r.
  rewrite (on_load_on_untouched_map buildings w m Hm Hfree).
  cbn [fst snd ui store map_current effects].
  do 4 (split; [reflexivity |]).
  eexists. split; [reflexivity |]. cbn [sources layers images styleLoaded listeners].
  do 4 (split; [reflexivity |]).
  unfold with_component_sources.
  assert (Hne : forall a b : string, String.eqb a b = false -> a <> b)
    by (intros a b Hab; apply String.eqb_neq; exact Hab).
  split; [| split; [| split]].
  - rewrite !lookup_insert_ne by (apply Hne; reflexivity). apply lookup_insert_eq.
  - rewrite !lookup_insert_ne by (apply Hne; reflexivity). apply lookup_insert_eq.
  - repeat constructor;
      rewrite ?lookup_insert_ne by (apply Hne; reflexivity); apply lookup_insert_eq.
  - intros id Hid. unfold component_ids in Hid. cbn [In] in Hid.
    rewrite !lookup_insert_ne by (intros Heq; apply Hid; rewrite <- Heq; tauto).
    reflexivity.
Qed.

Lemma on_load_keeps_the_style_witness :
  map_current ready = Some ready_map
  /\ untouched ready_map
  /\ (let r := on_load sample_buildings ready in
      r.2 = Thrown (ReferenceError "BOX_SOURCE_SOURCE_ID is not defined")
      /\ ui r.1 = ui ready
      /\ store r.1 = store ready
      /\ effects r.1 = effects ready
      /\ exists m',
           map_current r.1 = Some m'
           /\ layers m' = (layers ready_map ++ [buildings_layer; route_point_layer])%list
           /\ images m' = images ready_map
           /\ listeners m' = listeners ready_map
           /\ styleLoaded m' = styleLoaded ready_map
           /\ sources m' !! "buildings" = Some (Collection sample_buildings)
           /\ sources m' !! "viewpoint-source"
              = Some (Collection (viewpointMarkers sample_buildings))
           /\ Forall (fun id => sources m' !! id = Some empty_collection)
                     [ROUTE_POINT_SOURCE_ID; BOX_SOURCE_ID; CLICKED_POINTS_SOURCE_ID;
                      COLLECTED_COORDS_SOURCE_ID]
           /\ forall id, ~ In id component_ids ->
                         sources m' !! id = sources ready_map !! id).
Proof.
  split; [reflexivity |]. split; [exact ready_map_is_untouched |].
  exact (on_load_keeps_the_style sample_buildings ready ready_map eq_refl
           ready_map_is_untouched).
Defined.

Lemma collected_effect_on_existing_source (w : World) (m : MapHost) :
  map_current w = Some m ->
  styleLoaded m = true ->
  is_Some (sources m !! COLLECTED_COORDS_SOURCE_ID) ->
  source_of COLLECTED_COORDS_SOURCE_ID (collected_effect w).1
  = Some (Collection (List.map collected_feature (collectedCoordinates (ui w))))
  /\ layers <$> map_current (collected_effect w).1 = Some (layers m).
Proof.
  destruct w as [u st mc fx]. destruct m as [src ly im sl ls].
  intros Hm Hloaded [old Hsrc]. cbn in Hm, Hloaded, Hsrc. subst mc sl.
  unfold collected_effect, source_of, setData. cbn. rewrite Hsrc. cbn. rewrite Hsrc. cbn.
  rewrite lookup_insert_eq. split; reflexivity.
Qed.

(** X18: once the load handler has run, the collected-coordinates effect finds
    its source in place: it fills the source but never adds the layer that
    would draw the points. *)
Theorem collected_points_have_no_layer_after_load :
  forall (buildings : FeatureCollection) (w : World) (m : MapHost)
         (points : list CollectedCoordinate.t),
    map_current w = Some m ->
    untouched m ->
    styleLoaded m = true ->
    let w' := exec (setCollectedCoordinates (to points) ;; collected_effect)
                   (exec (on_load buildings) w) in
    source_of COLLECTED_COORDS_SOURCE_ID w'
    = Some (Collection (List.map collected_feature points))
    /\ layer_of COLLECTED_COORDS_LAYER_ID w' = None.
Proof.
  intros buildings w m points Hm Hfree Hloaded w'. subst w'.
  set (m1 := {| sources := with_component_sources buildings (sources m);
                layers := layers m ++ [buildings_layer; route_point_layer];
                images := images m; styleLoaded := styleLoaded m;
                listeners := listeners m |}).
  set (w1 := {| ui := ui w; store := store w; map_current := Some m1;
                effects := effects w |}).
  assert (Hw1 : exec (on_load buildings) w = w1).
  { unfold exec. rewrite (on_load_on_untouched_map buildings w m Hm Hfree). reflexivity. }
  rewrite Hw1.
  rewrite (exec_bind_returns _ _ tt) by reflexivity.
  set (w2 := exec (setCollectedCoordinates (to points)) w1).
  assert (Hthere : is_Some (sources m1 !! COLLECTED_COORDS_SOURCE_ID)).
  { unfold m1, with_component_sources. cbn [sources].
    rewrite lookup_insert_eq. eexists. reflexivity. }
  destruct (collected_effect_on_existing_source w2 m1 eq_refl Hloaded Hthere)
    as [Hsource Hlayers].
  split.
  - exact Hsource.
  - unfold layer_of. unfold exec.
    destruct (map_current (collected_effect w2).1) as [m2 |]; [| reflexivity].
    cbn in Hlayers. injection Hlayers as ->.
    apply (find_none_of_has_layer COLLECTED_COORDS_LAYER_ID m1).
    unfold untouched, component_ids in Hfree.
    repeat match goal with
           | H : Forall _ (_ :: _) |- _ => apply Forall_cons in H as [[? ?] H]
           end.
    unfold has_layer, m1. cbn [layers]. rewrite List.existsb_app.
    apply orb_false_intro; [assumption | reflexivity].
Qed.

Lemma collected_points_have_no_layer_after_load_witness :
  map_current ready = Some ready_map
  /\ untouched ready_map
  /\ styleLoaded ready_map = true
  /\ (let w' := exec (setCollectedCoordinates (to (collectedCoordinates (ui full_buffer))) ;;
                      collected_effect)
                     (exec (on_load sample_buildings) ready) in
      source_of COLLECTED_COORDS_SOURCE_ID w'
      = Some (Collection (List.map collected_feature (collectedCoordinates (ui full_buffer))))
      /\ layer_of COLLECTED_COORDS_LAYER_ID w' = None).
Proof.
  split; [reflexivity |]. split; [exact ready_map_is_untouched |]. split; [reflexivity |].
  exact (collected_points_have_no_layer_after_load sample_buildings ready ready_map _
           eq_refl ready_map_is_untouched eq_refl).
Defined.

(** ** More on the category filter *)

(** Two maps with the same datasets, images, listeners and load state, and
    the same layers as far as id, type, dataset and layout go. *)
Lemma update_layer_same_shape (id : string) (f : Layer.t -> Layer.t) (m : MapHost) :
  (forall l, Layer.id (f l) = Layer.id l /\ Layer.type (f l) = Layer.type l
             /\ Layer.source (f l) = Layer.source l /\ Layer.layout (f l) = Layer.layout l) ->
  same_shape m (update_layer id f m).
Proof.
  intros Hf. unfold same_shape, update_layer. cbn.
  repeat split; try reflexivity.
  induction (layers m) as [| l ls IH]; cbn; [reflexivity |].
  rewrite IH. f_equal. unfold update_one, shape_of.
  destruct (String.eqb (Layer.id l) id); [| reflexivity].
  destruct (Hf l) as (-> & -> & -> & ->). reflexivity.
Qed.

Lemma same_shape_refl (m : MapHost) : same_shape m m.
Proof. unfold same_shape. repeat split; reflexivity. Qed.

Lemma same_shape_trans (a b c : MapHost) :
  same_shape a b -> same_shape b c -> same_shape a c.
Proof.
  unfold same_shape. intros (? & ? & ? & ? & ?) (? & ? & ? & ? & ?).
  repeat split; congruence.
Qed.

Lemma category_changed_keeps_shape (category : string) (w : World) (m : MapHost) :
  map_current w = Some m ->
  exists m',
    category_changed category w
    = ({| ui := ui (exec (handleCategoryClick category) w); store := store w;
          map_current := Some m'; effects := effects w |}, Ok tt)
    /\ same_shape m m'.
Proof.
  destruct w as [u st mc fx]. intros Hm. cbn in Hm. subst mc.
  unfold category_changed, category_effect.
  destruct (styleLoaded m) eqn:Hloaded.
  - destruct (List.find (fun l => String.eqb (Layer.id l) BUILDING_LAYER_ID) (layers m))
      as [building |] eqn:Hb;
    destruct (List.find (fun l => String.eqb (Layer.id l) PHOTO_MARKER_LAYER_ID) (layers m))
      as [marker |] eqn:Hp;
    category_steps Hloaded Hb Hp;
    (eexists; split; [reflexivity |]);
    repeat (first [ apply same_shape_refl
                  | eapply same_shape_trans;
                    [| apply update_layer_same_shape; intros l; cbn; repeat split; reflexivity] ]).
  - cbn. rewrite Hloaded. cbn. exists m. split; [destruct m; reflexivity | apply same_shape_refl].
Qed.

(** X19: choosing a category changes paint and filter properties only: the
    sources, the images, the listeners and the id, type, source and layout
    of every layer stay as they are. *)
Theorem select_category_keeps_the_map_shape :
  forall (category : string) (w : World) (m : MapHost),
    map_current w = Some m ->
    exists m',
      select_category category w
      = ({| ui := ui (exec (handleCategoryClick category) w); store := store w;
            map_current := Some m'; effects := effects w |}, Ok tt)
      /\ same_shape m m'.
Proof.
  intros category w m Hm.
  destruct (String.eqb category (activeCategory (ui w))) eqn:Hsame.
  - apply String.eqb_eq in Hsame. subst category. exists m.
    rewrite select_category_unchanged. split; [| apply same_shape_refl].
    destruct w as [[] st mc fx]. cbn in Hm. subst mc. reflexivity.
  - apply String.eqb_neq in Hsame. rewrite (select_category_changed category w Hsame).
    exact (category_changed_keeps_shape category w m Hm).
Qed.

Lemma select_category_keeps_the_map_shape_witness :
  map_current layered = Some layered_map
  /\ exists m',
      select_category "Gate" layered
      = ({| ui := ui (exec (handleCategoryClick "Gate") layered); store := store layered;
            map_current := Some m'; effects := effects layered |}, Ok tt)
      /\ same_shape layered_map m'.
Proof.
  split; [reflexivity |].
  exact (select_category_keeps_the_map_shape "Gate" layered layered_map eq_refl).
Defined.

(** X20: after two changes of the category in a row, on the loaded map with
    the building layer, the active category, the colour and the filter of
    the building layer are those of the second change alone, and so is the
    filter of the photo-marker layer where the map has one. *)
Theorem last_category_selection_wins :
  forall (first second : string) (w : World) (m : MapHost) (building : Layer.t),
    map_current w = Some m ->
    styleLoaded m = true ->
    layer_of BUILDING_LAYER_ID w = Some building ->
    first <> activeCategory (ui w) ->
    second <> first ->
    let w' := exec (select_category first ;; select_category second) w in
    activeCategory (ui w') = second
    /\ (exists building',
          layer_of BUILDING_LAYER_ID w' = Some building'
          /\ assoc_get "fill-extrusion-color" (Layer.paint building')
             = Some (Str (if String.eqb second "All" then COLOR_GOLD else COLOR_PURPLE))
          /\ Layer.filter building'
             = (if String.eqb second "All" then None
                else Some (Arr [Str "=="; get "category"; Str second])))
    /\ forall marker : Layer.t,
         layer_of PHOTO_MARKER_LAYER_ID w = Some marker ->
         exists marker',
           layer_of PHOTO_MARKER_LAYER_ID w' = Some marker'
           /\ Layer.filter marker'
              = Some (if String.eqb second "All" then has "imageURL"
                      else Arr [Str "all"; has "imageURL";
                                Arr [Str "=="; get "category"; Str second]]).
Proof.
  intros first second w m building Hm Hloaded Hb Hfirst Hsecond w'. subst w'.
  destruct (category_changed_keeps_shape first w m Hm) as (m1 & Hrun & Hshape).
  rewrite <- (select_category_changed first w Hfirst) in Hrun.
  destruct (category_effect_on_building_layer w m first building Hm Hloaded Hb)
    as (b1 & Hb1 & _).
  rewrite (exec_bind_returns _ _ tt) by (rewrite Hrun; reflexivity).
  unfold exec in Hb1. rewrite <- (select_category_changed first w Hfirst) in Hb1.
  fold (exec (select_category first) w) in Hb1.
  set (w1 := exec (select_category first) w) in *.
  assert (Hm1 : map_current w1 = Some m1) by (unfold w1, exec; rewrite Hrun; reflexivity).
  assert (Hactive : activeCategory (ui w1) = first).
  { unfold w1, exec. rewrite Hrun. destruct w as [[] st mc fx]. reflexivity. }
  assert (Hloaded1 : styleLoaded m1 = true).
  { destruct Hshape as (_ & _ & Hstyle & _). rewrite Hstyle. exact Hloaded. }
  assert (Hnew : second <> activeCategory (ui w1)) by (rewrite Hactive; exact Hsecond).
  unfold exec at 1 2 3. rewrite (select_category_changed second w1 Hnew).
  fold (exec (category_changed second) w1).
  destruct (category_effect_on_building_layer w1 m1 second b1 Hm1 Hloaded1 Hb1)
    as (b2 & Hb2 & Hcolour & Hfilter).
  split; [| split].
  - destruct (category_changed_keeps_shape second w1 m1 Hm1) as (m2 & Hrun2 & _).
    unfold exec. rewrite Hrun2. destruct w1 as [[] st mc fx]. reflexivity.
  - exists b2. repeat split; assumption.
  - intros marker Hp.
    destruct (category_effect_on_marker_layer w m first marker Hm Hloaded Hp)
      as (p1 & Hp1 & _).
    unfold exec in Hp1. rewrite <- (select_category_changed first w Hfirst) in Hp1.
    fold (exec (select_category first) w) in Hp1. fold w1 in Hp1.
    exact (category_effect_on_marker_layer w1 m1 second p1 Hm1 Hloaded1 Hp1).
Qed.

Lemma last_category_selection_wins_witness :
  map_current loaded = Some loaded_map
  /\ styleLoaded loaded_map = true
  /\ layer_of BUILDING_LAYER_ID loaded = Some buildings_layer
  /\ "Gate" <> activeCategory (ui loaded)
  /\ "All" <> "Gate"
  /\ (let w' := exec (select_category "Gate" ;; select_category "All") loaded in
      activeCategory (ui w') = "All"
      /\ (exists building',
            layer_of BUILDING_LAYER_ID w' = Some building'
            /\ assoc_get "fill-extrusion-color" (Layer.paint building')
               = Some (Str (if String.eqb "All" "All" then COLOR_GOLD else COLOR_PURPLE))
            /\ Layer.filter building'
               = (if String.eqb "All" "All" then None
                  else Some (Arr [Str "=="; get "category"; Str "All"])))
      /\ forall marker : Layer.t,
           layer_of PHOTO_MARKER_LAYER_ID loaded = Some marker ->
           exists marker',
             layer_of PHOTO_MARKER_LAYER_ID w' = Some marker'
             /\ Layer.filter marker'
                = Some (if String.eqb "All" "All" then has "imageURL"
                        else Arr [Str "all"; has "imageURL";
                                  Arr [Str "=="; get "category"; Str "All"]])).
Proof.
  assert (Hm : map_current loaded = Some loaded_map) by (vm_compute; reflexivity).
  assert (Hloaded : styleLoaded loaded_map = true) by (vm_compute; reflexivity).
  assert (Hb : layer_of BUILDING_LAYER_ID loaded = Some buildings_layer)
    by (vm_compute; reflexivity).
  assert (Hfirst : "Gate" <> activeCategory (ui loaded)) by (vm_compute; discriminate).
  assert (Hsecond : "All" <> "Gate") by discriminate.
  split; [exact Hm |]. split; [exact Hloaded |]. split; [exact Hb |].
  split; [exact Hfirst |]. split; [exact Hsecond |].
  exact (last_category_selection_wins "Gate" "All" loaded loaded_map buildings_layer
           Hm Hloaded Hb Hfirst Hsecond).
Defined.

(** ** The marker dataset *)

(** X21: the marker dataset has one point per building, in order, with the
    properties of the building: the viewpoint when there is one, else the
    mean of the first polygon ring, else the origin; an empty first ring
    gives NaN coordinates, not the origin. *)
Theorem viewpointMarkers_placement :
  forall buildings : FeatureCollection,
    List.map Feature.properties (viewpointMarkers buildings)
    = List.map Feature.properties buildings
    /\ Forall2
         (fun b f =>
            match Properties.viewpoint (Feature.properties b) with
            | Some {| Viewpoint.coordinates := Some c |} => Feature.geometry f = Point c
            | _ =>
                match Feature.geometry b with
                | Polygon ([] :: _) =>
                    exists x y, Feature.geometry f = Point [x; y]
                                /\ PrimFloat.is_nan x = true /\ PrimFloat.is_nan y = true
                | Polygon (ring :: _) =>
                    Feature.geometry f = Point [mean_of 0 ring; mean_of 1 ring]
                | _ => Feature.geometry f = Point [0%float; 0%float]
                end
            end)
         buildings (viewpointMarkers buildings).
Proof.
  intros buildings. unfold viewpointMarkers. split.
  - rewrite List.map_map. reflexivity.
  - induction buildings as [| b rest IH]; [constructor |].
    cbn [List.map]. constructor; [| exact IH].
    unfold marker_of. cbn [Feature.geometry].
    destruct (Properties.viewpoint (Feature.properties b)) as [[[c |]] |];
      [reflexivity | |];
      (destruct (Feature.geometry b) as [p | [| [| point ring] rings]];
       [reflexivity | reflexivity | | reflexivity]);
      (eexists; eexists; split; [reflexivity |]; split; vm_compute; reflexivity).
Qed.
(** ** Routing *)

(** X22: [handleRoute] never throws.  Without a map it does nothing; with one,
    an answer becomes the route and the camera flies to the centre read
    before the request at zoom 16, and a failure leaves the route cleared
    and the routing error in the store. *)
Theorem handleRoute_outcomes :
  forall (post : RouteRequest.t -> Outcome (option Route.t))
         (center endPoint : LngLat.t) (w : World),
    let r := handleRoute post center endPoint w in
    r.2 = Ok tt
    /\ ui r.1 = ui w
    /\ map_current r.1 = map_current w
    /\ match map_current w with
       | None => r.1 = w
       | Some _ =>
           match post {| RouteRequest.startLng := LngLat.lng center;
                         RouteRequest.startLat := LngLat.lat center;
                         RouteRequest.endLng := LngLat.lng endPoint;
                         RouteRequest.endLat := LngLat.lat endPoint |} with
           | Resolved data =>
               route (store r.1) = data
               /\ error (store r.1) = error (store w)
               /\ effects r.1
                  = (effects w
                     ++ [FlyTo {| FlyOptions.center := Instance center;
                                  FlyOptions.zoom := Some 16%float;
                                  FlyOptions.pitch := None; FlyOptions.bearing := None;
                                  FlyOptions.essential := true |}])%list
           | Rejected err =>
               route (store r.1) = None
               /\ error (store r.1)
                  = Some "Routing failed. Check routing service connection."
               /\ effects r.1
                  = (effects w ++ [ConsoleError ("Routing failed: " ++ message err)])%list
           end
       end.
Proof.
  intros post center endPoint [u [b rt ld er] [m |] fx] r; subst r;
    unfold handleRoute, handleRoute_request, handleRoute_response, scatch; sync_unfold.
  - destruct (post _) as [data | err]; sync_unfold; cbn; repeat split; reflexivity.
  - repeat split; reflexivity.
Qed.

(** X23: an answer that arrives after the unmount is stored as the route and
    then reported as a routing failure: the fly-to on the missing map
    throws inside the [try] block. *)
Theorem route_answer_after_unmount :
  forall (startPoint : LngLat.t) (data : option Route.t) (w : World),
    let r := handleRoute_response startPoint (Resolved data) (exec unmount w) in
    r.2 = Ok tt
    /\ route (store r.1) = data
    /\ error (store r.1) = Some "Routing failed. Check routing service connection."
    /\ ui r.1 = initial_ui
    /\ exists text, effects r.1 = (effects w ++ [ConsoleError text])%list.
Proof.
  intros startPoint data [u [b rt ld er] m fx] r; subst r.
  unfold handleRoute_response, scatch, unmount, init_cleanup; sync_unfold. cbn.
  repeat split; try reflexivity. eexists. reflexivity.
Qed.

(** X24: the clear-route button never throws; it clears the route points and
    the route and empties the route source when there is one, leaving
    every other source alone. *)
Theorem clearRoute_empties_the_route :
  forall w : World,
    let r := clearRoute w in
    r.2 = Ok tt
    /\ routePoints (ui r.1) = []
    /\ route (store r.1) = None
    /\ effects r.1 = effects w
    /\ forall id,
         source_of id r.1
         = if String.eqb id "route-source"
           then (fun _ => empty_collection) <$> source_of id w
           else source_of id w.
Proof.
  intros [[q sg se gi rg sf v3 ac fo rp lc cc] [b rt ld er] [[src ly im sl ls] |] fx] r;
    subst r; unfold clearRoute, source_of; sync_unfold; cbn.
  - destruct (src !! "route-source") as [s |] eqn:Hs; cbn; sync_unfold; cbn;
      rewrite ?Hs; cbn; (repeat split; try reflexivity); intros id;
      destruct (String.eqb id "route-source") eqn:Hid.
    + apply String.eqb_eq in Hid. subst id. rewrite Hs. apply lookup_insert_eq.
    + apply String.eqb_neq in Hid. apply lookup_insert_ne. congruence.
    + apply String.eqb_eq in Hid. subst id. rewrite Hs. reflexivity.
    + reflexivity.
  - repeat split; try reflexivity. intros id. destruct (String.eqb id "route-source"); reflexivity.
Qed.

(** ** The suggestion timer *)

Lemma query_after_change (q : string) (s : Sync unit) (w : World) :
  s = setSearchSuggestions (to []) \/ s = ret tt ->
  searchQuery (ui (exec (setSearchQuery (to q) ;; s) w)) = q.
Proof.
  destruct w as [[q0 sg se gi rg sf v3 ac fo rp lc cc] st mc fx].
  intros [-> | ->]; reflexivity.
Qed.

Lemma clear_debounce_of_single (t : Timers) (id delay : nat) (q : string) :
  (1 <= id)%nat ->
  pending t = [{| Timer.id := id; Timer.delay := delay; Timer.query := q |}] ->
  debounceTimeout t = Some id ->
  pending (clear_debounce t) = []
  /\ next_id (clear_debounce t) = next_id t
  /\ debounceTimeout (clear_debounce t) = debounceTimeout t.
Proof.
  intros Hid Hp Hd. unfold clear_debounce. rewrite Hd.
  destruct id as [| id]; [lia |]. unfold clearTimeout. cbn [pending next_id debounceTimeout].
  rewrite Hp. cbn [List.filter Timer.id]. rewrite Nat.eqb_refl. cbn. rewrite Hd.
  repeat split; reflexivity.
Qed.

Lemma clear_debounce_of_none (t : Timers) :
  pending t = [] ->
  pending (clear_debounce t) = []
  /\ next_id (clear_debounce t) = next_id t
  /\ debounceTimeout (clear_debounce t) = debounceTimeout t.
Proof.
  intros Hp. unfold clear_debounce.
  destruct (debounceTimeout t) as [[| id] |] eqn:Hd; [auto | | auto].
  unfold clearTimeout. cbn [pending next_id debounceTimeout]. rewrite Hp, Hd.
  repeat split; reflexivity.
Qed.

Lemma type_query_keeps_one_timer (q : string) (b : SearchBox) :
  (1 <= next_id (box_timers b))%nat ->
  one_timer_for b ->
  (1 <= next_id (box_timers (type_query q b)))%nat
  /\ one_timer_for (type_query q b)
  /\ searchQuery (ui (box_world (type_query q b))) = q.
Proof.
  intros Hnext Hone. unfold type_query.
  destruct (String.eqb q (searchQuery (ui (box_world b)))) eqn:Hsame.
  - apply String.eqb_eq in Hsame. repeat split; [assumption | assumption | congruence].
  - assert (Hcleared :
      forall t : Timers,
        t = clear_debounce
              (if box_cleanup b then clear_debounce (box_timers b) else box_timers b) ->
        pending t = [] /\ next_id t = next_id (box_timers b)).
    { intros t ->. unfold one_timer_for in Hone. cbv zeta in Hone.
      destruct (String.length (searchQuery (ui (box_world b))) <? 3)%nat.
      - destruct (box_cleanup b).
        + destruct (clear_debounce_of_none _ Hone) as (H1 & H2 & _).
          destruct (clear_debounce_of_none _ H1) as (H3 & H4 & _). split; congruence.
        + destruct (clear_debounce_of_none _ Hone) as (H1 & H2 & _). split; congruence.
      - destruct Hone as (id & Hid & Hone & Hd).
        destruct (clear_debounce_of_single _ _ _ _ Hid Hone Hd) as (H1 & H2 & H3).
        destruct (box_cleanup b).
        + destruct (clear_debounce_of_none _ H1) as (H4 & H5 & _). split; congruence.
        + split; assumption. }
    unfold query_changed, suggest_effect.
    remember (clear_debounce
                (if box_cleanup b then clear_debounce (box_timers b) else box_timers b))
      as t eqn:Ht.
    destruct (Hcleared t eq_refl) as [Hp Hn]. clear Ht Hcleared.
    unfold one_timer_for.
    destruct (String.length q <? 3)%nat eqn:Hshort.
    + cbn [box_world box_timers box_cleanup]. rewrite query_after_change by (left; reflexivity).
      rewrite Hshort. repeat split; [lia | exact Hp].
    + cbn [box_world box_timers box_cleanup]. rewrite query_after_change by (right; reflexivity).
      rewrite Hshort.
      unfold schedule_debounce. cbn [pending next_id debounceTimeout]. rewrite Hp, Hn.
      repeat split; [lia |].
      exists (next_id (box_timers b)). repeat split; [assumption].
Qed.

Lemma last_of_cons {A} (l : list A) :
  forall a d d' : A, List.last (a :: l) d = List.last (a :: l) d'.
Proof.
  induction l as [| b l IH]; intros a d d'; [reflexivity |].
  change (List.last (b :: l) d = List.last (b :: l) d'). apply IH.
Qed.

Lemma type_queries_keep_one_timer (qs : list string) :
  forall b : SearchBox,
    (1 <= next_id (box_timers b))%nat ->
    one_timer_for b ->
    one_timer_for (type_queries qs b)
    /\ searchQuery (ui (box_world (type_queries qs b)))
       = List.last qs (searchQuery (ui (box_world b))).
Proof.
  induction qs as [| q qs IH]; intros b Hnext Hone; [split; [assumption | reflexivity] |].
  destruct (type_query_keeps_one_timer q b Hnext Hone) as (Hnext' & Hone' & Hq).
  destruct (IH (type_query q b) Hnext' Hone') as [Hone'' Hlast].
  unfold type_queries in *. cbn [fold_left]. split; [assumption |].
  rewrite Hlast, Hq. destruct qs as [| q' qs']; [reflexivity |].
  change (List.last (q' :: qs') q = List.last (q' :: qs') (searchQuery (ui (box_world b)))).
  apply last_of_cons.
Qed.

(** X25: while the user types, whatever the sequence of values: the text on
    display is the last one typed, and at most one timer is pending, the
    one for that text with the debounce delay; none when the text is
    shorter than three characters. *)
Theorem typing_keeps_one_timer_for_the_latest_text :
  forall (qs : list string) (w : World),
    (String.length (searchQuery (ui w)) < 3)%nat ->
    let b := type_queries qs (initial_box w) in
    let q := searchQuery (ui (box_world b)) in
    q = List.last qs (searchQuery (ui w))
    /\ if (String.length q <? 3)%nat then pending (box_timers b) = []
       else exists id,
              pending (box_timers b)
              = [{| Timer.id := id; Timer.delay := 300; Timer.query := q |}]
              /\ debounceTimeout (box_timers b) = Some id.
Proof.
  intros qs w Hshort b q.
  assert (Hinit : one_timer_for (initial_box w)).
  { unfold one_timer_for. cbn [initial_box box_world box_timers].
    apply Nat.ltb_lt in Hshort. rewrite Hshort. reflexivity. }
  destruct (type_queries_keep_one_timer qs (initial_box w) (le_n 1) Hinit) as [Hone Hlast].
  split; [exact Hlast |]. fold b in Hone. unfold one_timer_for in Hone. cbv zeta in Hone.
  fold q in Hone. destruct (String.length q <? 3)%nat; [exact Hone |].
  destruct Hone as (id & _ & Hp & Hd). exists id. split; assumption.
Qed.

Lemma typing_keeps_one_timer_for_the_latest_text_witness :
  (String.length (searchQuery (ui first_render)) < 3)%nat
  /\ (let b := type_queries ["V"; "Vi"; "Viz"; "Viza"; "Vizag"] (initial_box first_render) in
      let q := searchQuery (ui (box_world b)) in
      q = List.last ["V"; "Vi"; "Viz"; "Viza"; "Vizag"] (searchQuery (ui first_render))
      /\ if (String.length q <? 3)%nat then pending (box_timers b) = []
         else exists id,
                pending (box_timers b)
                = [{| Timer.id := id; Timer.delay := 300; Timer.query := q |}]
                /\ debounceTimeout (box_timers b) = Some id).
Proof.
  assert (Hshort : (String.length (searchQuery (ui first_render)) < 3)%nat)
    by (vm_compute; lia).
  split; [exact Hshort |].
  exact (typing_keeps_one_timer_for_the_latest_text
           ["V"; "Vi"; "Viz"; "Viza"; "Vizag"] first_render Hshort).
Defined.

(** X26: when the pending timer comes due its callback asks the geocoding
    service once, for the text on display and five results; no other timer
    id has a callback, and for a text shorter than three characters none
    has. *)
Theorem due_timer_requests_the_latest_text :
  forall (qs : list string) (w : World),
    (String.length (searchQuery (ui w)) < 3)%nat ->
    let b := type_queries qs (initial_box w) in
    let q := searchQuery (ui (box_world b)) in
    if (String.length q <? 3)%nat
    then forall id, timer_due id (box_timers b) = (box_timers b, None)
    else exists id t',
           timer_due id (box_timers b) = (t', Some (suggestion_fetch q))
           /\ pending t' = []
           /\ (forall other, other <> id ->
               timer_due other (box_timers b) = (box_timers b, None))
           /\ exists k, run (suggestion_fetch q) (box_world b)
                        = (box_world b, Suspended (SearchGet q 5) k).
Proof.
  intros qs w Hshort b q.
  assert (Hinit : one_timer_for (initial_box w)).
  { unfold one_timer_for. cbn [initial_box box_world box_timers].
    apply Nat.ltb_lt in Hshort. rewrite Hshort. reflexivity. }
  destruct (type_queries_keep_one_timer qs (initial_box w) (le_n 1) Hinit) as [Hone _].
  fold b in Hone. unfold one_timer_for in Hone. cbv zeta in Hone. fold q in Hone.
  destruct (String.length q <? 3)%nat eqn:Hlen.
  - intros id. unfold timer_due. rewrite Hone. reflexivity.
  - destruct Hone as (id & _ & Hp & Hd). exists id. eexists. split; [| split; [| split]].
    + unfold timer_due. rewrite Hp. cbn [List.find Timer.id]. rewrite Nat.eqb_refl.
      reflexivity.
    + unfold clearTimeout. cbn [pending]. rewrite Hp. cbn [List.filter Timer.id].
      rewrite Nat.eqb_refl. reflexivity.
    + intros other Hother. unfold timer_due. rewrite Hp. cbn [List.find Timer.id].
      destruct (Nat.eqb id other) eqn:Heq; [| reflexivity].
      apply Nat.eqb_eq in Heq. congruence.
    + unfold suggestion_fetch, fetchCoordinates. rewrite Hlen.
      rewrite andb_false_r. eexists. reflexivity.
Qed.

Lemma due_timer_requests_the_latest_text_witness :
  (String.length (searchQuery (ui first_render)) < 3)%nat
  /\ (let b := type_queries ["Vi"; "Viz"; "Viza"] (initial_box first_render) in
      let q := searchQuery (ui (box_world b)) in
      if (String.length q <? 3)%nat
      then forall id, timer_due id (box_timers b) = (box_timers b, None)
      else exists id t',
             timer_due id (box_timers b) = (t', Some (suggestion_fetch q))
             /\ pending t' = []
             /\ (forall other, other <> id ->
                 timer_due other (box_timers b) = (box_timers b, None))
             /\ exists k, run (suggestion_fetch q) (box_world b)
                          = (box_world b, Suspended (SearchGet q 5) k)).
Proof.
  assert (Hshort : (String.length (searchQuery (ui first_render)) < 3)%nat)
    by (vm_compute; lia).
  split; [exact Hshort |].
  exact (due_timer_requests_the_latest_text ["Vi"; "Viz"; "Viza"] first_render Hshort).
Defined.

(** X27: the callback of the timer never throws and touches nothing but the
    suggestion list; when the request fails the list is emptied, since
    [fetchCoordinates] has already turned the failure into an empty
    answer. *)
Theorem suggestion_fetch_only_sets_the_suggestions :
  forall (net : Network) (q : string) (w : World),
    exists suggestions,
      complete net (suggestion_fetch q) w
      = (exec (setSearchSuggestions (to suggestions)) w, Ok tt)
      /\ if (String.length q <? 3)%nat then suggestions = []
         else match net (SearchGet q 5) with
              | Resolved (Some places) =>
                  List.map Suggestion.name suggestions = List.map Place.display_name places
              | Resolved None | Rejected _ => suggestions = []
              end.
Proof.
  intros net q w. unfold suggestion_fetch, fetchCoordinates.
  destruct (String.length q <? 3)%nat eqn:Hlen.
  - exists []. split; reflexivity.
  - rewrite andb_false_r. cbn.
    destruct (net (SearchGet q 5)) as [[[| place places] |] | e] eqn:Hnet; cbn;
      eexists; (split; [reflexivity |]); try reflexivity.
    cbn. rewrite List.map_map. reflexivity.
Qed.

(** ** The collected coordinates *)

(** X28: where its button is rendered, [resetCollectedCoordinates] only
    empties the collection: the branch that closes the form needs the
    collection to be empty already. *)
Theorem clear_collected_keeps_the_form_open :
  forall w : World,
    isCoordinateFormOpen (ui w) = true ->
    collectedCoordinates (ui w) <> [] ->
    let r := resetCollectedCoordinates (length (collectedCoordinates (ui w))) w in
    r = (exec (setCollectedCoordinates (to [])) w, Ok tt)
    /\ collectedCoordinates (ui r.1) = []
    /\ isCoordinateFormOpen (ui r.1) = true.
Proof.
  intros [[q sg se gi rg sf v3 ac fo rp lc cc] st mc fx] Hopen Hsome r. subst r.
  cbn in Hopen, Hsome. subst fo. destruct cc as [| c cc]; [contradiction |].
  repeat split; reflexivity.
Qed.

Lemma clear_collected_keeps_the_form_open_witness :
  isCoordinateFormOpen (ui (exec (setIsCoordinateFormOpen (to true)) full_buffer)) = true
  /\ collectedCoordinates (ui (exec (setIsCoordinateFormOpen (to true)) full_buffer)) <> []
  /\ (let w := exec (setIsCoordinateFormOpen (to true)) full_buffer in
      let r := resetCollectedCoordinates (length (collectedCoordinates (ui w))) w in
      r = (exec (setCollectedCoordinates (to [])) w, Ok tt)
      /\ collectedCoordinates (ui r.1) = []
      /\ isCoordinateFormOpen (ui r.1) = true).
Proof.
  assert (Hopen :
    isCoordinateFormOpen (ui (exec (setIsCoordinateFormOpen (to true)) full_buffer)) = true)
    by reflexivity.
  assert (Hsome :
    collectedCoordinates (ui (exec (setIsCoordinateFormOpen (to true)) full_buffer)) <> [])
    by (vm_compute; discriminate).
  split; [exact Hopen |]. split; [exact Hsome |].
  exact (clear_collected_keeps_the_form_open
           (exec (setIsCoordinateFormOpen (to true)) full_buffer) Hopen Hsome).
Defined.

(** ** What no handler ever does: an invariant of the page *)

Section Keeps.
Variable P : World -> Prop.

Lemma keeps_ret {A} (a : A) : keeps P (ret a).
Proof. intros w Hw. exact Hw. Qed.

Lemma keeps_sthrow {A} (e : JSError) : keeps P (@sthrow A e).
Proof. intros w Hw. exact Hw. Qed.

Lemma keeps_read {A} (g : World -> A) : keeps P (read g).
Proof. intros w Hw. exact Hw. Qed.

Lemma keeps_get_map : keeps P get_map.
Proof. intros w Hw. unfold get_map. destruct (map_current w); exact Hw. Qed.

Lemma keeps_bind {A B} (s : Sync A) (k : A -> Sync B) :
  keeps P s -> (forall a, keeps P (k a)) -> keeps P (x <- s ;; k x).
Proof.
  intros Hs Hk w Hw. specialize (Hs w Hw). cbn. unfold sbind.
  destruct (s w) as [w' [a | e]]; [apply Hk; exact Hs | exact Hs].
Qed.

Lemma keeps_scatch {A} (s : Sync A) (h : JSError -> Sync A) :
  keeps P s -> (forall e, keeps P (h e)) -> keeps P (scatch s h).
Proof.
  intros Hs Hh w Hw. specialize (Hs w Hw). unfold scatch.
  destruct (s w) as [w' [a | e]]; [exact Hs | apply Hh; exact Hs].
Qed.

Lemma keeps_attempt {A} (s : Sync A) : keeps P s -> keeps P (attempt s).
Proof.
  intros Hs w Hw. specialize (Hs w Hw). unfold attempt.
  destruct (s w) as [w' r]. exact Hs.
Qed.

Lemma task_keeps_ret {A} (a : A) : task_keeps P (ret a).
Proof. constructor. Qed.

Lemma task_keeps_lift {A} (s : Sync A) : keeps P s -> task_keeps P (lift s).
Proof. intros Hs. constructor; [exact Hs | intros b; constructor]. Qed.

Lemma task_keeps_await (req : Request) : task_keeps P (await req).
Proof. constructor. intros [data | e]; constructor. Qed.

Lemma task_keeps_bind {A B} (t : Task A) (k : A -> Task B) :
  task_keeps P t -> (forall a, task_keeps P (k a)) -> task_keeps P (x <- t ;; k x).
Proof.
  intros Ht Hk. cbn. induction Ht as [a | e | req k' _ IH | C s k' Hs _ IH]; cbn.
  - apply Hk.
  - constructor.
  - constructor. exact IH.
  - constructor; [exact Hs | exact IH].
Qed.

Lemma task_keeps_try_catch {A} (t : Task A) (h : JSError -> Task A) :
  task_keeps P t -> (forall e, task_keeps P (h e)) -> task_keeps P (try_catch t h).
Proof.
  intros Ht Hh. induction Ht as [a | e | req k' _ IH | C s k' Hs _ IH]; cbn.
  - constructor.
  - apply Hh.
  - constructor. exact IH.
  - constructor; [apply keeps_attempt; exact Hs |].
    intros [b | e]; [apply IH | apply Hh].
Qed.

(** A task run to its next await: [P] still holds, and goes on holding
    along whatever is left of the task. *)
Lemma run_keeps {A} (t : Task A) :
  task_keeps P t ->
  forall w, P w ->
    P (run t w).1
    /\ match (run t w).2 with
       | Suspended req k => forall o, task_keeps P (k o)
       | _ => True
       end.
Proof.
  induction 1 as [a | e | req k Hk _ | C s k Hs Hk IH]; intros w Hw; cbn.
  - split; [exact Hw | exact I].
  - split; [exact Hw | exact I].
  - split; [exact Hw | exact Hk].
  - specialize (Hs w Hw). destruct (s w) as [w' [b | e]]; cbn in Hs.
    + apply IH. exact Hs.
    + split; [exact Hs | exact I].
Qed.

End Keeps.

Lemma keeps_same_ui {A} (s : Sync A) :
  (forall w, ui (s w).1 = ui w) -> keeps within_bounds s.
Proof. intros Hs w Hw. unfold within_bounds in *. rewrite Hs. exact Hw. Qed.

Lemma keeps_put_map (m : MapHost) : keeps within_bounds (put_map m).
Proof. apply keeps_same_ui. reflexivity. Qed.

Lemma keeps_emit (e : Effect) : keeps within_bounds (emit e).
Proof. apply keeps_same_ui. reflexivity. Qed.

Lemma keeps_dispatch (a : Action) : keeps within_bounds (dispatch a).
Proof. apply keeps_same_ui. reflexivity. Qed.

Lemma keeps_with_store (f : Store -> Store) : keeps within_bounds (modify (with_store f)).
Proof. apply keeps_same_ui. reflexivity. Qed.

Lemma keeps_init_cleanup : keeps within_bounds init_cleanup.
Proof. apply keeps_same_ui. reflexivity. Qed.

Lemma keeps_unmount : keeps within_bounds unmount.
Proof.
  intros w _. unfold within_bounds, MAX_LOGGED_CLICKS, MAX_COLLECTED_POINTS. cbn.
  split; [reflexivity |]. split; lia.
Qed.

Lemma keeps_with_ui (f : UIState -> UIState) :
  (forall u, routePoints (f u) = routePoints u
             /\ loggedClicks (f u) = loggedClicks u
             /\ collectedCoordinates (f u) = collectedCoordinates u) ->
  keeps within_bounds (modify (with_ui f)).
Proof.
  intros Hf w Hw. unfold within_bounds in *. cbn.
  destruct (Hf (ui w)) as (-> & -> & ->). exact Hw.
Qed.

Lemma keeps_setRoutePoints_empty : keeps within_bounds (setRoutePoints (to [])).
Proof. intros [[] ? ? ?] (_ & Hl & Hc). repeat split; assumption. Qed.

Lemma keeps_setLoggedClicks_empty : keeps within_bounds (setLoggedClicks (to [])).
Proof.
  intros [[] ? ? ?] (Hr & _ & Hc). repeat split; [assumption | | assumption].
  cbn. unfold MAX_LOGGED_CLICKS. lia.
Qed.

Lemma keeps_setLoggedClicks_push (c : LoggedClick.t) :
  keeps within_bounds
    (setLoggedClicks (fun prev => c :: firstn (MAX_LOGGED_CLICKS - 1) prev)).
Proof.
  intros [[] ? ? ?] (Hr & _ & Hc). repeat split; [assumption | | assumption].
  cbn. reflexivity.
Qed.

Lemma keeps_setCollectedCoordinates_empty :
  keeps within_bounds (setCollectedCoordinates (to [])).
Proof.
  intros [[] ? ? ?] (Hr & Hl & _). repeat split; [assumption | assumption |].
  cbn. lia.
Qed.

Lemma keeps_setCollectedCoordinates_push (p : CollectedCoordinate.t) :
  keeps within_bounds
    (setCollectedCoordinates (fun prev =>
       if (MAX_COLLECTED_POINTS <=? length prev)%nat then prev else (prev ++ [p])%list)).
Proof.
  intros [[q sg se gi rg sf v3 ac fo rp lc cc] ? ? ?] (Hr & Hl & Hc).
  repeat split; [assumption | assumption |].
  cbn [fst setCollectedCoordinates modify with_ui ui collectedCoordinates] in *.
  destruct (MAX_COLLECTED_POINTS <=? length cc)%nat eqn:Hfull; [exact Hc |].
  apply Nat.leb_gt in Hfull. rewrite length_app. cbn [length]. lia.
Qed.

Ltac head_of t :=
  lazymatch t with
  | ?f _ => head_of f
  | _ => t
  end.

(** Takes a statement apart down to the primitives above. *)
Ltac keeps_bounds_step :=
  lazymatch goal with
  | |- keeps _ (bind _ _) => apply keeps_bind; [| intros ?]
  | |- keeps _ (scatch _ _) => apply keeps_scatch; [| intros ?]
  | |- keeps _ (ret _) => apply keeps_ret
  | |- keeps _ (sthrow _) => apply keeps_sthrow
  | |- keeps _ (read _) => apply keeps_read
  | |- keeps _ get_map => apply keeps_get_map
  | |- keeps _ (put_map _) => apply keeps_put_map
  | |- keeps _ (emit _) => apply keeps_emit
  | |- keeps _ (dispatch _) => apply keeps_dispatch
  | |- keeps _ unmount => apply keeps_unmount
  | |- keeps _ init_cleanup => apply keeps_init_cleanup
  | |- keeps _ (modify (with_store _)) => apply keeps_with_store
  | |- keeps _ (setRoutePoints _) => apply keeps_setRoutePoints_empty
  | |- keeps _ (setLoggedClicks _) =>
      first [apply keeps_setLoggedClicks_empty | apply keeps_setLoggedClicks_push]
  | |- keeps _ (setCollectedCoordinates _) =>
      first [apply keeps_setCollectedCoordinates_empty
            | apply keeps_setCollectedCoordinates_push]
  | |- keeps _ (modify (with_ui _)) =>
      apply keeps_with_ui; intros []; repeat split; reflexivity
  | |- keeps _ (match ?x with _ => _ end) => destruct x
  | |- keeps _ (let _ := _ in _) => cbv zeta
  | |- keeps _ ?s => let h := head_of s in progress unfold h
  end.

Ltac keeps_bounds := repeat keeps_bounds_step.

Lemma on_load_keeps_bounds (buildings : FeatureCollection) :
  keeps within_bounds (on_load buildings).
Proof. keeps_bounds. Qed.

Ltac task_keeps_bounds_step :=
  lazymatch goal with
  | |- task_keeps _ (bind _ _) => apply task_keeps_bind; [| intros ?]
  | |- task_keeps _ (try_catch _ _) => apply task_keeps_try_catch; [| intros ?]
  | |- task_keeps _ (ret _) => apply task_keeps_ret
  | |- task_keeps _ (lift _) => apply task_keeps_lift; keeps_bounds
  | |- task_keeps ?P (await ?req) => exact (task_keeps_await P req)
  | |- task_keeps _ (match ?x with _ => _ end) => destruct x
  | |- task_keeps _ (let _ := _ in _) => cbv zeta
  | |- task_keeps _ ?t => let h := head_of t in progress unfold h
  end.

Ltac task_keeps_bounds := repeat task_keeps_bounds_step.

Lemma handler_keeps_bounds (i : Interaction) : task_keeps within_bounds (handler i).
Proof. destruct i; cbn [handler]; task_keeps_bounds. Qed.

Lemma settle_keeps (r : World * Status unit) (others : list Pending) :
  within_bounds r.1 ->
  match r.2 with
  | Suspended req k => forall o, task_keeps within_bounds (k o)
  | _ => True
  end ->
  Forall (fun p => forall o, task_keeps within_bounds (pending_rest p o)) others ->
  within_bounds (page_world (settle r others))
  /\ Forall (fun p => forall o, task_keeps within_bounds (pending_rest p o))
            (in_flight (settle r others)).
Proof.
  destruct r as [w [a | e | req k]]; cbn; intros Hw Hk Hothers;
    (split; [exact Hw |]); try exact Hothers.
  apply Forall_app. split; [exact Hothers |]. constructor; [exact Hk | constructor].
Qed.

Lemma page_step_keeps (p : Page) (ev : PageEvent) :
  within_bounds (page_world p) ->
  Forall (fun q => forall o, task_keeps within_bounds (pending_rest q o)) (in_flight p) ->
  within_bounds (page_world (page_step p ev))
  /\ Forall (fun q => forall o, task_keeps within_bounds (pending_rest q o))
            (in_flight (page_step p ev)).
Proof.
  intros Hw Hflight. destruct ev as [i | n net]; cbn [page_step].
  - destruct (run_keeps within_bounds (handler i) (handler_keeps_bounds i) _ Hw)
      as [Hw' Hk].
    apply settle_keeps; assumption.
  - destruct (in_flight p !! n) as [[req k] |] eqn:Hn; [| split; assumption].
    assert (Hk : forall o, task_keeps within_bounds (k o)).
    { apply (Forall_lookup_1 _ _ _ _ Hflight Hn). }
    destruct (run_keeps within_bounds (k (net req)) (Hk (net req)) _ Hw) as [Hw' Hk'].
    apply settle_keeps; [assumption | assumption |].
    apply Forall_delete. exact Hflight.
Qed.

(** X29: however the handlers, the effects and the answers of the network are
    interleaved, the component never holds a route point, its click log
    never holds more than one entry and its collection never more than 155
    points. *)
Theorem page_stays_within_bounds :
  forall (events : list PageEvent) (w : World),
    within_bounds w ->
    within_bounds (page_world (page_run events (fresh_page w))).
Proof.
  intros events w Hw.
  assert (Hgen : forall p : Page,
    within_bounds (page_world p) ->
    Forall (fun q => forall o, task_keeps within_bounds (pending_rest q o)) (in_flight p) ->
    within_bounds (page_world (page_run events p))).
  { induction events as [| ev events IH]; intros p Hp Hflight; [exact Hp |].
    destruct (page_step_keeps p ev Hp Hflight) as [Hp' Hflight'].
    exact (IH (page_step p ev) Hp' Hflight'). }
  apply Hgen; [exact Hw | constructor].
Qed.

(** ** Answers that arrive out of order *)

Lemma run_map_click (e : MouseEvent.t) (w : World) (closure : Captured.t) :
  click_listener w = Some closure ->
  run (map_click e) w = run (on_click closure e) w.
Proof.
  intros Hl. unfold map_click. cbn [bind Monad_Task tbind lift run read].
  rewrite Hl. reflexivity.
Qed.

(** A primary click where the map draws nothing of the component stops at
    the reverse-geocoding request for the clicked point; whenever the
    answer comes, and whatever it is, the panel then shows that point. *)
Lemma click_on_empty_spot (closure : Captured.t) (at_ : LngLat.t) (w : World) :
  exists w1 k,
    run (on_click closure (primary at_)) w
    = (w1, Suspended (ReverseGet (LngLat.lat at_) (LngLat.lng at_)) k)
    /\ map_current w1 = map_current w
    /\ forall o w',
         let r := run (k o) w' in
         r.2 = Finished tt
         /\ map_current r.1 = map_current w'
         /\ isReverseGeocoding (ui r.1) = false
         /\ exists info,
              reverseGeocodeInfo (ui r.1) = Some info
              /\ GeocodeInfo.latitude info = JS.toFixed (LngLat.lat at_) 6
              /\ GeocodeInfo.longitude info = JS.toFixed (LngLat.lng at_) 6.
Proof.
  destruct w as [[q sg se gi rg sf v3 ac fo rp lc cc] [bd rt ld er] mc fx].
  destruct closure as [crp crt].
  unfold on_click, primary, handleReverseGeocode, fetchPincodeAndAddress.
  cbn -[JS.toFixed].
  destruct ((match length crp with 0%nat => false | S _ => true end)
            || bool_decide (is_Some crt)); cbn -[JS.toFixed];
    (eexists; eexists; split; [reflexivity |]; split; [reflexivity |]);
    intros o [[] st' mc' fx'];
    destruct o as [[[[address |] display_name] |] | e]; cbn -[JS.toFixed];
    repeat split; eexists; repeat split; reflexivity.
Qed.

(** X30: two clicks on empty spots whose answers arrive in the other order: the
    panel ends up showing the older click, since the last answer wins. *)
Theorem late_answer_overwrites_the_newer_click :
  forall (a b : LngLat.t) (answer_to_b answer_to_a : Network) (w : World)
         (closure : Captured.t),
    click_listener w = Some closure ->
    let p := page_run [Begin (MapClicked (primary a)); Begin (MapClicked (primary b));
                       Answered 1 answer_to_b; Answered 0 answer_to_a]
                      (fresh_page w) in
    in_flight p = []
    /\ isReverseGeocoding (ui (page_world p)) = false
    /\ exists info,
         reverseGeocodeInfo (ui (page_world p)) = Some info
         /\ GeocodeInfo.latitude info = JS.toFixed (LngLat.lat a) 6
         /\ GeocodeInfo.longitude info = JS.toFixed (LngLat.lng a) 6.
Proof.
  intros a b answer_to_b answer_to_a w closure Hl p. subst p.
  destruct (click_on_empty_spot closure a w) as (w1 & ka & Ha & Hmap1 & Hka).
  destruct (click_on_empty_spot closure b w1) as (w2 & kb & Hb & Hmap2 & Hkb).
  assert (Hl1 : click_listener w1 = Some closure).
  { unfold click_listener in *. rewrite Hmap1. exact Hl. }
  unfold page_run, fresh_page. cbn [fold_left page_step handler page_world in_flight].
  rewrite (run_map_click (primary a) w closure Hl), Ha.
  cbn [settle page_world in_flight app].
  rewrite (run_map_click (primary b) w1 closure Hl1), Hb.
  cbn [settle page_world in_flight app lookup list_lookup].
  destruct (Hkb (answer_to_b (ReverseGet (LngLat.lat b) (LngLat.lng b))) w2)
    as (Hdone_b & _ & _ & _).
  destruct (run (kb _) w2) as [w3 st3] eqn:Hrun_b. cbn in Hdone_b. subst st3.
  cbn [settle page_world in_flight delete list_delete lookup list_lookup].
  destruct (Hka (answer_to_a (ReverseGet (LngLat.lat a) (LngLat.lng a))) w3)
    as (Hdone_a & _ & Hidle & Hinfo).
  destruct (run (ka _) w3) as [w4 st4] eqn:Hrun_a. cbn in Hdone_a, Hidle, Hinfo. subst st4.
  cbn [settle page_world in_flight delete list_delete].
  split; [reflexivity |]. split; [exact Hidle | exact Hinfo].
Qed.

Lemma late_answer_overwrites_the_newer_click_witness :
  click_listener ready = Some {| Captured.routePoints := []; Captured.route := None |}
  /\ (let p := page_run [Begin (MapClicked (primary sample_point));
                         Begin (MapClicked (primary other_point));
                         Answered 1 (reverse_answers None);
                         Answered 0 (failing (Error "Network Error"))]
                        (fresh_page ready) in
      in_flight p = []
      /\ isReverseGeocoding (ui (page_world p)) = false
      /\ exists info,
           reverseGeocodeInfo (ui (page_world p)) = Some info
           /\ GeocodeInfo.latitude info = JS.toFixed (LngLat.lat sample_point) 6
           /\ GeocodeInfo.longitude info = JS.toFixed (LngLat.lng sample_point) 6).
Proof.
  assert (Hl : click_listener ready
               = Some {| Captured.routePoints := []; Captured.route := None |})
    by (vm_compute; reflexivity).
  split; [exact Hl |].
  exact (late_answer_overwrites_the_newer_click sample_point other_point
           (reverse_answers None) (failing (Error "Network Error")) ready _ Hl).
Defined.

Lemma page_stays_within_bounds_witness :
  within_bounds first_render
  /\ within_bounds (page_world (page_run sample_session (fresh_page first_render))).
Proof.
  assert (Hstart : within_bounds first_render).
  { unfold within_bounds, MAX_LOGGED_CLICKS, MAX_COLLECTED_POINTS. cbn.
    split; [reflexivity |]. split; lia. }
  split; [exact Hstart |].
  exact (page_stays_within_bounds sample_session first_render Hstart).
Defined.

(** ** The selection and the reverse-geocode result *)

Lemma keeps_bind_throws (P : World -> Prop) {A B} (s : Sync A) (k : A -> Sync B) :
  (forall w, exists e, (s w).2 = Thrown e) ->
  keeps P s -> keeps P (x <- s ;; k x).
Proof.
  intros Hthrows Hs w Hw. specialize (Hs w Hw). destruct (Hthrows w) as [e He].
  cbn. unfold sbind. destruct (s w) as [w' [a | e']]; cbn in *; [discriminate | exact Hs].
Qed.

Lemma existsb_filter_false {A} (p q : A -> bool) (l : list A) :
  List.existsb p l = false -> List.existsb p (List.filter q l) = false.
Proof.
  induction l as [| a l IH]; cbn; [reflexivity |].
  intros H. apply orb_false_iff in H as [Ha Hl].
  destruct (q a); cbn; [rewrite Ha |]; auto.
Qed.

Lemma quiet_get_map_then {A} (k : MapHost -> Sync A) :
  (forall m w, map_current w = Some m -> nothing_to_select w -> nothing_to_select (k m w).1) ->
  keeps nothing_to_select (m <- get_map ;; k m).
Proof.
  intros Hk w Hw. cbn. unfold sbind, get_map.
  destruct (map_current w) as [m |] eqn:Hm; [apply Hk; assumption | exact Hw].
Qed.

(** A call that replaces the map by one that still has no marker layer and
    no layer listener. *)
Lemma quiet_put_map (m : MapHost) (w : World) :
  without_markers m -> nothing_to_select w -> nothing_to_select (put_map m w).1.
Proof. intros Hm (Hs & _ & He). repeat split; try assumption; apply Hm. Qed.

Lemma quiet_emit (e : Effect) :
  is_image_request e = false -> keeps nothing_to_select (emit e).
Proof.
  intros Hq w (Hs & Hm & He). split; [exact Hs |]. split; [exact Hm |].
  cbn. rewrite existsb_app, He. cbn. rewrite Hq. reflexivity.
Qed.

Lemma quiet_dispatch (a : Action) : keeps nothing_to_select (dispatch a).
Proof. intros w Hw. exact Hw. Qed.

Lemma quiet_with_ui (f : UIState -> UIState) :
  (forall u, selectedFeature (f u) = selectedFeature u \/ selectedFeature (f u) = None) ->
  keeps nothing_to_select (modify (with_ui f)).
Proof.
  intros Hf w (Hs & Hm & He). split; [| split; assumption].
  cbn. destruct (Hf (ui w)) as [-> | ->]; [exact Hs | reflexivity].
Qed.

Lemma quiet_unmount : keeps nothing_to_select unmount.
Proof. intros w (_ & _ & He). repeat split. exact He. Qed.

Lemma quiet_init_cleanup : keeps nothing_to_select init_cleanup.
Proof. intros w (Hs & _ & He). repeat split; assumption. Qed.

Lemma quiet_with_store (f : Store -> Store) :
  keeps nothing_to_select (modify (with_store f)).
Proof. intros w Hw. exact Hw. Qed.

Lemma quiet_put_new_map : keeps nothing_to_select (put_map new_map).
Proof. intros w Hw. apply quiet_put_map; [repeat split | exact Hw]. Qed.

Lemma quiet_addSource (id : string) (data : GeoJSON) :
  keeps nothing_to_select (addSource id data).
Proof.
  apply quiet_get_map_then. intros m w Hm Hw.
  pose proof Hw as (Hs & Hmap & He). rewrite Hm in Hmap.
  destruct (sources m !! id); [exact Hw |].
  apply quiet_put_map; [exact Hmap | exact Hw].
Qed.

Lemma quiet_removeSource (id : string) : keeps nothing_to_select (removeSource id).
Proof.
  apply quiet_get_map_then. intros m w Hm Hw.
  pose proof Hw as (Hs & Hmap & He). rewrite Hm in Hmap.
  destruct (sources m !! id); [| exact Hw].
  destruct (layer_uses id m).
  - apply quiet_emit; [reflexivity | exact Hw].
  - apply quiet_put_map; [exact Hmap | exact Hw].
Qed.

Lemma quiet_setData (id : string) (data : GeoJSON) :
  keeps nothing_to_select (setData id data).
Proof.
  apply quiet_get_map_then. intros m w Hm Hw.
  pose proof Hw as (Hs & Hmap & He). rewrite Hm in Hmap.
  destruct (sources m !! id); [| exact Hw].
  apply quiet_put_map; [exact Hmap | exact Hw].
Qed.

Lemma quiet_removeLayer (id : string) : keeps nothing_to_select (removeLayer id).
Proof.
  apply quiet_get_map_then. intros m w Hm Hw.
  pose proof Hw as (Hs & Hmap & He). rewrite Hm in Hmap.
  destruct (has_layer id m).
  - apply quiet_put_map; [| exact Hw].
    destruct Hmap as (Hv & Hp & Hl). unfold without_markers, has_layer in *. cbn.
    repeat split; [apply existsb_filter_false; exact Hv
                  | apply existsb_filter_false; exact Hp | exact Hl].
  - apply quiet_emit; [reflexivity | exact Hw].
Qed.

Lemma quiet_addLayer (l : Layer.t) :
  String.eqb (Layer.id l) "viewpoint-markers" = false ->
  String.eqb (Layer.id l) PHOTO_MARKER_LAYER_ID = false ->
  keeps nothing_to_select (addLayer l).
Proof.
  intros Hv Hp. apply quiet_get_map_then. intros m w Hm Hw.
  pose proof Hw as (Hs & Hmap & He). rewrite Hm in Hmap.
  destruct (has_layer (Layer.id l) m); [apply quiet_emit; [reflexivity | exact Hw] |].
  destruct (sources m !! Layer.source l); [| apply quiet_emit; [reflexivity | exact Hw]].
  apply quiet_put_map; [| exact Hw].
  destruct Hmap as (Hv' & Hp' & Hl). unfold without_markers, has_layer in *. cbn.
  rewrite !existsb_app, Hv', Hp'. cbn. rewrite Hv, Hp. repeat split. exact Hl.
Qed.

Lemma quiet_update_layer (id : string) (f : Layer.t -> Layer.t) (m : MapHost) :
  (forall l, Layer.id (f l) = Layer.id l) ->
  without_markers m -> without_markers (update_layer id f m).
Proof.
  intros Hf (Hv & Hp & Hl). unfold without_markers.
  rewrite !has_layer_update_layer by exact Hf. repeat split; assumption.
Qed.

Lemma quiet_setPaintProperty (id name : string) (value : Expr) :
  keeps nothing_to_select (setPaintProperty id name value).
Proof.
  apply quiet_get_map_then. intros m w Hm Hw.
  pose proof Hw as (Hs & Hmap & He). rewrite Hm in Hmap.
  destruct (has_layer id m); [| apply quiet_emit; [reflexivity | exact Hw]].
  apply quiet_put_map; [| exact Hw].
  apply quiet_update_layer; [reflexivity | exact Hmap].
Qed.

Lemma quiet_setFilter (id : string) (filter : option Expr) :
  keeps nothing_to_select (setFilter id filter).
Proof.
  apply quiet_get_map_then. intros m w Hm Hw.
  pose proof Hw as (Hs & Hmap & He). rewrite Hm in Hmap.
  destruct (has_layer id m); [| apply quiet_emit; [reflexivity | exact Hw]].
  apply quiet_put_map; [| exact Hw].
  apply quiet_update_layer; [reflexivity | exact Hmap].
Qed.

Lemma quiet_on (l : Listener) :
  is_layer_listener l = false -> keeps nothing_to_select (on l).
Proof.
  intros Hq. apply quiet_get_map_then. intros m w Hm Hw.
  pose proof Hw as (Hs & Hmap & He). rewrite Hm in Hmap.
  apply quiet_put_map; [| exact Hw].
  destruct Hmap as (Hv & Hp & Hl). repeat split; [exact Hv | exact Hp |].
  cbn. rewrite existsb_app, Hl. cbn. rewrite Hq. reflexivity.
Qed.

(** Takes a statement apart down to the calls above; the load handler is
    cut where it throws. *)
Ltac keeps_quiet_step :=
  lazymatch goal with
  | |- keeps _ (bind (ident _) _) =>
      first [ apply keeps_bind_throws; [intros ?; eexists; reflexivity |]
            | apply keeps_bind; [| intros ?] ]
  | |- keeps _ (bind _ _) => apply keeps_bind; [| intros ?]
  | |- keeps _ (scatch _ _) => apply keeps_scatch; [| intros ?]
  | |- keeps _ (ret _) => apply keeps_ret
  | |- keeps _ (sthrow _) => apply keeps_sthrow
  | |- keeps _ (read _) => apply keeps_read
  | |- keeps _ get_map => apply keeps_get_map
  | |- keeps _ (put_map new_map) => apply quiet_put_new_map
  | |- keeps _ (emit _) => apply quiet_emit; reflexivity
  | |- keeps _ (dispatch _) => apply quiet_dispatch
  | |- keeps _ unmount => apply quiet_unmount
  | |- keeps _ init_cleanup => apply quiet_init_cleanup
  | |- keeps _ (modify (with_store _)) => apply quiet_with_store
  | |- keeps _ (addSource _ _) => apply quiet_addSource
  | |- keeps _ (removeSource _) => apply quiet_removeSource
  | |- keeps _ (setData _ _) => apply quiet_setData
  | |- keeps _ (removeLayer _) => apply quiet_removeLayer
  | |- keeps _ (addLayer _) => apply quiet_addLayer; reflexivity
  | |- keeps _ (setPaintProperty _ _ _) => apply quiet_setPaintProperty
  | |- keeps _ (setFilter _ _) => apply quiet_setFilter
  | |- keeps _ (on _) => apply quiet_on; reflexivity
  | |- keeps _ (modify (with_ui _)) =>
      apply quiet_with_ui; intros []; first [left; reflexivity | right; reflexivity]
  | |- keeps _ (match ?x with _ => _ end) => destruct x
  | |- keeps _ (let _ := _ in _) => cbv zeta
  | |- keeps _ ?s => let h := head_of s in progress unfold h
  end.

Ltac keeps_quiet := repeat keeps_quiet_step.



Lemma on_load_quiet (buildings : FeatureCollection) :
  keeps nothing_to_select (on_load buildings).
Proof. keeps_quiet. Qed.










